(** * Goldbach platform: signal engine and backtester

    A shallow embedding of [app/goldbach_engine.py] and of the trading loop,
    exit rules and Monte Carlo resampling of [app/backtester.py], followed by
    the properties the specification states about them.

    Modelling conventions.
    - Python [float] prices, capital and P&L are exact rationals ([Q]) in the
      engine and in the trading loop; the comparisons of the code are the
      boolean comparisons of [Q], and every equation between prices is stated
      with [==].  The operations on [Q] do not round, so the statements about
      these values follow the code operation by operation and do not regroup
      sums or cancel factors.  Where rounding decides the outcome (the
      truncation of a scaled price, the replays of the Monte Carlo
      resampling, the length of an in-sample part) the code is embedded a
      second time on IEEE doubles, in the module [Doubles].
    - A price of the exact model is finite; [calculate_range_at] adds the
      prices that are not.  The minimal signal strength of a configuration is
      one of the five names of [strength_order]; any other value makes
      [strength_order.index] raise ValueError and is not represented.
    - Python [int] is [Z]; [//] is [Z.div] (both floor), [int(x)] on a float
      truncates toward zero ([py_int]).
    - An exception is a value [Raise e] of [result].  The counter of the
      engine is threaded explicitly; [generate_setup] returns the engine next
      to its outcome, so that the counter keeps the value it had when an
      exception was raised, as the attribute of the Python object does.  A
      backtest that raises is over: the model keeps no state of it.
    - [datetime] is a record of its calendar fields; adding a minute raises
      OverflowError past [MAXYEAR = 9999], and seconds are not represented.
    - The free-text fields ([reasoning], the [description] of an
      invalidation, [trading_bias], [key_day_info]) are presentation only and
      are left out of the records. *)

From Stdlib Require Import Floats ZArith QArith Qround Qabs Bool String List.
From Stdlib Require Import Lia Lqa.
From Stdlib Require Import Permutation Sorted DecimalString.
Import ListNotations.

(** ** Python primitives *)

Module Py.

Inductive exn : Set :=
| ZeroDivisionError
| ValueError
| OverflowError.

Inductive result (A : Type) : Type :=
| Ok (a : A)
| Raise (e : exn).

Arguments Ok {A} a.
Arguments Raise {A} e.

Definition bind {A B : Type} (c : result A) (k : A -> result B) : result B :=
  match c with
  | Ok a => k a
  | Raise e => Raise e
  end.

(** [x < y] and [x <= y] on floats. *)
Definition Qleb (x y : Q) : bool := Qle_bool x y.
Definition Qltb (x y : Q) : bool := negb (Qle_bool y x).

(** [int(x)]: truncation toward zero. *)
Definition py_int (x : Q) : Z := Z.quot (Qnum x) (Z.pos (Qden x)).

(** [min(a, b)] and [max(a, b)]: the first argument wins a tie. *)
Definition Qmin2 (a b : Q) : Q := if Qltb b a then b else a.
Definition Qmax2 (a b : Q) : Q := if Qltb a b then b else a.

(** [x / y] on floats. *)
Definition truediv (x y : Q) : result Q :=
  if Qeq_bool y 0 then Raise ZeroDivisionError else Ok (x / y)%Q.

(** [str(n)] for a non-negative integer. *)
Definition str (n : Z) : string := NilZero.string_of_int (Z.to_int n).

End Py.

Import Py.

Declare Scope py_scope.
Notation "x <- c ;; k" := (bind c (fun x => k))
  (at level 61, c at next level, right associativity) : py_scope.
Open Scope py_scope.

(** ** goldbach_engine.py *)

Module GoldbachEngine.

Inductive Bias : Set := BULLISH | BEARISH | NEUTRAL.

Inductive Layer : Set := LIQUIDITY | FLOW | REBALANCE.

(** [TradePlan.LIQUIDITY] and [TradePlan.REBALANCE] carry the prefix [PLAN_],
    their names being those of two layers. *)
Inductive TradePlan : Set :=
| EINSTEIN
| PLAN_LIQUIDITY
| FLOW_CONTINUATION
| FLOW_REJECTION
| PLAN_REBALANCE
| STOP_RUN.

Inductive AMDCycle : Set := ASIAN | MANIPULATION | DISTRIBUTION_1 | DISTRIBUTION_2.

(** [AMDCycle.value] *)
Definition AMDCycle_value (c : AMDCycle) : string :=
  match c with
  | ASIAN => "A"
  | MANIPULATION => "M"
  | DISTRIBUTION_1 => "D1"
  | DISTRIBUTION_2 => "D2"
  end.

Definition Bias_eqb (a b : Bias) : bool :=
  match a, b with
  | BULLISH, BULLISH | BEARISH, BEARISH | NEUTRAL, NEUTRAL => true
  | _, _ => false
  end.

Definition TradePlan_eqb (a b : TradePlan) : bool :=
  match a, b with
  | EINSTEIN, EINSTEIN | PLAN_LIQUIDITY, PLAN_LIQUIDITY
  | FLOW_CONTINUATION, FLOW_CONTINUATION | FLOW_REJECTION, FLOW_REJECTION
  | PLAN_REBALANCE, PLAN_REBALANCE | STOP_RUN, STOP_RUN => true
  | _, _ => false
  end.

Definition PO3_SIZES : list Z := [3; 9; 27; 81; 243; 729; 2187; 6561]%Z.
Definition DEFAULT_PO3 : Z := 729.

Record LevelInfo : Set := mkLevelInfo {
  info_name : string;
  info_ict : string;
  info_layer : option Layer
}.

(** The dict keeps insertion order, so it is an association list. *)
Definition GOLDBACH_LEVELS : list (Z * LevelInfo) :=
  [ (0,  mkLevelInfo "LOW" "Range Low" (Some LIQUIDITY));
    (3,  mkLevelInfo "REJ" "Rejection Block" (Some LIQUIDITY));
    (7,  mkLevelInfo "LLOD" "Last Line of Defence" (Some LIQUIDITY));
    (11, mkLevelInfo "IRL" "Order Block" (Some LIQUIDITY));
    (17, mkLevelInfo "GIP" "Fair Value Gap" (Some LIQUIDITY));
    (23, mkLevelInfo "nGB" "(non-Goldbach)" None);
    (29, mkLevelInfo "FLOW" "Liquidity Void" (Some FLOW));
    (35, mkLevelInfo "nGB" "(non-Goldbach)" None);
    (41, mkLevelInfo "EXT.REB" "Breaker" (Some REBALANCE));
    (47, mkLevelInfo "INT.REB" "Mitigation Block" (Some REBALANCE));
    (50, mkLevelInfo "EQ" "Equilibrium" (Some REBALANCE));
    (53, mkLevelInfo "INT.REB" "Mitigation Block" (Some REBALANCE));
    (59, mkLevelInfo "EXT.REB" "Breaker" (Some REBALANCE));
    (65, mkLevelInfo "nGB" "(non-Goldbach)" None);
    (71, mkLevelInfo "FLOW" "Liquidity Void" (Some FLOW));
    (77, mkLevelInfo "nGB" "(non-Goldbach)" None);
    (83, mkLevelInfo "GIP" "Fair Value Gap" (Some LIQUIDITY));
    (89, mkLevelInfo "IRL" "Order Block" (Some LIQUIDITY));
    (93, mkLevelInfo "LLOD" "Last Line of Defence" (Some LIQUIDITY));
    (97, mkLevelInfo "REJ" "Rejection Block" (Some LIQUIDITY));
    (100, mkLevelInfo "HIGH" "Range High" (Some LIQUIDITY)) ]%Z.

Definition GOLDBACH_NUMBERS : list Z :=
  [3; 11; 17; 29; 41; 47; 53; 59; 71; 83; 89; 97]%Z.

(** month |-> (start_day, number) *)
Definition MONTHLY_PARTITIONS : list (Z * (Z * Z)) :=
  [ (1, (8, 18)); (2, (7, 27)); (3, (6, 36)); (4, (5, 45));
    (5, (4, 54)); (6, (3, 63)); (7, (2, 72)); (8, (1, 81));
    (9, (9, 99)); (10, (8, 108)); (11, (7, 117)); (12, (6, 126)) ]%Z.

Record GoldbachLevel : Set := mkGoldbachLevel {
  level_pct : Z;
  level_price : Q;
  level_name : string;
  ict_name : string;
  level_layer : option Layer;
  level_is_goldbach : bool
}.

Record PO3Range : Set := mkPO3Range {
  range_num : Z;
  low : Q;
  high : Q;
  size : Z;
  levels : list GoldbachLevel
}.

(** [PO3Range.get_level_price] *)
Definition get_level_price (r : PO3Range) (pct : Z) : Q :=
  (low r + (inject_Z pct / 100) * inject_Z (size r))%Q.

(** [PO3Range.get_position] *)
Definition get_position (r : PO3Range) (price : Q) : result Q :=
  if Qltb price (low r) then Ok 0%Q
  else if Qltb (high r) price then Ok 100%Q
  else q <- truediv (price - low r) (inject_Z (size r)) ;; Ok (q * 100)%Q.

Definition Z_mem (x : Z) (l : list Z) : bool := existsb (Z.eqb x) l.

(** [GoldbachEngine._calculate_levels] *)
Definition _calculate_levels (r : PO3Range) : list GoldbachLevel :=
  map (fun kv : Z * LevelInfo =>
         let (pct, info) := kv in
         mkGoldbachLevel pct (get_level_price r pct)
           (if Z_mem pct [0; 50; 100]%Z then info_name info
            else (info_name info ++ " [" ++ str pct ++ "]")%string)
           (info_ict info) (info_layer info)
           (negb (Z_mem pct [23; 35; 65; 77]%Z)))
      GOLDBACH_LEVELS.

(** The engine object: [default_po3] and the mutable [setup_counter]
    (the unused [_ranges_cache] is not represented). *)
Record Engine : Set := mkEngine {
  default_po3 : Z;
  setup_counter : Z
}.

(** [GoldbachEngine.__init__] *)
Definition init (default : Z) : Engine := mkEngine default 0.

(** [po3_size or self.default_po3]: [None] and [0] are both falsy. *)
Definition po3_or_default (self : Engine) (po3_size : option Z) : Z :=
  match po3_size with
  | Some s => if (s =? 0)%Z then default_po3 self else s
  | None => default_po3 self
  end.

(** [GoldbachEngine.calculate_range] *)
Definition calculate_range (self : Engine) (price : Q) (po3_size : option Z)
  : result PO3Range :=
  let po3 := po3_or_default self po3_size in
  let price_int := if Qltb price 100 then py_int (price * 10000) else py_int price in
  if (po3 =? 0)%Z then Raise ZeroDivisionError
  else
    let range_num := (price_int / po3)%Z in
    let range_low := (range_num * po3)%Z in
    let range_high := (range_low + po3)%Z in
    let lo := if Qltb price 100 then (inject_Z range_low / 10000)%Q
              else inject_Z range_low in
    let hi := if Qltb price 100 then (inject_Z range_high / 10000)%Q
              else inject_Z range_high in
    let po3_range := mkPO3Range range_num lo hi po3 [] in
    Ok (mkPO3Range range_num lo hi po3 (_calculate_levels po3_range)).

(** [GoldbachEngine._get_layer_for_position] *)
Definition _get_layer_for_position (position : Q) : option Layer :=
  if Qleb position 17 || Qleb 83 position then Some LIQUIDITY
  else if (Qleb 29 position && Qleb position 35)
          || (Qleb 65 position && Qleb position 71) then Some FLOW
  else if Qleb 41 position && Qleb position 59 then Some REBALANCE
  else None.

Record BiasAnalysis : Set := mkBiasAnalysis {
  bias : Bias;
  confidence : Z;
  gip_level : Z;
  position : Q;
  layer : Layer
}.

(** [GoldbachEngine.analyze_bias] *)
Definition analyze_bias (self : Engine) (price : Q) (po3_size : option Z)
    (trend_days : Z) : result BiasAnalysis :=
  po3_range <- calculate_range self price po3_size ;;
  position <- get_position po3_range price ;;
  let layer := _get_layer_for_position position in
  let confidence := 50%Z in
  let '(bias, gip_level, confidence) :=
    if Qleb position 17 then (BULLISH, 17, confidence + 15)%Z
    else if Qleb 83 position then (BEARISH, 83, confidence + 15)%Z
    else if Qltb position 50 then (BULLISH, 17, confidence)%Z
    else if Qltb 50 position then (BEARISH, 83, confidence)%Z
    else (NEUTRAL, 50, confidence)%Z in
  let confidence :=
    match layer with
    | Some LIQUIDITY => (confidence + 10)%Z
    | Some FLOW => (confidence + 5)%Z
    | Some REBALANCE => confidence
    | None => confidence
    end in
  let confidence :=
    if (trend_days =? 0)%Z then confidence
    else
      let trend_aligned :=
        ((0 <? trend_days)%Z && Bias_eqb bias BULLISH)
        || ((trend_days <? 0)%Z && Bias_eqb bias BEARISH) in
      if trend_aligned
      then (confidence + Z.min (Z.abs trend_days * 2) 10)%Z
      else (confidence - Z.min (Z.abs trend_days * 2) 10)%Z in
  let confidence := Z.max 40 (Z.min 85 confidence) in
  Ok (mkBiasAnalysis bias confidence gip_level position
        (match layer with Some l => l | None => FLOW end)).

(** *** Goldbach time *)

Record datetime : Set := mkDatetime {
  dt_year : Z;
  dt_month : Z;
  dt_day : Z;
  dt_hour : Z;
  dt_minute : Z
}.

Definition is_leap (y : Z) : bool :=
  (((y mod 4 =? 0) && negb (y mod 100 =? 0)) || (y mod 400 =? 0))%Z.

Definition days_in_month (y m : Z) : Z :=
  if (m =? 2)%Z then (if is_leap y then 29 else 28)%Z
  else if Z_mem m [4; 6; 9; 11]%Z then 30%Z
  else 31%Z.

(** [datetime.MAXYEAR]: the last moment a [datetime] can hold is
    9999-12-31 23:59:59.999999. *)
Definition MAXYEAR : Z := 9999.

(** [t + timedelta(minutes=1)], which raises OverflowError when the sum
    would leave year [MAXYEAR]. *)
Definition add_minute (t : datetime) : result datetime :=
  if (dt_minute t <? 59)%Z then
    Ok (mkDatetime (dt_year t) (dt_month t) (dt_day t) (dt_hour t)
          (dt_minute t + 1))
  else if (dt_hour t <? 23)%Z then
    Ok (mkDatetime (dt_year t) (dt_month t) (dt_day t) (dt_hour t + 1) 0)
  else if (dt_day t <? days_in_month (dt_year t) (dt_month t))%Z then
    Ok (mkDatetime (dt_year t) (dt_month t) (dt_day t + 1) 0 0)
  else if (dt_month t <? 12)%Z then
    Ok (mkDatetime (dt_year t) (dt_month t + 1) 1 0 0)
  else if (dt_year t <? MAXYEAR)%Z then
    Ok (mkDatetime (dt_year t + 1) 1 1 0 0)
  else Raise OverflowError.

Record GoldbachTime : Set := mkGoldbachTime {
  time : datetime;
  hour : Z;
  minute : Z;
  sum_value : Z;
  is_goldbach : bool;
  nearest_goldbach : Z
}.

(** [min(l, key=...)] with the first minimal element kept; [d] stands for
    the element chosen so far. *)
Definition min_by_key (key : Z -> Z) (d : Z) (l : list Z) : Z :=
  fold_left (fun best x => if (key x <? key best)%Z then x else best) l d.

(** [GoldbachEngine.analyze_goldbach_time] *)
Definition analyze_goldbach_time (t : datetime) : GoldbachTime :=
  let hour := dt_hour t in
  let minute := dt_minute t in
  let sum_value := (hour + minute)%Z in
  let is_goldbach := Z_mem sum_value GOLDBACH_NUMBERS in
  let nearest :=
    min_by_key (fun x => Z.abs (x - sum_value)) (hd 0%Z GOLDBACH_NUMBERS)
               (tl GOLDBACH_NUMBERS) in
  mkGoldbachTime t hour minute sum_value is_goldbach nearest.

(** The [while] loop of [get_next_goldbach_times]; [fuel] bounds the number
    of iterations and [None] means the bound was reached. *)
Fixpoint next_goldbach_loop (fuel : nat) (current : datetime) (count : Z)
    (results : list GoldbachTime) : option (result (list GoldbachTime)) :=
  if (Z.of_nat (List.length results) <? count)%Z then
    match fuel with
    | O => None
    | S fuel' =>
        match add_minute current with
        | Raise e => Some (Raise e)
        | Ok current =>
            let gb_time := analyze_goldbach_time current in
            next_goldbach_loop fuel' current count
              (if is_goldbach gb_time then (results ++ [gb_time])%list
               else results)
        end
    end
  else Some (Ok results).

(** [GoldbachEngine.get_next_goldbach_times] *)
Definition get_next_goldbach_times (fuel : nat) (from_time : datetime)
    (count : Z) : option (result (list GoldbachTime)) :=
  next_goldbach_loop fuel from_time count [].

(** *** AMD cycles and monthly partitions *)

Record AMDInfo : Set := mkAMDInfo {
  cycle : AMDCycle;
  cycle_name : string;
  description : string
}.

(** [GoldbachEngine.get_amd_cycle] *)
Definition get_amd_cycle (t : datetime) : AMDInfo :=
  let hour := dt_hour t in
  if (((20 <=? hour) && (hour <=? 23)) || ((0 <=? hour) && (hour <? 3)))%Z then
    mkAMDInfo ASIAN "Asian Session" "Consolidation phase - mark the range"
  else if ((3 <=? hour) && (hour <? 9))%Z then
    mkAMDInfo MANIPULATION "London/Manipulation" "Creates HOD/LOD in 80%+ of cases"
  else if ((9 <=? hour) && (hour <? 12))%Z then
    mkAMDInfo DISTRIBUTION_1 "NY AM (D1)" "Continuation or reversal of M move"
  else
    mkAMDInfo DISTRIBUTION_2 "NY PM (D2)" "Profit taking and reversals common".

Record PartitionInfo : Set := mkPartitionInfo {
  p_month : Z;
  p_day : Z;
  partition_start : Z;
  partition_number : Z;
  partition_day : Z;
  is_key_day : bool;
  expected_stop_run_pips : Z
}.

Fixpoint assoc {V : Type} (k : Z) (l : list (Z * V)) : option V :=
  match l with
  | [] => None
  | (k', v) :: l' => if (k =? k')%Z then Some v else assoc k l'
  end.

(** [GoldbachEngine.get_monthly_partition_info] *)
Definition get_monthly_partition_info (date : datetime) : PartitionInfo :=
  let month := dt_month date in
  let day := dt_day date in
  let partition := assoc month MONTHLY_PARTITIONS in
  let start_day := match partition with Some p => fst p | None => 1%Z end in
  let number := match partition with Some p => snd p | None => 0%Z end in
  let partition_day :=
    if (start_day <=? day)%Z then (day - start_day + 1)%Z else 0%Z in
  mkPartitionInfo month day start_day number partition_day
    (Z_mem partition_day [3; 11; 17]%Z) number.

(** *** Trade setup generation *)

Inductive Strength : Set := WEAK | MEDIUM | STRONG | EXCELLENT | PERFECT.

(** One entry of [targets]: [{"name", "level", "price"}]. *)
Record Target : Set := mkTarget {
  target_name : string;
  target_level : Z;
  target_price : Q
}.

(** The [invalidation] dict when it is not empty: [{"level", "price"}]. *)
Record Invalidation : Set := mkInvalidation {
  inv_level : Z;
  inv_price : Q
}.

Record TradeSetup : Set := mkTradeSetup {
  id : Z;
  timestamp : datetime;
  symbol : string;
  plan : TradePlan;
  setup_bias : Bias;
  setup_confidence : Z;
  entry_zone : Q * Q;
  entry_price : Q;
  stop_loss : Q;
  targets : list Target;
  invalidation : option Invalidation;
  goldbach_time_confirm : bool;
  amd_cycle : AMDCycle;
  monthly_partition_day : Z;
  signal_strength : Strength;
  status : string;
  result_ : option string
}.

(** What [_determine_trade_plan] returns:
    (plan, entry_zone, targets, invalidation); the empty dict is [None]. *)
Definition PlanChoice : Set :=
  (option TradePlan * (Q * Q) * list Target * option Invalidation)%type.

(** [GoldbachEngine._determine_trade_plan] *)
Definition _determine_trade_plan (po3_range : PO3Range) (position : Q)
    (b : BiasAnalysis) : PlanChoice :=
  let lp := get_level_price po3_range in
  if Qleb position 17 && Bias_eqb (bias b) BULLISH then
    (Some EINSTEIN, (lp 11%Z, lp 17%Z),
     [mkTarget "T1 (Partial)" 47 (lp 47%Z); mkTarget "T2 (Full)" 59 (lp 59%Z)],
     Some (mkInvalidation 7 (lp 7%Z)))
  else if Qleb 83 position && Bias_eqb (bias b) BEARISH then
    (Some EINSTEIN, (lp 83%Z, lp 89%Z),
     [mkTarget "T1 (Partial)" 53 (lp 53%Z); mkTarget "T2 (Full)" 41 (lp 41%Z)],
     Some (mkInvalidation 93 (lp 93%Z)))
  else if Qleb position 11 && Bias_eqb (bias b) BULLISH then
    (Some PLAN_LIQUIDITY, (lp 3%Z, lp 11%Z),
     [mkTarget "T1" 29 (lp 29%Z); mkTarget "T2" 50 (lp 50%Z)],
     Some (mkInvalidation 0 (low po3_range)))
  else if Qleb 89 position && Bias_eqb (bias b) BEARISH then
    (Some PLAN_LIQUIDITY, (lp 89%Z, lp 97%Z),
     [mkTarget "T1" 71 (lp 71%Z); mkTarget "T2" 50 (lp 50%Z)],
     Some (mkInvalidation 100 (high po3_range)))
  else if (Qleb 29 position && Qleb position 35) && Bias_eqb (bias b) BULLISH then
    (Some FLOW_CONTINUATION, (lp 29%Z, lp 35%Z),
     [mkTarget "T1" 50 (lp 50%Z); mkTarget "T2" 71 (lp 71%Z)],
     Some (mkInvalidation 17 (lp 17%Z)))
  else if (Qleb 65 position && Qleb position 71) && Bias_eqb (bias b) BEARISH then
    (Some FLOW_CONTINUATION, (lp 65%Z, lp 71%Z),
     [mkTarget "T1" 50 (lp 50%Z); mkTarget "T2" 29 (lp 29%Z)],
     Some (mkInvalidation 83 (lp 83%Z)))
  else if Qleb 41 position && Qleb position 59 then
    if Qleb position 50 then
      (Some PLAN_REBALANCE, (lp 41%Z, lp 47%Z),
       [mkTarget "T1" 53 (lp 53%Z); mkTarget "T2" 59 (lp 59%Z)],
       Some (mkInvalidation 35 (lp 35%Z)))
    else
      (Some PLAN_REBALANCE, (lp 53%Z, lp 59%Z),
       [mkTarget "T1" 47 (lp 47%Z); mkTarget "T2" 41 (lp 41%Z)],
       Some (mkInvalidation 65 (lp 65%Z)))
  else (None, (0%Q, 0%Q), [], None).

(** [GoldbachEngine._calculate_signal_strength] *)
Definition _calculate_signal_strength (b : BiasAnalysis) (gb_time : GoldbachTime)
    (amd : AMDInfo) (partition : PartitionInfo) : Strength :=
  let score := 0%Z in
  let score :=
    if (70 <=? confidence b)%Z then (score + 2)%Z
    else if (60 <=? confidence b)%Z then (score + 1)%Z
    else score in
  let score := if is_goldbach gb_time then (score + 2)%Z else score in
  let score :=
    match cycle amd with
    | MANIPULATION | DISTRIBUTION_1 => (score + 1)%Z
    | _ => score
    end in
  let score := if is_key_day partition then (score + 1)%Z else score in
  let score :=
    match layer b with
    | LIQUIDITY => (score + 1)%Z
    | _ => score
    end in
  if (6 <=? score)%Z then PERFECT
  else if (5 <=? score)%Z then EXCELLENT
  else if (4 <=? score)%Z then STRONG
  else if (2 <=? score)%Z then MEDIUM
  else WEAK.

(** The body of [generate_setup] after the counter was incremented;
    [self] is the engine with the new counter. *)
Definition generate_setup_body (self : Engine) (price : Q) (symbol : string)
    (po3_size : option Z) (trend_days : Z) (t : datetime)
  : result (option TradeSetup) :=
  po3_range <- calculate_range self price po3_size ;;
  position <- get_position po3_range price ;;
  bias_analysis <- analyze_bias self price po3_size trend_days ;;
  let gb_time := analyze_goldbach_time t in
  let amd_info := get_amd_cycle t in
  let partition_info := get_monthly_partition_info t in
  let '(plan, entry_zone, targets, invalidation) :=
    _determine_trade_plan po3_range position bias_analysis in
  match plan with
  | None => Ok None
  | Some plan =>
      let entry_price := ((fst entry_zone + snd entry_zone) / 2)%Q in
      let stop_loss :=
        if Bias_eqb (bias bias_analysis) BULLISH then
          match invalidation with
          | Some i => inv_price i
          | None => (fst entry_zone - 20)%Q
          end
        else
          match invalidation with
          | Some i => inv_price i
          | None => (snd entry_zone + 20)%Q
          end in
      let signal_strength :=
        _calculate_signal_strength bias_analysis gb_time amd_info partition_info in
      Ok (Some (mkTradeSetup (setup_counter self) t symbol plan
                  (bias bias_analysis) (confidence bias_analysis)
                  entry_zone entry_price stop_loss targets invalidation
                  (is_goldbach gb_time) (cycle amd_info)
                  (partition_day partition_info) signal_strength
                  "PENDING" None))
  end.

(** [GoldbachEngine.generate_setup]: the outcome of the call and the engine
    after it.  [self.setup_counter += 1] comes before anything that can
    raise, so the engine returned carries the new counter in every case. *)
Definition generate_setup (self : Engine) (price : Q) (symbol : string)
    (po3_size : option Z) (trend_days : Z) (t : datetime)
  : result (option TradeSetup) * Engine :=
  let self := mkEngine (default_po3 self) (setup_counter self + 1) in
  (generate_setup_body self price symbol po3_size trend_days t, self).

End GoldbachEngine.

Import GoldbachEngine.

(** ** backtester.py *)

Module Backtester.

Inductive Direction : Set := LONG | SHORT.

Inductive ExitReason : Set := TARGET_1 | TARGET_2 | STOP_LOSS | TIME_EXIT.

Inductive TradeResult : Set := WIN | LOSS | BREAKEVEN.

Record BacktestTrade : Set := mkBacktestTrade {
  bt_id : Z;
  bt_entry_time : datetime;
  bt_exit_time : datetime;
  bt_symbol : string;
  bt_direction : Direction;
  bt_plan : TradePlan;
  bt_entry_price : Q;
  bt_exit_price : Q;
  bt_stop_loss : Q;
  bt_target_1 : Q;
  bt_target_2 : Q;
  bt_position_size : Q;
  pnl : Q;
  pnl_pct : Q;
  bt_result : TradeResult;
  exit_reason : ExitReason;
  bars_held : Z;
  bt_mae : Q;
  bt_mfe : Q;
  bt_signal_strength : Strength;
  bt_goldbach_time : bool;
  bt_amd_cycle : string
}.

Record BacktestConfig : Set := mkBacktestConfig {
  initial_capital : Q;
  position_size_pct : Q;
  max_positions : Z;
  commission : Q;
  slippage : Q;
  use_stop_loss : bool;
  use_trailing_stop : bool;
  trailing_stop_pct : Q;
  min_signal_strength : Strength;
  allowed_plans : list TradePlan;
  allowed_amd_cycles : list string;
  require_goldbach_time : bool;
  max_bars_in_trade : Z;
  po3_size : Z
}.

(** The defaults of the dataclass. *)
Definition default_config : BacktestConfig :=
  mkBacktestConfig 10000 1 1 0 0 true false (1 # 2) MEDIUM
    [EINSTEIN; PLAN_LIQUIDITY; FLOW_CONTINUATION; FLOW_REJECTION;
     PLAN_REBALANCE; STOP_RUN]
    ["M"%string; "D1"%string] false 50 DEFAULT_PO3.

(** The [current_trade] dict of [run_backtest]. *)
Record OpenTrade : Set := mkOpenTrade {
  t_id : Z;
  entry_bar : Z;
  t_entry_time : datetime;
  t_symbol : string;
  direction : Direction;
  t_plan : TradePlan;
  t_entry_price : Q;
  t_stop_loss : Q;
  target_1 : Q;
  target_2 : Q;
  position_size : Q;
  t_signal_strength : Strength;
  t_goldbach_time : bool;
  t_amd_cycle : string;
  mae : Q;
  mfe : Q
}.

(** One row of the price frame: the index entry and the four columns. *)
Record Bar : Set := mkBar {
  bar_date : datetime;
  bar_open : Q;
  bar_high : Q;
  bar_low : Q;
  bar_close : Q
}.

(** [self.strength_order.index(s)] *)
Definition strength_index (s : Strength) : Z :=
  match s with
  | WEAK => 0
  | MEDIUM => 1
  | STRONG => 2
  | EXCELLENT => 3
  | PERFECT => 4
  end.

(** [BacktestEngine._filter_setup], for a configuration whose
    [min_signal_strength] is one of the names of [strength_order]. *)
Definition _filter_setup (cfg : BacktestConfig) (setup : TradeSetup) : bool :=
  let min_idx := strength_index (min_signal_strength cfg) in
  let current_idx := strength_index (signal_strength setup) in
  if (current_idx <? min_idx)%Z then false
  else if negb (existsb (TradePlan_eqb (plan setup)) (allowed_plans cfg)) then false
  else if negb (existsb (String.eqb (AMDCycle_value (amd_cycle setup)))
                        (allowed_amd_cycles cfg)) then false
  else if require_goldbach_time cfg && negb (goldbach_time_confirm setup) then false
  else true.

(** The dict [{'price', 'reason'}] returned by [_check_exit]. *)
Record ExitInfo : Set := mkExitInfo {
  exit_price : Q;
  reason : ExitReason
}.

(** [BacktestEngine._check_exit] *)
Definition _check_exit (cfg : BacktestConfig) (trade : OpenTrade)
    (high low close : Q) (current_bar : Z) : option ExitInfo :=
  let bars_held := (current_bar - entry_bar trade)%Z in
  if (max_bars_in_trade cfg <=? bars_held)%Z then
    Some (mkExitInfo close TIME_EXIT)
  else
    match direction trade with
    | LONG =>
        if use_stop_loss cfg && Qleb low (t_stop_loss trade) then
          Some (mkExitInfo (t_stop_loss trade) STOP_LOSS)
        else if Qleb (target_2 trade) high then
          Some (mkExitInfo (target_2 trade) TARGET_2)
        else if Qleb (target_1 trade) high then
          Some (mkExitInfo (target_1 trade) TARGET_1)
        else None
    | SHORT =>
        if use_stop_loss cfg && Qleb (t_stop_loss trade) high then
          Some (mkExitInfo (t_stop_loss trade) STOP_LOSS)
        else if Qleb low (target_2 trade) then
          Some (mkExitInfo (target_2 trade) TARGET_2)
        else if Qleb low (target_1 trade) then
          Some (mkExitInfo (target_1 trade) TARGET_1)
        else None
    end.

(** [BacktestEngine._close_trade] *)
Definition _close_trade (cfg : BacktestConfig) (trade : OpenTrade)
    (exit_time : datetime) (exit_price : Q) (exit_reason : ExitReason)
    (bars_held : Z) (mae mfe : Q) : result BacktestTrade :=
  let pnl :=
    match direction trade with
    | LONG => ((exit_price - t_entry_price trade) * position_size trade)%Q
    | SHORT => ((t_entry_price trade - exit_price) * position_size trade)%Q
    end in
  let pnl := (pnl - commission cfg * 2)%Q in
  let pnl := (pnl - slippage cfg * 2)%Q in
  q <- truediv pnl (position_size trade) ;;
  let pnl_pct := (q * 100)%Q in
  let res :=
    if Qltb 0 pnl then WIN
    else if Qltb pnl 0 then LOSS
    else BREAKEVEN in
  Ok (mkBacktestTrade (t_id trade) (t_entry_time trade) exit_time
        (t_symbol trade) (direction trade) (t_plan trade)
        (t_entry_price trade) exit_price (t_stop_loss trade)
        (target_1 trade) (target_2 trade) (position_size trade)
        pnl pnl_pct res exit_reason bars_held mae mfe
        (t_signal_strength trade) (t_goldbach_time trade) (t_amd_cycle trade)).

(** The local variables of [run_backtest] together with [self.trades] and
    [self.engine]. *)
Record RunState : Set := mkRunState {
  trades : list BacktestTrade;
  capital : Q;
  equity_curve : list Q;
  in_trade : bool;
  current_trade : option OpenTrade;
  trade_id : Z;
  engine : Engine
}.

(** The branch [if not in_trade:] of the loop body. *)
Definition look_for_entry (cfg : BacktestConfig) (symbol : string) (i : Z)
    (prev_close : Q) (current_date : datetime) (s : RunState) : result RunState :=
  if negb (in_trade s) then
    let (r, eng) :=
      generate_setup (engine s) prev_close symbol (Some (po3_size cfg)) 0
                     current_date in
    setup <- r ;;
    match setup with
    | Some setup =>
        if _filter_setup cfg setup then
          let trade_id := (trade_id s + 1)%Z in
          let position_size := (capital s * position_size_pct cfg / 100)%Q in
          let tr :=
            mkOpenTrade trade_id i current_date symbol
              (if Bias_eqb (setup_bias setup) BULLISH then LONG else SHORT)
              (plan setup) (entry_price setup) (stop_loss setup)
              (match targets setup with
               | t1 :: _ => target_price t1
               | [] => entry_price setup
               end)
              (match targets setup with
               | _ :: t2 :: _ => target_price t2
               | _ => entry_price setup
               end)
              position_size (signal_strength setup)
              (goldbach_time_confirm setup)
              (AMDCycle_value (amd_cycle setup)) 0 0 in
          Ok (mkRunState (trades s) (capital s) (equity_curve s) true
                (Some tr) trade_id eng)
        else
          Ok (mkRunState (trades s) (capital s) (equity_curve s) (in_trade s)
                (current_trade s) (trade_id s) eng)
    | None =>
        Ok (mkRunState (trades s) (capital s) (equity_curve s) (in_trade s)
              (current_trade s) (trade_id s) eng)
    end
  else Ok s.

(** [trades.append(trade); capital += trade.pnl; equity_curve.append(capital)] *)
Definition book_trade (s : RunState) (trade : BacktestTrade) : RunState :=
  let capital := (capital s + pnl trade)%Q in
  mkRunState (trades s ++ [trade]) capital (equity_curve s ++ [capital])
    false None (trade_id s) (engine s).

(** The MAE/MFE update of the loop body. *)
Definition update_excursions (tr : OpenTrade) (current_high current_low : Q)
  : OpenTrade :=
  let '(mae', mfe') :=
    match direction tr with
    | LONG => (Qmin2 (mae tr) (current_low - t_entry_price tr),
               Qmax2 (mfe tr) (current_high - t_entry_price tr))
    | SHORT => (Qmin2 (mae tr) (t_entry_price tr - current_high),
                Qmax2 (mfe tr) (t_entry_price tr - current_low))
    end in
  mkOpenTrade (t_id tr) (entry_bar tr) (t_entry_time tr) (t_symbol tr)
    (direction tr) (t_plan tr) (t_entry_price tr) (t_stop_loss tr)
    (target_1 tr) (target_2 tr) (position_size tr) (t_signal_strength tr)
    (t_goldbach_time tr) (t_amd_cycle tr) mae' mfe'.

(** One iteration of [for i in range(1, len(data))]: [prev] is bar [i-1],
    [cur] is bar [i]. *)
Definition step (cfg : BacktestConfig) (symbol : string) (i : Z)
    (prev cur : Bar) (s : RunState) : result RunState :=
  match (if in_trade s then current_trade s else None) with
  | Some tr =>
      match _check_exit cfg tr (bar_high cur) (bar_low cur) (bar_close cur) i with
      | Some exit_info =>
          trade <- _close_trade cfg tr (bar_date cur) (exit_price exit_info)
                     (reason exit_info) (i - entry_bar tr)%Z (mae tr) (mfe tr) ;;
          Ok (book_trade s trade)
      | None =>
          let tr := update_excursions tr (bar_high cur) (bar_low cur) in
          let s := mkRunState (trades s) (capital s) (equity_curve s)
                     (in_trade s) (Some tr) (trade_id s) (engine s) in
          look_for_entry cfg symbol i (bar_close prev) (bar_date cur) s
      end
  | None => look_for_entry cfg symbol i (bar_close prev) (bar_date cur) s
  end.

(** The [for] loop, from bar [i] on; [prev] is bar [i-1] and [rest] are the
    bars [i], [i+1], ... *)
Fixpoint bars_loop (cfg : BacktestConfig) (symbol : string) (i : Z)
    (prev : Bar) (rest : list Bar) (s : RunState) : result RunState :=
  match rest with
  | [] => Ok s
  | cur :: rest' =>
      s' <- step cfg symbol i prev cur s ;;
      bars_loop cfg symbol (i + 1) cur rest' s'
  end.

(** The block [# Close any remaining trade]. *)
Definition close_remaining (cfg : BacktestConfig) (data : list Bar)
    (s : RunState) : result RunState :=
  match (if in_trade s then current_trade s else None), rev data with
  | Some tr, final :: _ =>
      trade <- _close_trade cfg tr (bar_date final) (bar_close final) TIME_EXIT
                 (Z.of_nat (List.length data) - entry_bar tr)%Z (mae tr) (mfe tr) ;;
      let capital := (capital s + pnl trade)%Q in
      Ok (mkRunState (trades s ++ [trade]) capital (equity_curve s ++ [capital])
            (in_trade s) (current_trade s) (trade_id s) (engine s))
  | _, _ => Ok s
  end.

(** The state [run_backtest] starts from; [eng] is [self.engine], which
    lives across runs. *)
Definition start_state (cfg : BacktestConfig) (eng : Engine) : RunState :=
  mkRunState [] (initial_capital cfg) [initial_capital cfg] false None 0 eng.

(** [BacktestEngine.run_backtest], up to the call of
    [_calculate_statistics]: the ledger, capital and equity curve the
    statistics are computed from. *)
Definition run_backtest (cfg : BacktestConfig) (eng : Engine)
    (data : list Bar) (symbol : string) : result RunState :=
  let s0 := start_state cfg eng in
  s <- match data with
       | [] => Ok s0
       | first :: rest => bars_loop cfg symbol 1 first rest s0
       end ;;
  close_remaining cfg data s.

(** *** Monte Carlo *)

(** The inner loop of [monte_carlo] on one shuffled sequence:
    (equity, peak, max_dd).  With [peak = 0] numpy yields [inf] or [nan]
    for [dd] where [/] on [Q] yields [0]. *)
Definition replay (initial_capital : Q) (shuffled : list Q) : Q * Q * Q :=
  fold_left
    (fun (acc : Q * Q * Q) (p : Q) =>
       let '(equity, peak, max_dd) := acc in
       let equity := (equity + p)%Q in
       let peak := if Qltb peak equity then equity else peak in
       let dd := ((peak - equity) / peak * 100)%Q in
       (equity, peak, Qmax2 max_dd dd))
    shuffled (initial_capital, initial_capital, 0%Q).

Definition Qsum (l : list Q) : Q := fold_left Qplus l 0%Q.

(** [stats.total_pnl] of [_calculate_statistics]:
    [sum(t.pnl for t in self.trades)]. *)
Definition total_pnl (ledger : list BacktestTrade) : Q := Qsum (map pnl ledger).

(** [np.mean] of a non-empty sequence. *)
Definition mean (l : list Q) : Q := (Qsum l / inject_Z (Z.of_nat (List.length l)))%Q.

(** The part of the report the model keeps ([std] and the percentiles are
    not represented). *)
Record MonteCarlo : Set := mkMonteCarlo {
  final_capitals : list Q;
  max_drawdowns : list Q;
  final_capital_mean : Q;
  risk_of_ruin : Q
}.

(** [BacktestEngine.monte_carlo].  [permutation k l] is the array that the
    [k]-th call of [np.random.permutation] returns for [l].  [Ok None] is
    the empty dict; with no simulation at all [np.min] raises. *)
Definition monte_carlo (cfg : BacktestConfig) (ledger : list BacktestTrade)
    (permutation : nat -> list Q -> list Q) (num_simulations : Z)
  : result (option MonteCarlo) :=
  match ledger with
  | [] => Ok None
  | _ =>
      let pnls := map pnl ledger in
      let runs :=
        map (fun k => replay (initial_capital cfg) (permutation k pnls))
            (seq 0 (Z.to_nat num_simulations)) in
      let final_capitals := map (fun r => fst (fst r)) runs in
      let max_drawdowns := map snd runs in
      match final_capitals with
      | [] => Raise ValueError
      | _ =>
          let ruined :=
            Z.of_nat (List.length (filter (fun fc => Qleb fc 0) final_capitals)) in
          Ok (Some (mkMonteCarlo final_capitals max_drawdowns
                      (mean final_capitals)
                      (inject_Z ruined / inject_Z num_simulations * 100)%Q))
      end
  end.

End Backtester.

Import Backtester.


(** ** The statements of the specification *)

Module Spec.

(** The integer quantity a bracket is computed on. *)
Definition price_int (p : Q) : Z :=
  if Qltb p 100 then py_int (p * 10000) else py_int p.

(** The factor between price units and bracket units: prices below 100
    are scaled by 10,000. *)
Definition scale (p : Q) : Q := if Qltb p 100 then 10000 else 1.

(** "0 <= position(p) <= 100" *)
Definition position_in_range (self : Engine) (p : Q) (s : Z) : Prop :=
  exists r pos,
    calculate_range self p (Some s) = Ok r
    /\ get_position r p = Ok pos /\ 0 <= pos /\ pos <= 100.

(** "bracket.low <= p < bracket.low + bracket.size once rescaled
    consistently" *)
Definition price_in_bracket (self : Engine) (p : Q) (s : Z) : Prop :=
  exists r,
    calculate_range self p (Some s) = Ok r
    /\ low r * scale p <= p * scale p
    /\ p * scale p < low r * scale p + inject_Z (size r).

(** "a price exactly at high maps to the next bracket" *)
Definition high_starts_next (self : Engine) (p : Q) (s : Z) : Prop :=
  exists r r',
    calculate_range self p (Some s) = Ok r
    /\ calculate_range self (high r) (Some s) = Ok r'
    /\ low r' == high r
    /\ range_num r' = (range_num r + 1)%Z.

(** A position outside the three layer bands. *)
Definition outside_layer_bands (pos : Q) : Prop :=
  (17 < pos /\ pos < 29) \/ (35 < pos /\ pos < 41)
  \/ (59 < pos /\ pos < 65) \/ (71 < pos /\ pos < 83).

(** "+-2 per unit of trend magnitude, capped at +-10, added if the trend
    direction matches the bias direction, subtracted otherwise" *)
Definition trend_adjustment (b : Bias) (trend_days : Z) : Z :=
  if (trend_days =? 0)%Z then 0%Z
  else
    let magnitude := Z.min (Z.abs trend_days * 2) 10 in
    match b with
    | BULLISH => if (0 <? trend_days)%Z then magnitude else (- magnitude)%Z
    | BEARISH => if (trend_days <? 0)%Z then magnitude else (- magnitude)%Z
    | NEUTRAL => (- magnitude)%Z
    end.

(** "Final confidence clamped to [40,85]" *)
Definition clamp_confidence (c : Z) : Z := Z.max 40 (Z.min 85 c).

(** *** The plan rule table *)

(** One row of the table: the band and bias condition, and the plan the
    row selects for a bracket. *)
Record PlanRule : Set := mkPlanRule {
  applies : Q -> Bias -> bool;
  selects : PO3Range -> PlanChoice
}.

(** A plan with its entry zone at levels [e1, e2], targets at levels
    [t1, t2] and the invalidation at level [inv] priced by [inv_at]. *)
Definition plan_at (plan : TradePlan) (e1 e2 : Z) (n1 : string) (t1 : Z)
    (n2 : string) (t2 : Z) (inv : Z) (inv_at : PO3Range -> Q)
  : PO3Range -> PlanChoice :=
  fun r =>
    (Some plan, (get_level_price r e1, get_level_price r e2),
     [mkTarget n1 t1 (get_level_price r t1); mkTarget n2 t2 (get_level_price r t2)],
     Some (mkInvalidation inv (inv_at r))).

Definition level (n : Z) : PO3Range -> Q := fun r => get_level_price r n.

Definition in_band (lo hi pos : Q) : bool := Qleb lo pos && Qleb pos hi.

(** Rules 1 to 7 in the order of the specification (rule 7 is two rows). *)
Definition plan_rules : list PlanRule :=
  [ mkPlanRule (fun pos b => Qleb pos 17 && Bias_eqb b BULLISH)
      (plan_at EINSTEIN 11 17 "T1 (Partial)" 47 "T2 (Full)" 59 7 (level 7));
    mkPlanRule (fun pos b => Qleb 83 pos && Bias_eqb b BEARISH)
      (plan_at EINSTEIN 83 89 "T1 (Partial)" 53 "T2 (Full)" 41 93 (level 93));
    mkPlanRule (fun pos b => Qleb pos 11 && Bias_eqb b BULLISH)
      (plan_at PLAN_LIQUIDITY 3 11 "T1" 29 "T2" 50 0 low);
    mkPlanRule (fun pos b => Qleb 89 pos && Bias_eqb b BEARISH)
      (plan_at PLAN_LIQUIDITY 89 97 "T1" 71 "T2" 50 100 high);
    mkPlanRule (fun pos b => in_band 29 35 pos && Bias_eqb b BULLISH)
      (plan_at FLOW_CONTINUATION 29 35 "T1" 50 "T2" 71 17 (level 17));
    mkPlanRule (fun pos b => in_band 65 71 pos && Bias_eqb b BEARISH)
      (plan_at FLOW_CONTINUATION 65 71 "T1" 50 "T2" 29 83 (level 83));
    mkPlanRule (fun pos _ => in_band 41 59 pos && Qleb pos 50)
      (plan_at PLAN_REBALANCE 41 47 "T1" 53 "T2" 59 35 (level 35));
    mkPlanRule (fun pos _ => in_band 41 59 pos)
      (plan_at PLAN_REBALANCE 53 59 "T1" 47 "T2" 41 65 (level 65)) ].

(** Rule 8: no setup. *)
Definition no_setup : PlanChoice := (None, (0, 0), [], None).

(** First match wins: the rows are tested top to bottom. *)
Fixpoint first_match (rules : list PlanRule) (r : PO3Range) (pos : Q)
    (b : Bias) : PlanChoice :=
  match rules with
  | [] => no_setup
  | rule :: rest =>
      if applies rule pos b then selects rule r else first_match rest r pos b
  end.

(** Plan A for a long: entry zone at levels [11, 17], targets at levels
    [47, 59], invalidation at level 7. *)
Definition plan_A_long (r : PO3Range) : PlanChoice :=
  (Some EINSTEIN, (get_level_price r 11, get_level_price r 17),
   [mkTarget "T1 (Partial)" 47 (get_level_price r 47);
    mkTarget "T2 (Full)" 59 (get_level_price r 59)],
   Some (mkInvalidation 7 (get_level_price r 7))).

(** The plan of a choice. *)
Definition chosen_plan (c : PlanChoice) : option TradePlan := fst (fst (fst c)).

(** *** The exit rules *)

Definition stop_touched (trade : OpenTrade) (high low : Q) : bool :=
  match direction trade with
  | LONG => Qleb low (t_stop_loss trade)
  | SHORT => Qleb (t_stop_loss trade) high
  end.

Definition target_touched (trade : OpenTrade) (target high low : Q) : bool :=
  match direction trade with
  | LONG => Qleb target high
  | SHORT => Qleb low target
  end.

(** The four rules in priority order, each with the exit it gives. *)
Definition exit_rules (cfg : BacktestConfig) (trade : OpenTrade)
    (high low close : Q) (current_bar : Z) : list (bool * ExitInfo) :=
  [ ((max_bars_in_trade cfg <=? current_bar - entry_bar trade)%Z,
     mkExitInfo close TIME_EXIT);
    (stop_touched trade high low, mkExitInfo (t_stop_loss trade) STOP_LOSS);
    (target_touched trade (target_2 trade) high low,
     mkExitInfo (target_2 trade) TARGET_2);
    (target_touched trade (target_1 trade) high low,
     mkExitInfo (target_1 trade) TARGET_1) ].

(** "returns at the first hit" *)
Fixpoint first_hit (rules : list (bool * ExitInfo)) : option ExitInfo :=
  match rules with
  | [] => None
  | (hit, e) :: rest => if hit then Some e else first_hit rest
  end.

(** *** Calls on one engine instance *)

(** The arguments of one call of [generate_setup]. *)
Record Call : Set := mkCall {
  call_price : Q;
  call_symbol : string;
  call_po3_size : option Z;
  call_trend_days : Z;
  call_time : datetime
}.

(** A sequence of calls on the same engine: the outcomes in order and the
    engine after the last call. *)
Fixpoint run_calls (self : Engine) (calls : list Call)
  : list (result (option TradeSetup)) * Engine :=
  match calls with
  | [] => ([], self)
  | c :: rest =>
      let (r, self') :=
        generate_setup self (call_price c) (call_symbol c) (call_po3_size c)
                       (call_trend_days c) (call_time c) in
      let (rs, self'') := run_calls self' rest in
      (r :: rs, self'')
  end.

(** The ids of the setups that were returned, in call order. *)
Fixpoint returned_ids (rs : list (result (option TradeSetup))) : list Z :=
  match rs with
  | [] => []
  | Ok (Some setup) :: rest => id setup :: returned_ids rest
  | _ :: rest => returned_ids rest
  end.

(** *** Clock time *)

(** The hour and minute of a [datetime] are within the day; the
    constructor of the Python class admits nothing else. *)
Definition valid_clock (t : datetime) : Prop :=
  (0 <= dt_hour t < 24)%Z /\ (0 <= dt_minute t < 60)%Z.

(** [(hour, minute)] of a time, and the clock one minute later. *)
Definition clock (t : datetime) : Z * Z := (dt_hour t, dt_minute t).

Definition tick (c : Z * Z) : Z * Z :=
  let (h, m) := c in
  if (m <? 59)%Z then (h, m + 1)%Z
  else if (h <? 23)%Z then (h + 1, 0)%Z
  else (0, 0)%Z.

Definition special_clock (c : Z * Z) : bool :=
  Z_mem (fst c + snd c) GOLDBACH_NUMBERS.

(** One of the [k] minutes after the clock time [c] is special. *)
Fixpoint special_within_clock (k : nat) (c : Z * Z) : bool :=
  match k with
  | O => false
  | S k' =>
      if special_clock (tick c) then true
      else special_within_clock k' (tick c)
  end.

(** *** Risk of ruin *)

(** The number of simulations that end at or below zero capital. *)
Fixpoint count_ruined (finals : list Q) : Z :=
  match finals with
  | [] => 0%Z
  | fc :: rest => ((if Qleb fc 0 then 1 else 0) + count_ruined rest)%Z
  end.

(** "fraction of simulations ending at or below zero capital" *)
Definition ruin_fraction (finals : list Q) : Q :=
  inject_Z (count_ruined finals) / inject_Z (Z.of_nat (List.length finals)).

(** *** The run of a backtest, bar by bar *)

(** The states after each bar the loop completed, from bar [i] on. *)
Fixpoint bars_trace (cfg : BacktestConfig) (symbol : string) (i : Z)
    (prev : Bar) (rest : list Bar) (s : RunState) : list RunState :=
  match rest with
  | [] => []
  | cur :: rest' =>
      match step cfg symbol i prev cur s with
      | Ok s' => s' :: bars_trace cfg symbol (i + 1) cur rest' s'
      | Raise _ => []
      end
  end.

(** The start state followed by the state after each bar. *)
Definition visited (cfg : BacktestConfig) (eng : Engine) (data : list Bar)
    (symbol : string) : list RunState :=
  start_state cfg eng ::
  match data with
  | [] => []
  | first :: rest => bars_trace cfg symbol 1 first rest (start_state cfg eng)
  end.

(** Positions open in a state: those opened ([trade_id] counts the
    entries) minus those closed into the ledger. *)
Definition open_positions (s : RunState) : Z :=
  (trade_id s - Z.of_nat (List.length (trades s)))%Z.

(** At most one position is open, the flag says whether one is, and the
    slot of the open trade is filled exactly then. *)
Definition one_position_at_most (s : RunState) : Prop :=
  open_positions s = (if in_trade s then 1 else 0)%Z
  /\ (in_trade s = true <-> current_trade s <> None).

(** From one bar to the next no position is opened while one is open: no
    entry is counted, and a trade that stays open is the same trade. *)
Definition no_second_position (s s' : RunState) : Prop :=
  in_trade s = true ->
  trade_id s' = trade_id s
  /\ (in_trade s' = true ->
      option_map t_id (current_trade s') = option_map t_id (current_trade s)
      /\ option_map entry_bar (current_trade s')
         = option_map entry_bar (current_trade s)).

(** The number of IN-POSITION -> FLAT transitions in a sequence of
    [in_trade] flags. *)
Fixpoint exits (flags : list bool) : nat :=
  match flags with
  | a :: ((b :: _) as rest) => ((if a && negb b then 1 else 0) + exits rest)%nat
  | _ => O
  end.

(** The number of FLAT -> IN-POSITION transitions. *)
Fixpoint entries (flags : list bool) : nat :=
  match flags with
  | a :: ((b :: _) as rest) => ((if negb a && b then 1 else 0) + entries rest)%nat
  | _ => O
  end.

(** FLAT -> IN-POSITION -> FLAT round trips of a run: the flags of the
    visited states, closed by the FLAT that the forced close at the end of
    the series leads to. *)
Definition round_trips (states : list RunState) : nat :=
  exits (map in_trade states ++ [false]).

End Spec.

Import Spec.

(** ** Sample inputs *)

Module Sample.

Definition monday_10h : datetime := mkDatetime 2025 1 6 10 0.

(** A long at 100 with stop 90, target 1 at 110 and target 2 at 120. *)
Definition long_100 : OpenTrade :=
  mkOpenTrade 1 3 monday_10h "NQ" LONG EINSTEIN
    100 90 110 120 100 MEDIUM false "D1" 0 0.

(** A price in the rebalance band of its bracket (position 49.2). *)
Definition call_rebalance : Call := mkCall 21500 "NQ" None 0 monday_10h.

(** A price between the liquidity and flow bands (position 23.0). *)
Definition call_no_trade : Call := mkCall 21309 "NQ" None 0 monday_10h.

(** A long of size 10000 entered at 100 and stopped out at 98. *)
Definition losing_trade : BacktestTrade :=
  mkBacktestTrade 1 monday_10h (mkDatetime 2025 1 7 10 0) "NQ" LONG EINSTEIN
    100 98 98 110 120 10000 (-20000) (-200) LOSS STOP_LOSS 1 (-2) 0
    MEDIUM false "D1".

(** A win of 100 and a loss of 50. *)
Definition win_100 : BacktestTrade :=
  mkBacktestTrade 1 monday_10h (mkDatetime 2025 1 7 10 0) "NQ" LONG EINSTEIN
    100 101 98 101 120 100 100 100 WIN TARGET_1 1 0 1 MEDIUM false "D1".

Definition loss_50 : BacktestTrade :=
  mkBacktestTrade 2 (mkDatetime 2025 1 8 10 0) (mkDatetime 2025 1 9 10 0) "NQ"
    LONG EINSTEIN 100 (199 # 2) (199 # 2) 110 120 100 (-50) (-50) LOSS
    STOP_LOSS 1 (-1 # 2) 0 MEDIUM false "D1".

(** [np.random.permutation] returning its argument unchanged, and
    returning it reversed. *)
Definition keep_order : nat -> list Q -> list Q := fun _ l => l.
Definition reverse_order : nat -> list Q -> list Q := fun _ l => rev l.

(** Four daily bars stamped 10:01, all closing at 21500; the third one
    reaches 21600. *)
Definition at_10_01 (day : Z) : datetime := mkDatetime 2025 1 day 10 1.

Definition four_bars : list Bar :=
  [ mkBar (at_10_01 6) 21480 21520 21470 21500;
    mkBar (at_10_01 7) 21500 21510 21450 21500;
    mkBar (at_10_01 8) 21500 21600 21450 21500;
    mkBar (at_10_01 9) 21500 21510 21450 21500 ].

End Sample.

(** ** goldbach_engine.py: position queries *)

Module EngineQueries.

(** One step of [min(levels, key=lambda l: abs(l.price - price))]: the
    element kept so far is replaced only by a strictly nearer one. *)
Definition nearer (price : Q) (best x : GoldbachLevel) : GoldbachLevel :=
  if Qltb (Qabs (level_price x - price)) (Qabs (level_price best - price))
  then x else best.

(** [GoldbachEngine._get_nearest_level] *)
Definition _get_nearest_level (po3_range : PO3Range) (price : Q)
  : option GoldbachLevel :=
  match levels po3_range with
  | [] => None
  | first :: rest => Some (fold_left (nearer price) rest first)
  end.

(** The dict of [get_position_info], without the formatted [position_str]. *)
Record PositionInfo : Set := mkPositionInfo {
  info_price : Q;
  info_range : PO3Range;
  info_position : Q;
  info_layer : option Layer;
  nearest_level : option GoldbachLevel
}.

(** [GoldbachEngine.get_position_info] *)
Definition get_position_info (self : Engine) (price : Q) (po3_size : option Z)
  : result PositionInfo :=
  po3_range <- calculate_range self price po3_size ;;
  position <- get_position po3_range price ;;
  let layer := _get_layer_for_position position in
  let nearest_level := _get_nearest_level po3_range price in
  Ok (mkPositionInfo price po3_range position layer nearest_level).

(** A float as it reaches the engine: a finite number, an infinity or NaN
    ([float(x)] of the request parameter yields all three). *)
Inductive pyfloat : Set :=
| Finite (q : Q)
| Infinity (negative : bool)
| NaN.

(** [GoldbachEngine.calculate_range] at a float that need not be finite.
    Its first statement after the choice of the size is
    [int(price * 10000) if price < 100 else int(price)], and [int] raises
    ValueError for NaN and OverflowError for an infinity, before the size is
    divided by. *)
Definition calculate_range_at (self : Engine) (price : pyfloat)
    (po3_size : option Z) : result PO3Range :=
  match price with
  | Finite q => calculate_range self q po3_size
  | Infinity _ => Raise OverflowError
  | NaN => Raise ValueError
  end.

End EngineQueries.

(** ** main.py: the levels endpoint *)

Module Api.

(** One entry of ['levels'] in the answer of [api_levels]. *)
Record ApiLevel : Set := mkApiLevel {
  api_level : Z;
  api_price : Q;
  api_name : string;
  api_ict_name : string;
  api_layer : option Layer
}.

Record ApiLevels : Set := mkApiLevels {
  api_range_num : Z;
  api_range_low : Z;
  api_range_high : Z;
  api_po3_size : Z;
  api_levels_list : list ApiLevel
}.

(** The computation of [api_levels]; the request parsing and [jsonify] are
    not represented. *)
Definition api_levels (range_num po3_size : Z) : ApiLevels :=
  let range_low := (range_num * po3_size)%Z in
  let range_high := (range_low + po3_size)%Z in
  mkApiLevels range_num range_low range_high po3_size
    (map (fun kv : Z * LevelInfo =>
            let (level_pct, info) := kv in
            mkApiLevel level_pct
              (inject_Z range_low + (inject_Z level_pct / 100) * inject_Z po3_size)%Q
              (info_name info) (info_ict info) (info_layer info))
         GOLDBACH_LEVELS).

End Api.

(** ** backtester.py: statistics *)

Module Statistics.

(** The exceptions of this part: those of [Py.exn], and [IndexError]. *)
Inductive pyexn : Set :=
| Builtin (e : exn)
| IndexError.

Inductive outcome (A : Type) : Type :=
| Return (a : A)
| Throw (e : pyexn).

Arguments Return {A} a.
Arguments Throw {A} e.

Definition obind {A B : Type} (c : outcome A) (k : A -> outcome B) : outcome B :=
  match c with
  | Return a => k a
  | Throw e => Throw e
  end.

Definition lift {A : Type} (r : result A) : outcome A :=
  match r with
  | Ok a => Return a
  | Raise e => Throw (Builtin e)
  end.

(** [TradePlan.value] *)
Definition TradePlan_value (p : TradePlan) : string :=
  match p with
  | EINSTEIN => "EINSTEIN"
  | PLAN_LIQUIDITY => "LIQUIDITY"
  | FLOW_CONTINUATION => "FLOW_CONTINUATION"
  | FLOW_REJECTION => "FLOW_REJECTION"
  | PLAN_REBALANCE => "REBALANCE"
  | STOP_RUN => "STOP_RUN"
  end.

(** The string a signal strength is in the source. *)
Definition Strength_value (s : Strength) : string :=
  match s with
  | WEAK => "WEAK"
  | MEDIUM => "MEDIUM"
  | STRONG => "STRONG"
  | EXCELLENT => "EXCELLENT"
  | PERFECT => "PERFECT"
  end.

(** *** [datetime.weekday] *)

(** Days before January 1st of year [y] (proleptic Gregorian calendar). *)
Definition days_before_year (y : Z) : Z :=
  let y' := (y - 1)%Z in
  (y' * 365 + y' / 4 - y' / 100 + y' / 400)%Z.

(** Days of year [y] before the first day of month [m]. *)
Definition days_before_month (y m : Z) : Z :=
  (match assoc m [ (1, 0); (2, 31); (3, 59); (4, 90); (5, 120); (6, 151);
                   (7, 181); (8, 212); (9, 243); (10, 273); (11, 304);
                   (12, 334) ] with
   | Some d => d
   | None => 0
   end
   + (if (2 <? m) && is_leap y then 1 else 0))%Z.

Definition toordinal (t : datetime) : Z :=
  (days_before_year (dt_year t) + days_before_month (dt_year t) (dt_month t)
   + dt_day t)%Z.

(** Monday is 0 and Sunday is 6. *)
Definition weekday (t : datetime) : Z := ((toordinal t + 6) mod 7)%Z.

(** *** Dicts with insertion order *)

Section Dict.

Context {K V : Type}.
Variable eqb : K -> K -> bool.

Fixpoint dict_get (k : K) (d : list (K * V)) : option V :=
  match d with
  | [] => None
  | (k', v) :: d' => if eqb k k' then Some v else dict_get k d'
  end.

(** [d[k] = v]: an existing key keeps its place, a new one goes last. *)
Fixpoint dict_set (k : K) (v : V) (d : list (K * V)) : list (K * V) :=
  match d with
  | [] => [(k, v)]
  | (k', v') :: d' =>
      if eqb k k' then (k', v) :: d' else (k', v') :: dict_set k v d'
  end.

End Dict.

(** One value of a grouped breakdown:
    [{'trades', 'wins', 'pnl', 'win_rate'}]; ['win_rate'] can be absent. *)
Record GroupStats : Set := mkGroupStats {
  g_trades : Z;
  g_wins : Z;
  g_pnl : Q;
  g_win_rate : option Q
}.

Definition empty_group : GroupStats := mkGroupStats 0 0 0 None.

(** The three updates of a group for one trade. *)
Definition count_trade (g : GroupStats) (t : BacktestTrade) : GroupStats :=
  mkGroupStats (g_trades g + 1)
    (match bt_result t with WIN => g_wins g + 1 | _ => g_wins g end)%Z
    (g_pnl g + pnl t)%Q (g_win_rate g).

(** [(wins / trades) * 100] *)
Definition group_win_rate (g : GroupStats) : Q :=
  (inject_Z (g_wins g) / inject_Z (g_trades g) * 100)%Q.

(** [BacktestEngine._stats_by_category]; [key_of] is [getattr(trade,
    category)], with the value of a plan taken. *)
Definition _stats_by_category (key_of : BacktestTrade -> string)
    (ledger : list BacktestTrade) : list (string * GroupStats) :=
  let result :=
    fold_left
      (fun (result : list (string * GroupStats)) (t : BacktestTrade) =>
         let key := key_of t in
         let g := match dict_get String.eqb key result with
                  | Some g => g
                  | None => empty_group
                  end in
         dict_set String.eqb key (count_trade g t) result)
      ledger [] in
  map (fun kg : string * GroupStats =>
         let (key, g) := kg in
         (key, mkGroupStats (g_trades g) (g_wins g) (g_pnl g)
                 (Some (if (0 <? g_trades g)%Z then group_win_rate g else 0%Q))))
      result.

Definition days : list string :=
  ["Monday"; "Tuesday"; "Wednesday"; "Thursday"; "Friday"]%string.

(** The loop over the trades in [_stats_by_day]; [days[weekday]] raises for
    Saturday and Sunday. *)
Fixpoint count_by_day (result : list (string * GroupStats))
    (ledger : list BacktestTrade) : outcome (list (string * GroupStats)) :=
  match ledger with
  | [] => Return result
  | t :: rest =>
      match nth_error days (Z.to_nat (weekday (bt_entry_time t))) with
      | None => Throw IndexError
      | Some day =>
          let g := match dict_get String.eqb day result with
                   | Some g => g
                   | None => empty_group
                   end in
          count_by_day (dict_set String.eqb day (count_trade g t) result) rest
      end
  end.

(** [BacktestEngine._stats_by_day] *)
Definition _stats_by_day (ledger : list BacktestTrade)
  : outcome (list (string * GroupStats)) :=
  obind (count_by_day (map (fun day => (day, empty_group)) days) ledger)
    (fun result =>
       Return
         (map (fun kg : string * GroupStats =>
                 let (day, g) := kg in
                 if (0 <? g_trades g)%Z
                 then (day, mkGroupStats (g_trades g) (g_wins g) (g_pnl g)
                              (Some (group_win_rate g)))
                 else (day, g))
              result)).

Definition month_eqb (a b : Z * Z) : bool :=
  ((fst a =? fst b) && (snd a =? snd b))%Z.

(** [BacktestEngine._calculate_monthly_returns]; the key
    [exit_time.strftime('%Y-%m')] is the pair (year, month). *)
Definition _calculate_monthly_returns (ledger : list BacktestTrade)
  : list (Z * Z * Q) :=
  fold_left
    (fun (monthly : list (Z * Z * Q)) (t : BacktestTrade) =>
       let key := (dt_year (bt_exit_time t), dt_month (bt_exit_time t)) in
       let sofar := match dict_get month_eqb key monthly with
                    | Some v => v
                    | None => 0%Q
                    end in
       dict_set month_eqb key (sofar + pnl t)%Q monthly)
    ledger [].

(** *** The statistics record *)

Record BacktestStatistics : Set := mkBacktestStatistics {
  total_trades : Z;
  winning_trades : Z;
  losing_trades : Z;
  breakeven_trades : Z;
  win_rate : Q;
  s_total_pnl : Q;
  total_pnl_pct : Q;
  avg_win : Q;
  avg_loss : Q;
  largest_win : Q;
  largest_loss : Q;
  profit_factor : Q;
  expectancy : Q;
  risk_reward_ratio : Q;
  max_drawdown : Q;
  max_drawdown_pct : Q;
  avg_drawdown : Q;
  max_drawdown_duration : Z;
  max_consecutive_wins : Z;
  max_consecutive_losses : Z;
  current_streak : Z;
  avg_bars_held : Q;
  avg_bars_winner : Q;
  avg_bars_loser : Q;
  stats_by_plan : list (string * GroupStats);
  stats_by_strength : list (string * GroupStats);
  stats_by_day : list (string * GroupStats);
  stats_by_amd : list (string * GroupStats);
  monthly_returns : list (Z * Z * Q);
  s_equity_curve : list Q
}.

(** [BacktestStatistics()] *)
Definition default_statistics : BacktestStatistics :=
  mkBacktestStatistics 0 0 0 0 0 0 0 0 0 0 0 0 0 0 0 0 0 0 0 0 0 0 0 0
    [] [] [] [] [] [].

Definition has_result (r : TradeResult) (t : BacktestTrade) : bool :=
  match bt_result t, r with
  | WIN, WIN | LOSS, LOSS | BREAKEVEN, BREAKEVEN => true
  | _, _ => false
  end.

Definition len {A : Type} (l : list A) : Z := Z.of_nat (List.length l).

(** [max(...)] and [min(...)] of a sequence that starts with [x]. *)
Definition Qmax_list (x : Q) (l : list Q) : Q := fold_left Qmax2 l x.
Definition Qmin_list (x : Q) (l : list Q) : Q := fold_left Qmin2 l x.

(** The drawdown loop: (peak, drawdowns, dd_start, max_dd_duration) after
    the entries of [curve], the first of which has index [i]. *)
Fixpoint drawdown_loop (i : Z) (curve : list Q) (acc : Q * list Q * Z * Z)
  : Q * list Q * Z * Z :=
  match curve with
  | [] => acc
  | equity :: rest =>
      let '(peak, drawdowns, dd_start, max_dd_duration) := acc in
      let '(peak, dd_start, max_dd_duration) :=
        if Qltb peak equity then
          (equity, i,
           if (0 <? dd_start)%Z then Z.max max_dd_duration (i - dd_start)
           else max_dd_duration)
        else (peak, dd_start, max_dd_duration) in
      let dd := (peak - equity)%Q in
      drawdown_loop (i + 1) rest
        (peak, (drawdowns ++ [dd])%list, dd_start, max_dd_duration)
  end.

(** The streak loop: (current_streak, max_wins, max_losses, last_result). *)
Definition streak_step (acc : Z * Z * Z * option TradeResult)
    (t : BacktestTrade) : Z * Z * Z * option TradeResult :=
  let '(current_streak, max_wins, max_losses, last_result) := acc in
  let same :=
    match last_result with
    | Some r => has_result r t
    | None => false
    end in
  let current_streak := if same then (current_streak + 1)%Z else 1%Z in
  match bt_result t with
  | WIN => (current_streak, Z.max max_wins current_streak, max_losses,
            Some (bt_result t))
  | LOSS => (current_streak, max_wins, Z.max max_losses current_streak,
             Some (bt_result t))
  | BREAKEVEN => (current_streak, max_wins, max_losses, Some (bt_result t))
  end.

(** [sum(t.bars_held for t in l) / len(l)] *)
Definition mean_bars (l : list BacktestTrade) : Q :=
  (inject_Z (fold_left Z.add (map bars_held l) 0%Z) / inject_Z (len l))%Q.

(** The trades of a ledger with a given result. *)
Definition wins_of (ledger : list BacktestTrade) : list BacktestTrade :=
  filter (has_result WIN) ledger.
Definition losses_of (ledger : list BacktestTrade) : list BacktestTrade :=
  filter (has_result LOSS) ledger.
Definition breakevens_of (ledger : list BacktestTrade) : list BacktestTrade :=
  filter (has_result BREAKEVEN) ledger.

(** The block [# Win Rate]. *)
Definition win_rate_of (ledger : list BacktestTrade) : Q :=
  if (0 <? len ledger)%Z
  then (inject_Z (len (wins_of ledger)) / inject_Z (len ledger) * 100)%Q
  else 0%Q.

(** [avg_win, largest_win] and [avg_loss, largest_loss]: the mean and the
    extreme of the P&L of a group of trades, both 0 for an empty group. *)
Definition mean_and_extreme (extreme : Q -> list Q -> Q)
    (group : list BacktestTrade) : Q * Q :=
  match map pnl group with
  | [] => (0%Q, 0%Q)
  | p :: ps => ((Qsum (p :: ps) / inject_Z (len group))%Q, extreme p ps)
  end.

(** The block [# Profit Factor]. *)
Definition profit_factor_of (ledger : list BacktestTrade) : Q :=
  let wins := wins_of ledger in
  let losses := losses_of ledger in
  let gross_profit := match wins with [] => 0%Q | _ => Qsum (map pnl wins) end in
  let gross_loss :=
    match losses with [] => 1%Q | _ => Qabs (Qsum (map pnl losses)) end in
  if Qltb 0 gross_loss then (gross_profit / gross_loss)%Q else 0%Q.

(** The block [# Expectancy]. *)
Definition expectancy_of (ledger : list BacktestTrade) : Q :=
  if (0 <? len ledger)%Z
  then (Qsum (map pnl ledger) / inject_Z (len ledger))%Q else 0%Q.

(** The block [# Risk/Reward]. *)
Definition risk_reward_of (avg_win avg_loss : Q) : Q :=
  if Qeq_bool avg_loss 0 then 0%Q else Qabs (avg_win / avg_loss).

(** The drawdowns of a curve that starts with [first], and the longest
    duration between peaks. *)
Definition drawdowns_of (first : Q) (curve : list Q) : list Q * Z :=
  let '(_, drawdowns, _, max_dd_duration) :=
    drawdown_loop 0 curve (first, [], 0%Z, 0%Z) in
  (drawdowns, max_dd_duration).

(** [max(drawdowns) if drawdowns else 0] *)
Definition max_drawdown_of (drawdowns : list Q) : Q :=
  match drawdowns with [] => 0%Q | d :: ds => Qmax_list d ds end.

(** [sum(drawdowns) / len(drawdowns) if drawdowns else 0] *)
Definition avg_drawdown_of (drawdowns : list Q) : Q :=
  match drawdowns with
  | [] => 0%Q
  | _ => (Qsum drawdowns / inject_Z (len drawdowns))%Q
  end.

(** [max_wins] and [max_losses] of the streak loop. *)
Definition streaks_of (ledger : list BacktestTrade) : Z * Z :=
  let '(_, max_wins, max_losses, _) :=
    fold_left streak_step ledger (0%Z, 0%Z, 0%Z, None) in
  (max_wins, max_losses).

(** [mean_bars] of a group, 0 for an empty one. *)
Definition mean_bars_of (group : list BacktestTrade) : Q :=
  match group with [] => 0%Q | _ => mean_bars group end.

(** [BacktestEngine._calculate_statistics] *)
Definition _calculate_statistics (cfg : BacktestConfig)
    (ledger : list BacktestTrade) (equity_curve : list Q)
  : outcome BacktestStatistics :=
  match ledger with
  | [] => Return default_statistics
  | _ =>
      let wins := wins_of ledger in
      let losses := losses_of ledger in
      let breakevens := breakevens_of ledger in
      let win := mean_and_extreme Qmax_list wins in
      let loss := mean_and_extreme Qmin_list losses in
      match equity_curve with
      | [] => Throw IndexError
      | first :: _ =>
          let dd := drawdowns_of first equity_curve in
          let max_drawdown := max_drawdown_of (fst dd) in
          obind (lift (truediv max_drawdown (initial_capital cfg)))
            (fun q =>
               let streaks := streaks_of ledger in
               let by_plan :=
                 _stats_by_category (fun t => TradePlan_value (bt_plan t)) ledger in
               let by_strength :=
                 _stats_by_category
                   (fun t => Strength_value (bt_signal_strength t)) ledger in
               obind (_stats_by_day ledger)
                 (fun by_day =>
                    let by_amd := _stats_by_category bt_amd_cycle ledger in
                    let monthly := _calculate_monthly_returns ledger in
                    Return
                      (mkBacktestStatistics (len ledger) (len wins) (len losses)
                         (len breakevens) (win_rate_of ledger)
                         (Qsum (map pnl ledger)) (Qsum (map pnl_pct ledger))
                         (fst win) (fst loss) (snd win) (snd loss)
                         (profit_factor_of ledger) (expectancy_of ledger)
                         (risk_reward_of (fst win) (fst loss))
                         max_drawdown (q * 100)%Q (avg_drawdown_of (fst dd))
                         (snd dd) (fst streaks) (snd streaks) 0
                         (mean_bars ledger) (mean_bars_of wins)
                         (mean_bars_of losses)
                         by_plan by_strength by_day by_amd monthly
                         equity_curve)))
      end
  end.

(** [BacktestEngine.run_backtest] with the statistics it returns, next to
    the state of the run they were computed from. *)
Definition run_backtest_statistics (cfg : BacktestConfig) (eng : Engine)
    (data : list Bar) (symbol : string)
  : outcome (BacktestStatistics * RunState) :=
  obind (lift (run_backtest cfg eng data symbol))
    (fun s =>
       obind (_calculate_statistics cfg (trades s) (equity_curve s))
         (fun stats => Return (stats, s))).

End Statistics.

(** ** The calendar of the time walk *)

Module Calendar.

Import Statistics.

(** A date that the constructor of [datetime] accepts. *)
Definition valid_date (t : datetime) : Prop :=
  (1 <= dt_year t <= MAXYEAR)%Z /\ (1 <= dt_month t <= 12)%Z
  /\ (1 <= dt_day t <= days_in_month (dt_year t) (dt_month t))%Z.

(** [datetime.max], to the minute. *)
Definition datetime_max : datetime := mkDatetime MAXYEAR 12 31 23 59.

(** The number of the minute of [t], counted from the start of the
    proleptic calendar. *)
Definition minute_number (t : datetime) : Z :=
  ((toordinal t * 24 + dt_hour t) * 60 + dt_minute t)%Z.

(** [t'] is the first special minute after [t]: the walk from [t] reaches it
    minute by minute, and no minute on the way is special. *)
Inductive next_special : datetime -> datetime -> Prop :=
| special_next (t t' : datetime) :
    add_minute t = Ok t' ->
    is_goldbach (analyze_goldbach_time t') = true ->
    next_special t t'
| special_later (t t1 t' : datetime) :
    add_minute t = Ok t1 ->
    is_goldbach (analyze_goldbach_time t1) = false ->
    next_special t1 t' ->
    next_special t t'.

(** [times] are the special minutes that follow [t], in order and without
    leaving one out. *)
Inductive specials_from : datetime -> list datetime -> Prop :=
| specials_nil (t : datetime) : specials_from t []
| specials_cons (t t1 : datetime) (rest : list datetime) :
    next_special t t1 -> specials_from t1 rest ->
    specials_from t (t1 :: rest).

End Calendar.

Import Calendar.

(** ** backtester.py: walk-forward analysis *)

Module WalkForward.

Import Statistics.

(** An index of a slice over [n] elements: a negative one counts from the
    end, and both are clipped to [0, n]. *)
Definition slice_index (n x : Z) : Z :=
  if (x <? 0)%Z then Z.max 0 (x + n) else Z.min x n.

(** [data.iloc[a:b]] *)
Definition iloc {A : Type} (data : list A) (a b : Z) : list A :=
  let n := len data in
  let a' := slice_index n a in
  let b' := slice_index n b in
  firstn (Z.to_nat (b' - a')) (skipn (Z.to_nat a') data).

(** [BacktestEngine._calculate_robustness] *)
Definition _calculate_robustness (in_stats out_stats : BacktestStatistics) : Q :=
  if Qeq_bool (win_rate in_stats) 0 then 0%Q
  else
    let win_rate_ratio :=
      if Qltb 0 (win_rate in_stats)
      then (win_rate out_stats / win_rate in_stats)%Q else 0%Q in
    let pf_ratio :=
      if Qltb 0 (profit_factor in_stats)
      then (profit_factor out_stats / profit_factor in_stats)%Q else 0%Q in
    let score := (win_rate_ratio * 50 + pf_ratio * 50)%Q in
    Qmin2 100 (Qmax2 0 score).

(** ['in_sample'] and ['out_of_sample'] of one result; [start] and [end] are
    the first and last index entry of the sample, if it has any. *)
Record SampleReport : Set := mkSampleReport {
  sample_start : option datetime;
  sample_end : option datetime;
  sample_trades : Z;
  sample_win_rate : Q;
  sample_pnl : Q
}.

Record FoldReport : Set := mkFoldReport {
  fold_number : Z;
  in_sample : SampleReport;
  out_of_sample : SampleReport;
  robustness_score : Q
}.

Definition report_sample (sample : list Bar) (stats : BacktestStatistics)
  : SampleReport :=
  mkSampleReport (option_map bar_date (hd_error sample))
    (option_map bar_date (hd_error (rev sample)))
    (total_trades stats) (win_rate stats) (s_total_pnl stats).

(** The two samples of fold number [fold] (counted from 0) when the
    in-sample part is [in_sample_len] bars long. *)
Definition fold_slices (data : list Bar) (fold_size fold in_sample_len : Z)
  : list Bar * list Bar :=
  let fold_start := (fold * fold_size)%Z in
  let fold_end := (fold_start + fold_size)%Z in
  let in_sample_end := (fold_start + in_sample_len)%Z in
  (iloc data fold_start in_sample_end, iloc data in_sample_end fold_end).

(** The two samples of a fold: the in-sample part is
    [int(fold_size * in_sample_pct)] bars long, the product taken exactly
    ([Doubles.in_sample_size] is the length on doubles). *)
Definition fold_samples (data : list Bar) (in_sample_pct : Q)
    (fold_size fold : Z) : list Bar * list Bar :=
  fold_slices data fold_size fold (py_int (inject_Z fold_size * in_sample_pct)).

(** The loop of [walk_forward] over the fold numbers; the engine of the
    backtester goes from one run to the next. *)
Fixpoint folds_loop (cfg : BacktestConfig) (data : list Bar)
    (in_sample_pct : Q) (fold_size : Z) (folds : list Z) (eng : Engine)
  : outcome (list FoldReport * Engine) :=
  match folds with
  | [] => Return ([], eng)
  | fold :: rest =>
      let (in_sample_data, out_sample_data) :=
        fold_samples data in_sample_pct fold_size fold in
      obind (run_backtest_statistics cfg eng in_sample_data "NQ")
        (fun in_run =>
           obind (run_backtest_statistics cfg (engine (snd in_run))
                    out_sample_data "NQ")
             (fun out_run =>
                obind (folds_loop cfg data in_sample_pct fold_size rest
                         (engine (snd out_run)))
                  (fun later =>
                     Return
                       (mkFoldReport (fold + 1)
                          (report_sample in_sample_data (fst in_run))
                          (report_sample out_sample_data (fst out_run))
                          (_calculate_robustness (fst in_run) (fst out_run))
                        :: fst later,
                        snd later))))
  end.

(** [BacktestEngine.walk_forward]: the results, and the engine after the
    last run. *)
Definition walk_forward (cfg : BacktestConfig) (eng : Engine)
    (data : list Bar) (in_sample_pct : Q) (num_folds : Z)
  : outcome (list FoldReport * Engine) :=
  if (num_folds =? 0)%Z then Throw (Builtin ZeroDivisionError)
  else
    let fold_size := (len data / num_folds)%Z in
    folds_loop cfg data in_sample_pct fold_size
      (map Z.of_nat (seq 0 (Z.to_nat num_folds))) eng.

End WalkForward.

(** ** scheduler.py: price alerts *)

Module Scheduler.

Import Statistics.

Record PriceAlert : Set := mkPriceAlert {
  alert_id : string;
  alert_symbol : string;
  condition : string;
  alert_price : Q;
  enabled : bool;
  triggered : bool
}.

(** [PriceAlert.check] *)
Definition check (self : PriceAlert) (current_price : Q) : bool :=
  if negb (enabled self) || triggered self then false
  else if String.eqb (condition self) "above" && Qltb (alert_price self) current_price
  then true
  else if String.eqb (condition self) "below" && Qltb current_price (alert_price self)
  then true
  else false.

(** [self.alerts], a dict from ids to alerts. *)
Definition Alerts : Set := list (string * PriceAlert).

(** [GoldbachScheduler.add_alert] *)
Definition add_alert (alerts : Alerts) (alert : PriceAlert) : Alerts * bool :=
  (dict_set String.eqb (alert_id alert) alert alerts, true).

(** [del d[k]] for a key that is present. *)
Fixpoint dict_del (k : string) (alerts : Alerts) : Alerts :=
  match alerts with
  | [] => []
  | (k', v) :: rest => if String.eqb k k' then rest else (k', v) :: dict_del k rest
  end.

(** [GoldbachScheduler.remove_alert] *)
Definition remove_alert (alerts : Alerts) (id : string) : Alerts * bool :=
  match dict_get String.eqb id alerts with
  | Some _ => (dict_del id alerts, true)
  | None => (alerts, false)
  end.

Definition set_triggered (a : PriceAlert) : PriceAlert :=
  mkPriceAlert (alert_id a) (alert_symbol a) (condition a) (alert_price a)
    (enabled a) true.

(** [GoldbachScheduler.check_alerts]: the alerts after the call, and the
    alerts handed to [_trigger_alert], in order. *)
Fixpoint check_alerts (alerts : Alerts) (symbol : string) (price : Q)
  : Alerts * list PriceAlert :=
  match alerts with
  | [] => ([], [])
  | (id, alert) :: rest =>
      let (rest', fired) := check_alerts rest symbol price in
      if negb (String.eqb (alert_symbol alert) symbol) then
        ((id, alert) :: rest', fired)
      else if check alert price then
        ((id, set_triggered alert) :: rest', set_triggered alert :: fired)
      else ((id, alert) :: rest', fired)
  end.

End Scheduler.

(** ** Double precision

    The definitions above compute with exact rationals.  The code computes
    with IEEE binary64 numbers, and where a property depends on rounding the
    computation is repeated here on the doubles themselves: the same
    statements of the source, with the operations of [PrimFloat]. *)

Module Doubles.

Local Open Scope float_scope.

(** The double of an integer of magnitude below 2^53, and the double that
    the decimal literal [n/d] is read as: both integers are exact and the
    division rounds once, to the nearest double. *)
Definition of_Z (z : Z) : float :=
  match z with
  | Zneg p => - PrimFloat.of_uint63 (Uint63.of_Z (Zpos p))
  | _ => PrimFloat.of_uint63 (Uint63.of_Z z)
  end.

Definition dec (n d : Z) : float := of_Z n / of_Z d.

(** [x] is neither an infinity nor NaN. *)
Definition finite (x : float) : bool :=
  match Prim2SF x with
  | S754_zero _ | S754_finite _ _ _ => true
  | S754_infinity _ | S754_nan => false
  end.

(** The number a finite double stands for (0 for the others). *)
Definition value (x : float) : Q :=
  match Prim2SF x with
  | S754_finite s m e =>
      let magnitude :=
        if (0 <=? e)%Z then inject_Z (Z.pos m * 2 ^ e)
        else Qmake (Z.pos m) (2 ^ Z.to_pos (- e)) in
      if s then Qopp magnitude else magnitude
  | _ => 0%Q
  end.

(** [int(x)]: truncation toward zero; ValueError for NaN and OverflowError
    for an infinity. *)
Definition float_int (x : float) : result Z :=
  match Prim2SF x with
  | S754_zero _ => Ok 0%Z
  | S754_infinity _ => Raise OverflowError
  | S754_nan => Raise ValueError
  | S754_finite s m e =>
      let magnitude :=
        if (0 <=? e)%Z then (Z.pos m * 2 ^ e)%Z else (Z.pos m / 2 ^ (- e))%Z in
      Ok (if s then (- magnitude)%Z else magnitude)
  end.

(** The first statement of [GoldbachEngine.calculate_range]:
    [int(price * 10000) if price < 100 else int(price)]. *)
Definition price_int (price : float) : result Z :=
  if price <? 100 then float_int (price * 10000) else float_int price.

(** [int(fold_size * in_sample_pct)] of [BacktestEngine.walk_forward]. *)
Definition in_sample_size (fold_size : Z) (in_sample_pct : float) : result Z :=
  float_int (of_Z fold_size * in_sample_pct).

(** The inner loop of [BacktestEngine.monte_carlo] for one shuffled array:
    (equity, peak, max_dd) after the loop.  The values are numpy doubles, so
    a division by zero gives an infinity or NaN and raises nothing. *)
Definition replay (initial_capital : float) (shuffled : list float)
  : float * float * float :=
  fold_left
    (fun (acc : float * float * float) (pnl : float) =>
       let '(equity, peak, max_dd) := acc in
       let equity := equity + pnl in
       let peak := if peak <? equity then equity else peak in
       let dd := (peak - equity) / peak * 100 in
       (equity, peak, if max_dd <? dd then dd else max_dd))
    shuffled (initial_capital, initial_capital, 0).

(** The part of the report that is computed without numpy's statistics. *)
Record MonteCarlo : Set := mkMonteCarlo {
  final_capitals : list float;
  max_drawdowns : list float;
  risk_of_ruin : float
}.

(** [BacktestEngine.monte_carlo] on the P&Ls of the ledger, [pnls]; the
    number of simulations is below 2^53. *)
Definition monte_carlo (initial_capital : float) (pnls : list float)
    (permutation : nat -> list float -> list float) (num_simulations : Z)
  : result (option MonteCarlo) :=
  match pnls with
  | [] => Ok None
  | _ =>
      let runs :=
        map (fun k => replay initial_capital (permutation k pnls))
            (seq 0 (Z.to_nat num_simulations)) in
      let final_capitals := map (fun r => fst (fst r)) runs in
      let max_drawdowns := map snd runs in
      match final_capitals with
      | [] => Raise ValueError
      | _ =>
          let ruined :=
            Z.of_nat (List.length (filter (fun fc => fc <=? 0) final_capitals)) in
          Ok (Some (mkMonteCarlo final_capitals max_drawdowns
                      (of_Z ruined / of_Z num_simulations * 100)))
      end
  end.

(** The sum [a + b] is computed without rounding. *)
Definition exact_add (a b : float) : bool :=
  finite a && finite b && finite (a + b)
  && Qeq_bool (value (a + b)) (value a + value b).

(** No addition rounds when the values of [shuffled] are added to [equity]
    one after the other. *)
Fixpoint exact_replay (equity : float) (shuffled : list float) : bool :=
  match shuffled with
  | [] => finite equity
  | pnl :: rest => exact_add equity pnl && exact_replay (equity + pnl) rest
  end.

(** The order of the first simulation is the ledger's, and that of every
    other one is the reverse. *)
Definition ledger_then_reverse (k : nat) (l : list float) : list float :=
  match k with
  | O => l
  | S _ => rev l
  end.

End Doubles.

(** ** Notions the further properties are stated with *)

Module Notions.

Import EngineQueries Statistics.

(** The distance the nearest-level search minimises. *)
Definition distance (price : Q) (l : GoldbachLevel) : Q :=
  Qabs (level_price l - price).

(** The plan that goes with a layer. *)
Definition plan_for_layer (l : Layer) : TradePlan :=
  match l with
  | LIQUIDITY => EINSTEIN
  | FLOW => FLOW_CONTINUATION
  | REBALANCE => PLAN_REBALANCE
  end.

(** The prices of a setup in the order of a long: stop, entry zone with the
    entry inside, first target, second target. *)
Definition long_shaped (setup : TradeSetup) : Prop :=
  exists t1 t2,
    targets setup = [t1; t2]
    /\ stop_loss setup < fst (entry_zone setup)
    /\ fst (entry_zone setup) < entry_price setup
    /\ entry_price setup < snd (entry_zone setup)
    /\ snd (entry_zone setup) < target_price t1
    /\ target_price t1 < target_price t2.

(** The same for a short: the targets lie below the zone, the stop above. *)
Definition short_shaped (setup : TradeSetup) : Prop :=
  exists t1 t2,
    targets setup = [t1; t2]
    /\ target_price t2 < target_price t1
    /\ target_price t1 < fst (entry_zone setup)
    /\ fst (entry_zone setup) < entry_price setup
    /\ entry_price setup < snd (entry_zone setup)
    /\ snd (entry_zone setup) < stop_loss setup.

(** The price move of a closed trade in its own direction. *)
Definition favourable_move (trade : OpenTrade) (exit_price : Q) : Q :=
  match direction trade with
  | LONG => exit_price - t_entry_price trade
  | SHORT => t_entry_price trade - exit_price
  end.

(** The capital after each trade, from the capital [c] on. *)
Fixpoint running_capital (c : Q) (pnls : list Q) : list Q :=
  match pnls with
  | [] => []
  | p :: rest => (c + p) :: running_capital (c + p) rest
  end.

(** The accounts of a state: the curve is the initial capital followed by
    the capital after each trade of the ledger, and [capital] is its last
    entry. *)
Definition accounts_agree (cfg : BacktestConfig) (s : RunState) : Prop :=
  equity_curve s
  = initial_capital cfg :: running_capital (initial_capital cfg) (map pnl (trades s))
  /\ capital s
     = last (running_capital (initial_capital cfg) (map pnl (trades s)))
            (initial_capital cfg).

(** The cycle of a bar passes the cycle filter. *)
Definition cycle_allowed (cfg : BacktestConfig) (b : Bar) : bool :=
  existsb (String.eqb (AMDCycle_value (cycle (get_amd_cycle (bar_date b)))))
          (allowed_amd_cycles cfg).

(** Totals over the groups of a breakdown. *)
Definition groups_trades {K : Type} (d : list (K * GroupStats)) : Z :=
  fold_right (fun kg acc => (g_trades (snd kg) + acc)%Z) 0%Z d.

Definition groups_wins {K : Type} (d : list (K * GroupStats)) : Z :=
  fold_right (fun kg acc => (g_wins (snd kg) + acc)%Z) 0%Z d.

Definition groups_pnl {K : Type} (d : list (K * GroupStats)) : Q :=
  fold_right (fun kg acc => (g_pnl (snd kg) + acc)%Q) 0%Q d.

Definition months_pnl (d : list (Z * Z * Q)) : Q :=
  fold_right (fun kv acc => (snd kv + acc)%Q) 0%Q d.

(** A trade entered on a Saturday or a Sunday. *)
Definition weekend_entry (t : BacktestTrade) : bool :=
  (5 <=? weekday (bt_entry_time t))%Z.

(** What one bar of the loop does to the state of a run: nothing while
    flat, an entry, a bar held through, or an exit. *)
Inductive bar_event (cfg : BacktestConfig) (i : Z) (cur : Bar)
    (s s' : RunState) : Prop :=
| StayFlat :
    in_trade s = false -> in_trade s' = false ->
    trades s' = trades s -> capital s' = capital s ->
    equity_curve s' = equity_curve s ->
    current_trade s' = current_trade s -> trade_id s' = trade_id s ->
    bar_event cfg i cur s s'
| Enter (tr : OpenTrade) :
    in_trade s = false -> in_trade s' = true ->
    trades s' = trades s -> capital s' = capital s ->
    equity_curve s' = equity_curve s ->
    current_trade s' = Some tr -> trade_id s' = (trade_id s + 1)%Z ->
    t_id tr = (trade_id s + 1)%Z -> entry_bar tr = i ->
    t_entry_time tr = bar_date cur ->
    position_size tr = capital s * position_size_pct cfg / 100 ->
    cycle_allowed cfg cur = true ->
    bar_event cfg i cur s s'
| Hold (tr : OpenTrade) :
    in_trade s = true -> in_trade s' = true ->
    current_trade s = Some tr ->
    _check_exit cfg tr (bar_high cur) (bar_low cur) (bar_close cur) i = None ->
    trades s' = trades s -> capital s' = capital s ->
    equity_curve s' = equity_curve s ->
    current_trade s' = Some (update_excursions tr (bar_high cur) (bar_low cur)) ->
    trade_id s' = trade_id s ->
    bar_event cfg i cur s s'
| Leave (tr : OpenTrade) (e : ExitInfo) (trade : BacktestTrade) :
    in_trade s = true ->
    current_trade s = Some tr ->
    _check_exit cfg tr (bar_high cur) (bar_low cur) (bar_close cur) i = Some e ->
    _close_trade cfg tr (bar_date cur) (exit_price e) (reason e)
      (i - entry_bar tr) (mae tr) (mfe tr) = Ok trade ->
    s' = book_trade s trade ->
    bar_event cfg i cur s s'.

(** The result of a trade goes by the sign of its P&L. *)
Definition result_by_pnl (t : BacktestTrade) : Prop :=
  match bt_result t with
  | WIN => 0 < pnl t
  | LOSS => pnl t < 0
  | BREAKEVEN => pnl t == 0
  end.

(** The drawdowns of the entries of [curve], entered with the peak [peak]. *)
Fixpoint drawdowns_from (peak : Q) (curve : list Q) : list Q :=
  match curve with
  | [] => []
  | equity :: rest =>
      let peak := if Qltb peak equity then equity else peak in
      (peak - equity)%Q :: drawdowns_from peak rest
  end.

(** The number of alerts that have not been triggered yet. *)
Definition untriggered (alerts : Scheduler.Alerts) : Z :=
  len (filter (fun kv => negb (Scheduler.triggered (snd kv))) alerts).

(** *** Grouped breakdowns *)

Section Grouping.

Context {K V T : Type}.
Variable eqb : K -> K -> bool.

(** The distinct elements of [l], in the order of their first occurrence. *)
Fixpoint first_occurrences (l : list K) : list K :=
  match l with
  | [] => []
  | k :: rest => k :: filter (fun k' => negb (eqb k' k)) (first_occurrences rest)
  end.

(** The elements of [l] that have the key [k], in the order of [l]. *)
Definition group (key_of : T -> K) (k : K) (l : list T) : list T :=
  filter (fun t => eqb (key_of t) k) l.

Variable key_of : T -> K.
Variable init : V.
Variable upd : V -> T -> V.

(** One step of a loop that keeps a value per key:
    [if key not in d: d[key] = init] followed by [d[key] = upd(d[key], t)]. *)
Definition accumulate (d : list (K * V)) (t : T) : list (K * V) :=
  dict_set eqb (key_of t)
    (upd (match dict_get eqb (key_of t) d with Some v => v | None => init end) t)
    d.

(** [k] is no key of [d]. *)
Definition absent (d : list (K * V)) (k : K) : bool :=
  negb (existsb (fun k' => eqb k k') (map fst d)).

(** The entries of [d] with their values carried through the elements of
    [l], and the entries of the keys [ks] started on [l]. *)
Definition carried (d : list (K * V)) (l : list T) : list (K * V) :=
  map (fun kv => (fst kv, fold_left upd (group key_of (fst kv) l) (snd kv))) d.

Definition fresh (l : list T) (ks : list K) : list (K * V) :=
  map (fun k => (k, fold_left upd (group key_of k l) init)) ks.

End Grouping.

(** The entry of a group of trades in a breakdown: the number of trades and
    of wins, the P&L added up from 0 in ledger order, and the win rate. *)
Definition group_stats (l : list BacktestTrade) : GroupStats :=
  mkGroupStats (len l) (len (wins_of l)) (Qsum (map pnl l))
    (Some (inject_Z (len (wins_of l)) / inject_Z (len l) * 100)%Q).

(** The entry of a weekday: without a trade it stays as it was set up. *)
Definition day_stats (l : list BacktestTrade) : GroupStats :=
  match l with
  | [] => empty_group
  | _ => group_stats l
  end.

(** The month a trade was closed in, and the name of the weekday it was
    entered on. *)
Definition exit_month (t : BacktestTrade) : Z * Z :=
  (dt_year (bt_exit_time t), dt_month (bt_exit_time t)).

Definition entry_day (t : BacktestTrade) : string :=
  nth (Z.to_nat (weekday (bt_entry_time t))) days EmptyString.

End Notions.

(** ** Further sample inputs *)

Module MoreSamples.

Import Statistics Scheduler.

Definition midnight (day : Z) : datetime := mkDatetime 2025 1 day 0 0.

(** Three daily bars stamped at midnight. *)
Definition daily_bars : list Bar :=
  [ mkBar (midnight 6) 21480 21520 21470 21500;
    mkBar (midnight 7) 21500 21510 21450 21500;
    mkBar (midnight 8) 21500 21600 21450 21500 ].

End MoreSamples.
(** * Properties *)

(** ** Comparisons and truncation *)

Lemma Qleb_spec (x y : Q) : Qleb x y = true <-> x <= y.
Proof. unfold Qleb. apply Qle_bool_iff. Qed.

Lemma Qleb_false (x y : Q) : Qleb x y = false <-> y < x.
Proof.
  unfold Qleb. split; intro H.
  - apply Qnot_le_lt. intro L. apply Qle_bool_iff in L. congruence.
  - destruct (Qle_bool x y) eqn:E; [|reflexivity].
    apply Qle_bool_iff in E. exfalso. apply (Qlt_not_le _ _ H E).
Qed.

Lemma Qltb_spec (x y : Q) : Qltb x y = true <-> x < y.
Proof.
  unfold Qltb. rewrite negb_true_iff. apply (Qleb_false y x).
Qed.

Lemma Qltb_false (x y : Q) : Qltb x y = false <-> y <= x.
Proof.
  unfold Qltb. rewrite negb_false_iff. apply (Qleb_spec y x).
Qed.

Lemma py_int_nonneg (x : Q) : 0 <= x -> py_int x = Qfloor x.
Proof.
  destruct x as [n d]. unfold py_int, Qfloor, Qle. simpl. intro H.
  apply Z.quot_div_nonneg; lia.
Qed.

Lemma py_int_inject_Z (x : Q) (k : Z) : x == inject_Z k -> py_int x = k.
Proof.
  destruct x as [n d]. unfold py_int, Qeq. simpl. intro H.
  assert (E : n = (k * Z.pos d)%Z) by lia.
  rewrite E. apply Z.quot_mul. lia.
Qed.

(** The bracket arithmetic on the integer quantity [x]: the multiple of
    [s] found by floor division encloses [x]. *)
Lemma floor_bracket (x : Q) (s : Z) :
  (0 < s)%Z ->
  inject_Z (Qfloor x / s * s) <= x /\ x < inject_Z (Qfloor x / s * s + s).
Proof.
  intro Hs.
  pose proof (Qfloor_le x) as Hl. pose proof (Qlt_floor x) as Hu.
  pose proof (Z.mul_div_le (Qfloor x) s Hs) as H1.
  pose proof (Z.mul_succ_div_gt (Qfloor x) s Hs) as H2.
  split.
  - apply Qle_trans with (inject_Z (Qfloor x)); [|exact Hl].
    rewrite <- Zle_Qle. lia.
  - apply Qlt_le_trans with (inject_Z (Qfloor x + 1)); [exact Hu|].
    rewrite <- Zle_Qle. lia.
Qed.

(** ** The range partitioner *)

Section Range.

Variable self : Engine.

Lemma calculate_range_fields (p : Q) (po3 : option Z) :
  po3_or_default self po3 <> 0%Z ->
  exists r,
    calculate_range self p po3 = Ok r
    /\ size r = po3_or_default self po3
    /\ range_num r = (price_int p / size r)%Z
    /\ low r = (if Qltb p 100 then inject_Z (range_num r * size r) / 10000
                else inject_Z (range_num r * size r))
    /\ high r = (if Qltb p 100 then inject_Z (range_num r * size r + size r) / 10000
                 else inject_Z (range_num r * size r + size r)).
Proof.
  intro Hs. unfold calculate_range.
  destruct (Z.eqb_spec (po3_or_default self po3) 0) as [E|_]; [contradiction|].
  eexists. split; [reflexivity|]. simpl. repeat split.
Qed.

Example level_names :
  map level_name (firstn 3 (_calculate_levels (mkPO3Range 29 21141 21870 729 [])))
  = ["LOW"; "REJ [3]"; "LLOD [7]"]%string.
Proof. reflexivity. Qed.

Example range_21500 :
  match calculate_range (init 729) 21500 None with
  | Ok r => range_num r = 29%Z /\ low r == 21141 /\ high r == 21870
  | Raise _ => False
  end.
Proof. vm_compute. repeat split. Qed.

Lemma po3_or_default_Some (s : Z) : s <> 0%Z -> po3_or_default self (Some s) = s.
Proof.
  intro Hs. unfold po3_or_default.
  destruct (Z.eqb_spec s 0); [contradiction|reflexivity].
Qed.

(** Width of the bracket in price units: [size] above 100, [size/10000]
    below. *)
Lemma calculate_range_width (p : Q) (po3 : option Z) (r : PO3Range) :
  calculate_range self p po3 = Ok r ->
  size r <> 0%Z
  /\ high r - low r ==
     (if Qltb p 100 then inject_Z (size r) / 10000 else inject_Z (size r)).
Proof.
  unfold calculate_range.
  destruct (Z.eqb_spec (po3_or_default self po3) 0) as [E|N]; [discriminate|].
  intro H. injection H as <-. simpl. split; [exact N|].
  destruct (Qltb p 100); rewrite inject_Z_plus; field.
Qed.

End Range.

Lemma PO3_SIZES_pos (s : Z) : In s PO3_SIZES -> (0 < s)%Z.
Proof. unfold PO3_SIZES. simpl. intuition lia. Qed.

(** [get_position] on a bracket whose width does not exceed its size. *)
Lemma get_position_bounds (r : PO3Range) (p : Q) :
  (0 < size r)%Z ->
  high r - low r <= inject_Z (size r) ->
  exists pos, get_position r p = Ok pos /\ 0 <= pos /\ pos <= 100.
Proof.
  intros Hs Hw. unfold get_position.
  destruct (Qltb p (low r)) eqn:E1.
  { exists 0. repeat split; [apply Qle_refl | discriminate]. }
  destruct (Qltb (high r) p) eqn:E2.
  { exists 100. repeat split; [discriminate | apply Qle_refl]. }
  apply Qltb_false in E1. apply Qltb_false in E2.
  assert (Hq : 0 < inject_Z (size r)).
  { change 0 with (inject_Z 0). rewrite <- Zlt_Qlt. exact Hs. }
  unfold truediv.
  destruct (Qeq_bool (inject_Z (size r)) 0) eqn:E3.
  { apply Qeq_bool_iff in E3. rewrite E3 in Hq. exfalso. apply (Qlt_irrefl _ Hq). }
  simpl. eexists. split; [reflexivity|].
  assert (H0 : 0 <= (p - low r) / inject_Z (size r)).
  { apply Qle_shift_div_l; [exact Hq|]. lra. }
  assert (H1 : (p - low r) / inject_Z (size r) <= 1).
  { apply Qle_shift_div_r; [exact Hq|]. lra. }
  split; lra.
Qed.

Lemma scale_pos (p : Q) : 0 < scale p.
Proof. unfold scale. destruct (Qltb p 100); reflexivity. Qed.

(** The bracket encloses every non-negative price. *)
Lemma price_in_bracket_nonneg (self : Engine) (p : Q) (s : Z) :
  (0 < s)%Z -> 0 <= p -> price_in_bracket self p s.
Proof.
  intros Hs Hp.
  destruct (calculate_range_fields self p (Some s)) as (r & Hr & Hsz & Hn & Hl & _).
  { rewrite po3_or_default_Some; lia. }
  rewrite po3_or_default_Some in Hsz by lia.
  exists r. split; [exact Hr|].
  rewrite Hl, Hn, Hsz. unfold price_int, scale.
  destruct (Qltb p 100) eqn:E.
  - rewrite py_int_nonneg by lra.
    destruct (floor_bracket (p * 10000) s Hs) as [A B].
    rewrite inject_Z_plus in B.
    split; [|]; field_simplify; lra.
  - rewrite py_int_nonneg by exact Hp.
    destruct (floor_bracket p s Hs) as [A B].
    rewrite inject_Z_plus in B. lra.
Qed.

Lemma next_multiple (n s : Z) : (0 < s)%Z -> ((n * s + s) / s = n + 1)%Z.
Proof.
  intro Hs. replace (n * s + s)%Z with ((n + 1) * s)%Z by ring.
  apply Z.div_mul. lia.
Qed.

(** The upper bound of a bracket is the lower bound of the bracket computed
    for it, as long as both prices are read in the same unit. *)
Lemma high_starts_next_same_unit (self : Engine) (p : Q) (s : Z) (r : PO3Range) :
  (0 < s)%Z ->
  calculate_range self p (Some s) = Ok r ->
  100 <= p \/ high r < 100 ->
  high_starts_next self p s.
Proof.
  intros Hs Hr Hside.
  destruct (calculate_range_fields self p (Some s)) as (r0 & Hr0 & Hsz & Hn & Hl & Hh).
  { rewrite po3_or_default_Some; lia. }
  rewrite Hr in Hr0. injection Hr0 as <-.
  rewrite po3_or_default_Some in Hsz by lia.
  destruct (calculate_range_fields self (high r) (Some s))
    as (r' & Hr' & Hsz' & Hn' & Hl' & _).
  { rewrite po3_or_default_Some; lia. }
  rewrite po3_or_default_Some in Hsz' by lia.
  exists r, r'. split; [exact Hr|]. split; [exact Hr'|].
  assert (Hnum : range_num r' = (range_num r + 1)%Z).
  { rewrite Hn', Hsz'. unfold price_int.
    destruct (Qltb p 100) eqn:E.
    - assert (Hlt : high r < 100).
      { destruct Hside as [C|C]; [|exact C].
        apply Qltb_spec in E. lra. }
      apply Qltb_spec in Hlt. rewrite Hlt.
      rewrite (py_int_inject_Z _ (range_num r * s + s)%Z).
      + apply next_multiple; exact Hs.
      + rewrite Hh, Hsz. field.
    - apply Qltb_false in E.
      assert (Hp : 0 <= p) by lra.
      assert (Hge : 100 <= high r).
      { rewrite Hh, Hn, Hsz. unfold price_int.
        assert (F : Qltb p 100 = false) by (apply Qltb_false; exact E).
        rewrite F. rewrite py_int_nonneg by exact Hp.
        destruct (floor_bracket p s Hs) as [_ B]. lra. }
      apply Qltb_false in Hge. rewrite Hge.
      rewrite (py_int_inject_Z _ (range_num r * s + s)%Z).
      + apply next_multiple; exact Hs.
      + rewrite Hh, Hsz. reflexivity. }
  split; [|exact Hnum].
  assert (Hsame : Qltb (high r) 100 = Qltb p 100).
  { destruct (Qltb p 100) eqn:E.
    - destruct Hside as [C|C]; [apply Qltb_spec in E; lra | apply Qltb_spec; exact C].
    - apply Qltb_false in E. apply Qltb_false.
      rewrite Hh, Hn, Hsz. unfold price_int.
      assert (F : Qltb p 100 = false) by (apply Qltb_false; exact E).
      rewrite F. rewrite py_int_nonneg by lra.
      destruct (floor_bracket p s Hs) as [_ B]. lra. }
  rewrite Hl', Hsame, Hh, Hnum, Hsz, Hsz'.
  replace ((range_num r + 1) * s)%Z with (range_num r * s + s)%Z by ring.
  destruct (Qltb p 100); reflexivity.
Qed.

(** C6 (as amended): for every bracket size of the fixed set and every price
    of magnitude at most 10^15, the position lies in [0, 100]; and for such a
    price from 100 on, which the code reads as it stands, the bracket encloses
    the price (low <= p < low + size) and the bracket computed for its upper
    bound starts exactly there and is the next one. *)
Theorem C6_position_and_bracket (self : Engine) (p : Q) (s : Z) :
  In s PO3_SIZES ->
  - inject_Z (10 ^ 15) <= p <= inject_Z (10 ^ 15) ->
  position_in_range self p s
  /\ (100 <= p ->
      price_in_bracket self p s /\ high_starts_next self p s).
Proof.
  intros Hin _. pose proof (PO3_SIZES_pos s Hin) as Hs.
  split.
  - destruct (calculate_range_fields self p (Some s)) as (r & Hr & Hsz & _).
    { rewrite po3_or_default_Some; lia. }
    rewrite po3_or_default_Some in Hsz by lia.
    destruct (calculate_range_width self p (Some s) r Hr) as [_ Hw].
    destruct (get_position_bounds r p) as (pos & Hpos & H0 & H1).
    + lia.
    + rewrite Hw.
      assert (Hq : 0 <= inject_Z (size r)).
      { change 0 with (inject_Z 0). rewrite <- Zle_Qle. lia. }
      destruct (Qltb p 100); [|apply Qle_refl].
      apply Qle_shift_div_r; [reflexivity|]. lra.
    + exists r, pos. repeat split; assumption.
  - intro Hp. split.
    + apply price_in_bracket_nonneg; [exact Hs|lra].
    + destruct (calculate_range_fields self p (Some s)) as (r & Hr & _).
      { rewrite po3_or_default_Some; lia. }
      apply (high_starts_next_same_unit self p s r Hs Hr). left. exact Hp.
Qed.

Lemma C6_position_and_bracket_witness :
  In 729%Z PO3_SIZES
  /\ position_in_range (init 729) 21500 729
  /\ price_in_bracket (init 729) 21500 729
  /\ high_starts_next (init 729) 21500 729.
Proof.
  assert (Hin : In 729%Z PO3_SIZES) by (simpl; tauto).
  assert (Hb : - inject_Z (10 ^ 15) <= 21500 <= inject_Z (10 ^ 15)).
  { split; discriminate. }
  destruct (C6_position_and_bracket (init 729) 21500 729%Z Hin Hb) as (A & B).
  split; [exact Hin|]. split; [exact A|].
  apply B. discriminate.
Defined.

(** C6 (as stated) fails at two prices with bracket size 729.  For 99.99 the
    bracket is [99.9459, 100.0188]; its upper bound is read as an integer
    price, whose bracket starts at 0.  For -0.00005 truncation toward zero
    gives the integer 0 and the bracket [0, 0.0729], which lies above the
    price. *)
Lemma C6_counterexample :
  In 729%Z PO3_SIZES
  /\ ~ high_starts_next (init 729) (9999 # 100) 729
  /\ ~ price_in_bracket (init 729) (-1 # 20000) 729.
Proof.
  split; [simpl; tauto|]. split.
  - intros (r & r' & Hr & Hr' & Hlow & _).
    vm_compute in Hr. injection Hr as <-.
    vm_compute in Hr'. injection Hr' as <-.
    vm_compute in Hlow. discriminate.
  - intros (r & Hr & Hlow & _).
    vm_compute in Hr. injection Hr as <-.
    vm_compute in Hlow. apply Hlow. reflexivity.
Qed.

(** Below 100 the amended statement cannot be extended to the code, which
    rounds before it truncates: the double nearest to 0.8019, the upper bound
    of bracket 10 of size 729, times 10000 is just below 8019, so [int] gives
    8018 and the bound is read as a price of bracket 10 again. *)
Example forex_bound_rounds_down :
  Doubles.price_int (Doubles.dec 8019 10000) = Ok 8018%Z
  /\ (8018 / 729 = 10)%Z /\ (8019 / 729 = 11)%Z.
Proof. repeat split; vm_compute; reflexivity. Qed.

(** Level 50 is the midpoint of the bracket for every price from 100 on. *)
Lemma level_50_midpoint_from_100 (self : Engine) (p : Q) (po3 : option Z)
    (r : PO3Range) :
  100 <= p ->
  calculate_range self p po3 = Ok r ->
  get_level_price r 50 == (low r + high r) / 2.
Proof.
  intros Hp Hr.
  destruct (calculate_range_width self p po3 r Hr) as [_ Hw].
  apply Qltb_false in Hp. rewrite Hp in Hw.
  unfold get_level_price.
  setoid_replace (inject_Z (size r)) with (high r - low r) by (symmetry; exact Hw).
  field.
Qed.

(** C5 at the price 1.0850 with the default size 729: the bracket is
    [1.0206, 1.0935], its midpoint is 1.05705, and level 50 is priced at
    1.0206 + 0.5 * 729 = 365.5206, because the bounds were scaled back by
    10,000 and the size was not. *)
Theorem C5_level_50_below_100 :
  exists r,
    calculate_range (init DEFAULT_PO3) (217 # 200) None = Ok r
    /\ low r == 10206 # 10000
    /\ high r == 10935 # 10000
    /\ (low r + high r) / 2 == 105705 # 100000
    /\ get_level_price r 50 == 3655206 # 10000
    /\ ~ get_level_price r 50 == (low r + high r) / 2.
Proof.
  eexists. split; [vm_compute; reflexivity|].
  repeat split; try (vm_compute; reflexivity).
  vm_compute. discriminate.
Qed.

(** ** The bias classifier *)

(** Turns the boolean comparisons on prices that occur in the hypotheses
    into inequalities. *)
Ltac q_props :=
  repeat match goal with
  | H : Qleb _ _ = true |- _ => apply Qleb_spec in H
  | H : Qleb _ _ = false |- _ => apply Qleb_false in H
  | H : Qltb _ _ = true |- _ => apply Qltb_spec in H
  | H : Qltb _ _ = false |- _ => apply Qltb_false in H
  end.

(** Splits on the first comparison the goal branches on. *)
Ltac q_case :=
  match goal with
  | |- context [Qleb ?a ?b] => destruct (Qleb a b) eqn:?
  | |- context [Qltb ?a ?b] => destruct (Qltb a b) eqn:?
  end.

Lemma layer_outside_bands (pos : Q) :
  outside_layer_bands pos -> _get_layer_for_position pos = None.
Proof.
  intro H. unfold _get_layer_for_position.
  repeat (q_case; simpl); try reflexivity; exfalso; q_props;
    unfold outside_layer_bands in H; lra.
Qed.

Lemma trend_adjustment_bullish (t : Z) :
  (if (t =? 0)%Z then 50%Z
   else if ((0 <? t)%Z && Bias_eqb BULLISH BULLISH)
           || ((t <? 0)%Z && Bias_eqb BULLISH BEARISH)
        then (50 + Z.min (Z.abs t * 2) 10)%Z
        else (50 - Z.min (Z.abs t * 2) 10)%Z)
  = (50 + trend_adjustment BULLISH t)%Z.
Proof.
  unfold trend_adjustment. simpl.
  destruct (t =? 0)%Z; [reflexivity|].
  destruct (0 <? t)%Z; destruct (t <? 0)%Z; simpl; lia.
Qed.

Lemma trend_adjustment_bearish (t : Z) :
  (if (t =? 0)%Z then 50%Z
   else if ((0 <? t)%Z && Bias_eqb BEARISH BULLISH)
           || ((t <? 0)%Z && Bias_eqb BEARISH BEARISH)
        then (50 + Z.min (Z.abs t * 2) 10)%Z
        else (50 - Z.min (Z.abs t * 2) 10)%Z)
  = (50 + trend_adjustment BEARISH t)%Z.
Proof.
  unfold trend_adjustment. simpl.
  destruct (t =? 0)%Z; [reflexivity|].
  destruct (0 <? t)%Z; destruct (t <? 0)%Z; simpl; lia.
Qed.

(** C9: when the position of the price lies outside the three layer bands,
    no layer is found for it, yet [analyze_bias] reports the layer FLOW; the
    confidence is the base 50 with the trend adjustment only, clamped to
    [40, 85]: neither the +5 of the flow layer nor any other layer bonus is
    in it. *)
Theorem C9_flow_fallback_without_bonus (self : Engine) (price : Q)
    (po3_size : option Z) (trend_days : Z) (r : PO3Range) (pos : Q) :
  calculate_range self price po3_size = Ok r ->
  get_position r price = Ok pos ->
  outside_layer_bands pos ->
  _get_layer_for_position pos = None
  /\ exists b,
       analyze_bias self price po3_size trend_days = Ok b
       /\ layer b = FLOW
       /\ position b = pos
       /\ confidence b
          = clamp_confidence (50 + trend_adjustment (bias b) trend_days).
Proof.
  intros Hr Hpos Hout.
  pose proof (layer_outside_bands pos Hout) as Hlayer.
  split; [exact Hlayer|].
  unfold analyze_bias. rewrite Hr. cbn [bind]. rewrite Hpos. cbn [bind].
  rewrite Hlayer.
  assert (H17 : Qleb pos 17 = false).
  { apply Qleb_false. unfold outside_layer_bands in Hout. lra. }
  assert (H83 : Qleb 83 pos = false).
  { apply Qleb_false. unfold outside_layer_bands in Hout. lra. }
  rewrite H17, H83.
  destruct (Qltb pos 50) eqn:E50.
  - eexists. split; [reflexivity|].
    cbn [layer position confidence bias]. repeat split.
    unfold clamp_confidence.
    rewrite <- trend_adjustment_bullish. reflexivity.
  - destruct (Qltb 50 pos) eqn:E50'.
    + eexists. split; [reflexivity|].
      cbn [layer position confidence bias]. repeat split.
      unfold clamp_confidence.
      rewrite <- trend_adjustment_bearish. reflexivity.
    + exfalso. q_props. unfold outside_layer_bands in Hout. lra.
Qed.

Lemma C9_flow_fallback_without_bonus_witness :
  exists b,
    analyze_bias (init 729) 21309 None 0 = Ok b
    /\ layer b = FLOW /\ position b == 16800 # 729 /\ confidence b = 50%Z.
Proof.
  pose (r := mkPO3Range 29 21141 21870 729
               (_calculate_levels (mkPO3Range 29 21141 21870 729 []))).
  destruct (C9_flow_fallback_without_bonus (init 729) 21309 None 0 r
              ((21309 - 21141) / inject_Z 729 * 100))
    as (_ & b & Hb & Hl & Hp & Hc).
  - reflexivity.
  - reflexivity.
  - left. split; reflexivity.
  - exists b. split; [exact Hb|]. split; [exact Hl|]. split.
    + rewrite Hp. reflexivity.
    + rewrite Hc. vm_compute in Hb. injection Hb as <-. reflexivity.
Defined.

(** ** Plan selection *)

Lemma determine_trade_plan_first_match (r : PO3Range) (pos : Q) (b : BiasAnalysis) :
  _determine_trade_plan r pos b = first_match plan_rules r pos (bias b).
Proof.
  unfold _determine_trade_plan, plan_rules, first_match, in_band.
  cbn [applies selects].
  destruct (bias b); cbn [Bias_eqb];
    repeat (q_case; cbn [andb]); reflexivity.
Qed.

Lemma bullish_low_position_is_plan_A (r : PO3Range) (pos : Q) (b : BiasAnalysis) :
  bias b = BULLISH -> pos <= 17 -> _determine_trade_plan r pos b = plan_A_long r.
Proof.
  intros Hb Hpos. unfold _determine_trade_plan.
  apply Qleb_spec in Hpos. rewrite Hpos, Hb. reflexivity.
Qed.

(** Rules 3 and 4 sit behind rules 1 and 2, whose bands contain theirs, so
    the liquidity plan is never selected. *)
Lemma liquidity_plan_never_selected (r : PO3Range) (pos : Q) (b : BiasAnalysis) :
  chosen_plan (_determine_trade_plan r pos b) <> Some PLAN_LIQUIDITY.
Proof.
  unfold _determine_trade_plan, chosen_plan.
  destruct (bias b); cbn [Bias_eqb];
    repeat (q_case; cbn [andb fst]); try discriminate;
    exfalso; q_props; lra.
Qed.

(** C3: plan selection is the first match of the priority-ordered rule
    table; with a BULLISH bias, position 15 selects Plan A (EINSTEIN, entry
    zone at levels [11, 17], targets at levels [47, 59], invalidation at level
    7) and so does every position up to 11, where rule 1 fires before rule 3:
    the plan selected there is never the LIQUIDITY plan. *)
Theorem C3_first_match_wins (r : PO3Range) (pos : Q) (b : BiasAnalysis) :
  _determine_trade_plan r pos b = first_match plan_rules r pos (bias b)
  /\ (bias b = BULLISH -> pos == 15 ->
      _determine_trade_plan r pos b = plan_A_long r)
  /\ (bias b = BULLISH -> pos <= 11 ->
      _determine_trade_plan r pos b = plan_A_long r
      /\ chosen_plan (_determine_trade_plan r pos b) <> Some PLAN_LIQUIDITY).
Proof.
  split; [apply determine_trade_plan_first_match|]. split.
  - intros Hb Hpos. apply bullish_low_position_is_plan_A; [exact Hb|].
    rewrite Hpos. discriminate.
  - intros Hb Hpos. split.
    + apply bullish_low_position_is_plan_A; [exact Hb|]. lra.
    + apply liquidity_plan_never_selected.
Qed.

(** A price at position 15 of its bracket, end to end: the bias is BULLISH
    and the setup follows Plan A. *)
Example generate_setup_position_15 :
  match fst (generate_setup (init DEFAULT_PO3) (2125035 # 100) "NQ" None 0
               Sample.monday_10h) with
  | Ok (Some setup) =>
      plan setup = EINSTEIN /\ setup_bias setup = BULLISH
      /\ map target_level (targets setup) = [47; 59]%Z
      /\ option_map inv_level (invalidation setup) = Some 7%Z
      /\ fst (entry_zone setup) == 2122119 # 100
      /\ snd (entry_zone setup) == 2126493 # 100
      /\ stop_loss setup == 2119203 # 100
  | _ => False
  end.
Proof. vm_compute. repeat split. Qed.

(** ** The exit check *)

Lemma check_exit_first_hit (cfg : BacktestConfig) (trade : OpenTrade)
    (high low close : Q) (current_bar : Z) :
  use_stop_loss cfg = true ->
  _check_exit cfg trade high low close current_bar
  = first_hit (exit_rules cfg trade high low close current_bar).
Proof.
  intro Hstop.
  unfold _check_exit, exit_rules, first_hit, stop_touched, target_touched.
  rewrite Hstop. cbn [andb].
  destruct (max_bars_in_trade cfg <=? current_bar - entry_bar trade)%Z;
    [reflexivity|].
  destruct (direction trade); reflexivity.
Qed.

(** C2: with stop-loss checking enabled the exit check is the first hit of
    the four rules in the order time exit (at the close), stop loss (at the
    stop), target 2, target 1, so one exit with one reason is returned per
    bar; a LONG entered at 100 with stop 90 and target 2 at 120 leaves a bar
    with high 125, low above 90 and bars held below the limit at 120 with
    reason TARGET_2. *)
Theorem C2_exit_priority (cfg : BacktestConfig) (trade : OpenTrade)
    (high low close : Q) (current_bar : Z) :
  use_stop_loss cfg = true ->
  _check_exit cfg trade high low close current_bar
  = first_hit (exit_rules cfg trade high low close current_bar)
  /\ (direction trade = LONG ->
      t_entry_price trade == 100 -> t_stop_loss trade == 90 ->
      target_2 trade == 120 ->
      high == 125 -> 90 < low ->
      (current_bar - entry_bar trade < max_bars_in_trade cfg)%Z ->
      exists e,
        _check_exit cfg trade high low close current_bar = Some e
        /\ reason e = TARGET_2 /\ exit_price e == 120).
Proof.
  intro Hstop. split; [apply check_exit_first_hit; exact Hstop|].
  intros Hdir _ Hsl Ht2 Hhigh Hlow Hbars.
  unfold _check_exit. rewrite Hstop, Hdir. cbn [andb].
  destruct (Z.leb_spec (max_bars_in_trade cfg) (current_bar - entry_bar trade));
    [lia|].
  assert (H1 : Qleb low (t_stop_loss trade) = false).
  { apply Qleb_false. rewrite Hsl. exact Hlow. }
  assert (H2 : Qleb (target_2 trade) high = true).
  { apply Qleb_spec. rewrite Ht2, Hhigh. discriminate. }
  rewrite H1, H2.
  exists (mkExitInfo (target_2 trade) TARGET_2).
  split; [reflexivity|]. split; [reflexivity|exact Ht2].
Qed.

Lemma C2_exit_priority_witness :
  use_stop_loss default_config = true
  /\ _check_exit default_config Sample.long_100 125 95 118 4
     = Some (mkExitInfo 120 TARGET_2).
Proof.
  destruct (C2_exit_priority default_config Sample.long_100 125 95 118 4 eq_refl)
    as [H _].
  split; [reflexivity|]. rewrite H. reflexivity.
Defined.

(** ** The setup counter *)

Lemma generate_setup_engine (self : Engine) (price : Q) (symbol : string)
    (po3_size : option Z) (trend_days : Z) (t : datetime) :
  snd (generate_setup self price symbol po3_size trend_days t)
  = mkEngine (default_po3 self) (setup_counter self + 1).
Proof. reflexivity. Qed.

Lemma generate_setup_id (self : Engine) (price : Q) (symbol : string)
    (po3_size : option Z) (trend_days : Z) (t : datetime) (setup : TradeSetup) :
  fst (generate_setup self price symbol po3_size trend_days t) = Ok (Some setup) ->
  id setup = (setup_counter self + 1)%Z.
Proof.
  unfold generate_setup. cbn [fst]. unfold generate_setup_body.
  destruct (calculate_range _ price po3_size) as [r|e]; [|discriminate].
  cbn [bind].
  destruct (get_position r price) as [pos|e]; [|discriminate].
  cbn [bind].
  destruct (analyze_bias _ price po3_size trend_days) as [b|e]; [|discriminate].
  cbn [bind].
  destruct (_determine_trade_plan r pos b) as [[[plan zone] tgts] inv].
  destruct plan as [plan|]; [|discriminate].
  intro H. injection H as <-. reflexivity.
Qed.

Lemma run_calls_ids (calls : list Call) (self : Engine) :
  StronglySorted Z.lt (returned_ids (fst (run_calls self calls)))
  /\ Forall (fun i => (setup_counter self < i)%Z)
            (returned_ids (fst (run_calls self calls))).
Proof.
  revert self. induction calls as [|c rest IH]; intro self.
  - split; constructor.
  - cbn [run_calls].
    pose proof (generate_setup_engine self (call_price c) (call_symbol c)
                  (call_po3_size c) (call_trend_days c) (call_time c)) as Heng.
    pose proof (generate_setup_id self (call_price c) (call_symbol c)
                  (call_po3_size c) (call_trend_days c) (call_time c)) as Hid.
    destruct (generate_setup self (call_price c) (call_symbol c)
                (call_po3_size c) (call_trend_days c) (call_time c)) as [r self'].
    cbn [fst snd] in Heng, Hid. subst self'.
    specialize (IH (mkEngine (default_po3 self) (setup_counter self + 1))).
    destruct (run_calls (mkEngine (default_po3 self) (setup_counter self + 1)) rest)
      as [rs self''].
    cbn [fst] in IH |- *. destruct IH as [IHs IHf]. cbn [setup_counter] in IHf.
    assert (Hlater : Forall (fun i => (setup_counter self < i)%Z) (returned_ids rs)).
    { eapply Forall_impl; [|exact IHf]. cbn beta. intros; lia. }
    destruct r as [[setup|]|e]; cbn [returned_ids].
    + rewrite (Hid setup eq_refl). split.
      * constructor; [exact IHs|exact IHf].
      * constructor; [lia|exact Hlater].
    + split; assumption.
    + split; assumption.
Qed.

(** C10: every call of [generate_setup] leaves the counter of the engine
    exactly one higher, whether it returns a setup, returns none or raises; a
    returned setup carries the new counter as its id; hence over any sequence
    of calls on one engine the ids of the returned setups are strictly
    increasing, and they need not be consecutive: a call without a setup
    between two calls with one gives the ids 1 and 3. *)
Theorem C10_counter_advances_on_every_call :
  (forall self price symbol po3_size trend_days t,
      setup_counter (snd (generate_setup self price symbol po3_size trend_days t))
      = (setup_counter self + 1)%Z
      /\ forall setup,
           fst (generate_setup self price symbol po3_size trend_days t)
           = Ok (Some setup) ->
           id setup = (setup_counter self + 1)%Z)
  /\ (fst (run_calls (init DEFAULT_PO3) [Sample.call_no_trade]) = [Ok None]
      /\ setup_counter (snd (run_calls (init DEFAULT_PO3) [Sample.call_no_trade]))
         = 1%Z)
  /\ (forall self calls,
        StronglySorted Z.lt (returned_ids (fst (run_calls self calls))))
  /\ returned_ids
       (fst (run_calls (init DEFAULT_PO3)
               [Sample.call_rebalance; Sample.call_no_trade; Sample.call_rebalance]))
     = [1; 3]%Z.
Proof.
  split; [|split; [|split]].
  - intros. split.
    + rewrite generate_setup_engine. reflexivity.
    + apply generate_setup_id.
  - split; vm_compute; reflexivity.
  - intros self calls. apply (run_calls_ids calls self).
  - vm_compute. reflexivity.
Qed.

Example generate_setup_raise_counts :
  generate_setup (init 0) 21500 "NQ" None 0 Sample.monday_10h
  = (Raise ZeroDivisionError, mkEngine 0 1).
Proof. reflexivity. Qed.

(** ** The next special minutes *)

Lemma special_minute_clock (t : datetime) :
  is_goldbach (analyze_goldbach_time t) = special_clock (clock t).
Proof. reflexivity. Qed.

(** Whatever the clock shows, one of the next 1440 minutes is special. *)
Lemma special_within_a_day_clock (h m : nat) :
  (h < 24)%nat -> (m < 60)%nat ->
  special_within_clock 1440 (Z.of_nat h, Z.of_nat m) = true.
Proof.
  intros Hh Hm.
  assert (All :
    forallb (fun h => forallb (fun m =>
      special_within_clock 1440 (Z.of_nat h, Z.of_nat m)) (seq 0 60)) (seq 0 24)
    = true) by (vm_compute; reflexivity).
  rewrite forallb_forall in All.
  specialize (All h). rewrite forallb_forall in All.
  apply All; apply in_seq; lia.
Qed.

Lemma special_within_a_day (t : datetime) :
  valid_clock t -> special_within_clock 1440 (clock t) = true.
Proof.
  intros [Hh Hm]. unfold clock.
  rewrite <- (Z2Nat.id (dt_hour t)) by lia.
  rewrite <- (Z2Nat.id (dt_minute t)) by lia.
  apply special_within_a_day_clock; lia.
Qed.

(** 14:29 sums to 43, which is not special; the nearest special number is
    41.  The 8th of March is day 3 of its partition, a key day. *)
Example goldbach_time_14_29 :
  let gb := analyze_goldbach_time (mkDatetime 2025 1 6 14 29) in
  sum_value gb = 43%Z /\ is_goldbach gb = false /\ nearest_goldbach gb = 41%Z.
Proof. repeat split. Qed.

Example partition_8_march :
  let info := get_monthly_partition_info (mkDatetime 2025 3 8 10 0) in
  partition_start info = 6%Z /\ partition_day info = 3%Z /\ is_key_day info = true.
Proof. repeat split. Qed.

(** *** One minute later *)

Lemma days_before_month_next (y m : Z) :
  (1 <= m <= 11)%Z ->
  Statistics.days_before_month y (m + 1)
  = (Statistics.days_before_month y m + days_in_month y m)%Z.
Proof.
  intro Hm.
  assert (Cases : (m = 1 \/ m = 2 \/ m = 3 \/ m = 4 \/ m = 5 \/ m = 6 \/ m = 7
                   \/ m = 8 \/ m = 9 \/ m = 10 \/ m = 11)%Z) by lia.
  unfold Statistics.days_before_month, days_in_month.
  repeat (destruct Cases as [->|Cases]); try subst m;
    destruct (is_leap y); reflexivity.
Qed.

Lemma div_next (y c : Z) :
  (0 < c)%Z ->
  (y / c = (y - 1) / c + (if y mod c =? 0 then 1 else 0))%Z.
Proof.
  intro Hc.
  pose proof (Z.div_mod y c ltac:(lia)) as H.
  pose proof (Z.mod_pos_bound y c Hc) as B.
  generalize dependent (y mod c)%Z. generalize dependent (y / c)%Z.
  intros q r H B.
  destruct (Z.eqb_spec r 0) as [E|E].
  - subst r. rewrite <- (Z.div_unique (y - 1) c (q - 1) (c - 1)); nia.
  - rewrite <- (Z.div_unique (y - 1) c q (r - 1)); nia.
Qed.

Lemma mod_4_of_100 (y : Z) : (y mod 100 = 0 -> y mod 4 = 0)%Z.
Proof.
  intro H. apply Z.mod_divide in H; [|lia]. apply Z.mod_divide; [lia|].
  destruct H as [k ->]. exists (k * 25)%Z. lia.
Qed.

Lemma mod_100_of_400 (y : Z) : (y mod 400 = 0 -> y mod 100 = 0)%Z.
Proof.
  intro H. apply Z.mod_divide in H; [|lia]. apply Z.mod_divide; [lia|].
  destruct H as [k ->]. exists (k * 4)%Z. lia.
Qed.

Lemma days_before_year_next (y : Z) :
  Statistics.days_before_year (y + 1)
  = (Statistics.days_before_year y + Statistics.days_before_month y 12 + 31)%Z.
Proof.
  unfold Statistics.days_before_year, Statistics.days_before_month, is_leap.
  cbn [assoc Z.eqb Pos.eqb Z.ltb Z.compare Pos.compare Pos.compare_cont andb].
  replace (y + 1 - 1)%Z with y by lia.
  rewrite (div_next y 4), (div_next y 100), (div_next y 400) by lia.
  pose proof (mod_4_of_100 y). pose proof (mod_100_of_400 y).
  destruct (Z.eqb_spec (y mod 4) 0) as [E4|E4];
    destruct (Z.eqb_spec (y mod 100) 0) as [E100|E100];
    destruct (Z.eqb_spec (y mod 400) 0) as [E400|E400];
    cbn [negb andb orb]; lia.
Qed.

(** Before [datetime.max] the next minute exists; it is a valid time, its
    number is the next one and its clock is the clock ticked once. *)
Lemma add_minute_next (t : datetime) :
  valid_date t -> valid_clock t ->
  (minute_number t < minute_number datetime_max)%Z ->
  exists t',
    add_minute t = Ok t'
    /\ valid_date t' /\ valid_clock t'
    /\ minute_number t' = (minute_number t + 1)%Z
    /\ clock t' = tick (clock t).
Proof.
  intros (Hy & Hm & Hd) (Hh & Hmin) Hroom.
  unfold add_minute, clock, tick.
  destruct (Z.ltb_spec (dt_minute t) 59) as [A|A].
  { eexists. split; [reflexivity|].
    unfold valid_date, valid_clock, minute_number, Statistics.toordinal.
    cbn [dt_year dt_month dt_day dt_hour dt_minute].
    repeat split; lia. }
  destruct (Z.ltb_spec (dt_hour t) 23) as [B|B].
  { eexists. split; [reflexivity|].
    unfold valid_date, valid_clock, minute_number, Statistics.toordinal.
    cbn [dt_year dt_month dt_day dt_hour dt_minute].
    repeat split; lia. }
  destruct (Z.ltb_spec (dt_day t) (days_in_month (dt_year t) (dt_month t)))
    as [C|C].
  { eexists. split; [reflexivity|].
    unfold valid_date, valid_clock, minute_number, Statistics.toordinal.
    cbn [dt_year dt_month dt_day dt_hour dt_minute].
    repeat split; lia. }
  destruct (Z.ltb_spec (dt_month t) 12) as [D|D].
  { eexists. split; [reflexivity|].
    unfold valid_date, valid_clock, minute_number, Statistics.toordinal.
    cbn [dt_year dt_month dt_day dt_hour dt_minute].
    rewrite days_before_month_next by lia.
    assert (Hdim : (28 <= days_in_month (dt_year t) (dt_month t + 1))%Z).
    { unfold days_in_month.
      destruct (dt_month t + 1 =? 2)%Z; [destruct (is_leap (dt_year t)); lia|].
      destruct (Z_mem (dt_month t + 1) [4; 6; 9; 11]%Z); lia. }
    repeat split; lia. }
  assert (E12 : dt_month t = 12%Z) by lia.
  assert (Ed : dt_day t = 31%Z).
  { rewrite E12 in Hd, C. unfold days_in_month in Hd, C. cbn in Hd, C. lia. }
  destruct (Z.ltb_spec (dt_year t) MAXYEAR) as [E|E].
  - eexists. split; [reflexivity|].
    unfold valid_date, valid_clock, minute_number, Statistics.toordinal.
    cbn [dt_year dt_month dt_day dt_hour dt_minute].
    rewrite days_before_year_next, E12, Ed.
    assert (H1 : Statistics.days_before_month (dt_year t + 1) 1 = 0%Z)
      by reflexivity.
    rewrite H1.
    assert (Hdim : days_in_month (dt_year t + 1) 1 = 31%Z) by reflexivity.
    rewrite Hdim. repeat split; lia.
  - exfalso.
    assert (Ey : dt_year t = MAXYEAR) by lia.
    unfold minute_number, Statistics.toordinal, datetime_max in Hroom.
    cbn [dt_year dt_month dt_day dt_hour dt_minute] in Hroom.
    rewrite Ey, E12, Ed in Hroom. lia.
Qed.

(** From a state in which results are still missing, the loop walks to the
    next special minute and appends it. *)
Lemma loop_reaches_next (k : nat) (t : datetime) (count : Z) :
  special_within_clock k (clock t) = true ->
  valid_date t -> valid_clock t ->
  (minute_number t + Z.of_nat k <= minute_number datetime_max)%Z ->
  exists j t',
    (1 <= j <= k)%nat
    /\ next_special t t'
    /\ valid_date t' /\ valid_clock t'
    /\ minute_number t' = (minute_number t + Z.of_nat j)%Z
    /\ forall fuel results,
         (Z.of_nat (List.length results) < count)%Z ->
         next_goldbach_loop (j + fuel) t count results
         = next_goldbach_loop fuel t' count
             (results ++ [analyze_goldbach_time t']).
Proof.
  revert t. induction k as [|k IH]; intros t Hk Hvd Hvc Hroom; [discriminate|].
  cbn [special_within_clock] in Hk.
  destruct (add_minute_next t Hvd Hvc) as (t1 & Ht1 & Hvd1 & Hvc1 & Hn1 & Hc1);
    [lia|].
  rewrite <- Hc1, <- special_minute_clock in Hk.
  destruct (is_goldbach (analyze_goldbach_time t1)) eqn:E.
  - exists 1%nat, t1. split; [lia|].
    split; [apply special_next; assumption|].
    split; [exact Hvd1|]. split; [exact Hvc1|]. split; [lia|].
    intros fuel results Hlt. cbn [Nat.add next_goldbach_loop].
    destruct (Z.ltb_spec (Z.of_nat (List.length results)) count); [|lia].
    rewrite Ht1, E. reflexivity.
  - destruct (IH t1 Hk Hvd1 Hvc1) as (j & t' & Hj & Hns & Hvd' & Hvc' & Hn' & Hloop);
      [lia|].
    exists (S j), t'. split; [lia|].
    split; [apply (special_later t t1 t'); assumption|].
    split; [exact Hvd'|]. split; [exact Hvc'|]. split; [lia|].
    intros fuel results Hlt. cbn [Nat.add next_goldbach_loop].
    destruct (Z.ltb_spec (Z.of_nat (List.length results)) count); [|lia].
    rewrite Ht1, E. apply Hloop. exact Hlt.
Qed.

Lemma loop_collects (n : nat) (t : datetime) (count : Z)
    (results : list GoldbachTime) (fuel : nat) :
  valid_date t -> valid_clock t ->
  (minute_number t + 1440 * Z.of_nat n <= minute_number datetime_max)%Z ->
  count = Z.of_nat (List.length results + n) ->
  (1440 * n <= fuel)%nat ->
  exists times,
    next_goldbach_loop fuel t count results
    = Some (Ok (results ++ map analyze_goldbach_time times))
    /\ List.length times = n
    /\ specials_from t times
    /\ Forall (fun t' => (minute_number t < minute_number t'
                          <= minute_number t + 1440 * Z.of_nat n)%Z) times.
Proof.
  revert t results fuel.
  induction n as [|n IH]; intros t results fuel Hvd Hvc Hroom Hc Hf.
  - exists []. cbn [map]. rewrite app_nil_r.
    split; [|split; [reflexivity|split; constructor]].
    destruct fuel; cbn [next_goldbach_loop];
      destruct (Z.ltb_spec (Z.of_nat (List.length results)) count);
      try reflexivity; lia.
  - destruct (loop_reaches_next 1440 t count)
      as (j & t' & Hj & Hns & Hvd' & Hvc' & Hn' & Hloop).
    + apply special_within_a_day; exact Hvc.
    + exact Hvd.
    + exact Hvc.
    + lia.
    + replace fuel with (j + (fuel - j))%nat by lia.
      rewrite Hloop by lia.
      destruct (IH t' (results ++ [analyze_goldbach_time t']) (fuel - j)%nat
                  Hvd' Hvc')
        as (times & Hm & Hl & Hsp & Hall).
      * lia.
      * rewrite length_app. cbn [List.length]. lia.
      * lia.
      * exists (t' :: times). cbn [map]. rewrite Hm, <- app_assoc. cbn [app].
        split; [reflexivity|]. split; [cbn [List.length]; lia|].
        split; [apply specials_cons; assumption|].
        constructor; [lia|].
        apply (Forall_impl _ (P := fun t'' =>
                 (minute_number t' < minute_number t''
                  <= minute_number t' + 1440 * Z.of_nat n)%Z)); [|exact Hall].
        intros t'' Ht''. lia.
Qed.

(** C8 (as amended): from every start time that lies at least 1440 minutes
    per requested result before [datetime.max], and for every count from 1 to
    60, the walk, given room for 1440 steps per result, raises nothing and
    returns exactly [count] results.  They are the special minutes that
    follow the start, in order and with none left out, each within 1440
    minutes per result of the start; for whatever the clock shows, one of the
    next 1440 minutes is special. *)
Theorem C8_next_goldbach_times_returns (from_time : datetime) (count : Z) :
  valid_date from_time ->
  valid_clock from_time ->
  (1 <= count <= 60)%Z ->
  (minute_number from_time + 1440 * count <= minute_number datetime_max)%Z ->
  special_within_clock 1440 (clock from_time) = true
  /\ forall fuel,
       (1440 * Z.to_nat count <= fuel)%nat ->
       exists times,
         get_next_goldbach_times fuel from_time count
         = Some (Ok (map analyze_goldbach_time times))
         /\ Z.of_nat (List.length times) = count
         /\ specials_from from_time times
         /\ Forall (fun t => (minute_number from_time < minute_number t
                              <= minute_number from_time + 1440 * count)%Z)
                   times.
Proof.
  intros Hvd Hvc Hc Hroom. split; [apply special_within_a_day; exact Hvc|].
  intros fuel Hf. unfold get_next_goldbach_times.
  destruct (loop_collects (Z.to_nat count) from_time count [] fuel Hvd Hvc)
    as (times & Hm & Hl & Hsp & Hall).
  - rewrite Z2Nat.id by lia. exact Hroom.
  - cbn [List.length Nat.add]. lia.
  - exact Hf.
  - exists times. cbn [app] in Hm. split; [exact Hm|].
    split; [lia|]. split; [exact Hsp|].
    rewrite Z2Nat.id in Hall by lia. exact Hall.
Qed.

Lemma C8_next_goldbach_times_returns_witness :
  exists times,
    get_next_goldbach_times (1440 * 5) Sample.monday_10h 5
    = Some (Ok (map analyze_goldbach_time times))
    /\ map clock times = [(10, 1); (10, 7); (10, 19); (10, 31); (10, 37)]%Z.
Proof.
  assert (Hvd : valid_date Sample.monday_10h).
  { vm_compute. repeat split; discriminate. }
  assert (Hvc : valid_clock Sample.monday_10h).
  { vm_compute. repeat split; discriminate. }
  assert (Hc : (1 <= 5 <= 60)%Z) by lia.
  assert (Hroom : (minute_number Sample.monday_10h + 1440 * 5
                   <= minute_number datetime_max)%Z).
  { vm_compute. discriminate. }
  destruct (C8_next_goldbach_times_returns Sample.monday_10h 5 Hvd Hvc Hc Hroom)
    as [_ H].
  destruct (H (1440 * 5)%nat (Nat.le_refl _)) as (times & Hr & _).
  exists times. split; [exact Hr|].
  assert (E : get_next_goldbach_times (1440 * 5) Sample.monday_10h 5
              = Some (Ok (map analyze_goldbach_time
                            [mkDatetime 2025 1 6 10 1; mkDatetime 2025 1 6 10 7;
                             mkDatetime 2025 1 6 10 19; mkDatetime 2025 1 6 10 31;
                             mkDatetime 2025 1 6 10 37]))).
  { vm_compute. reflexivity. }
  rewrite E in Hr. injection Hr as Hr.
  apply (f_equal (map time)) in Hr. rewrite !map_map in Hr.
  cbn [time analyze_goldbach_time] in Hr. rewrite map_id in Hr.
  rewrite <- Hr. reflexivity.
Defined.

(** C8 (as stated) fails at the last minute a [datetime] can hold: asked
    for one result from 9999-12-31 23:59, the walk raises OverflowError on
    its first step. *)
Lemma C8_counterexample :
  valid_date datetime_max /\ valid_clock datetime_max
  /\ get_next_goldbach_times 1440 datetime_max 1 = Some (Raise OverflowError).
Proof.
  split; [vm_compute; repeat split; discriminate|].
  split; [vm_compute; repeat split; discriminate|reflexivity].
Qed.

(** ** Monte Carlo *)

Lemma replay_equity (initial : Q) (shuffled : list Q) :
  fst (fst (replay initial shuffled)) = fold_left Qplus shuffled initial.
Proof.
  unfold replay.
  generalize initial at 2 as peak. generalize 0 as max_dd.
  revert initial. induction shuffled as [|p l IH]; intros equity max_dd peak.
  - reflexivity.
  - cbn [fold_left]. apply IH.
Qed.

Lemma fold_left_Qplus (l : list Q) (a : Q) :
  fold_left Qplus l a == a + Qsum l.
Proof.
  unfold Qsum. revert a. induction l as [|x l IH]; intro a; cbn [fold_left].
  - ring.
  - rewrite IH, (IH (0 + x)). ring.
Qed.

Lemma Qsum_cons (x : Q) (l : list Q) : Qsum (x :: l) == x + Qsum l.
Proof.
  unfold Qsum at 1. cbn [fold_left]. rewrite fold_left_Qplus. ring.
Qed.

Lemma Qsum_permutation (l l' : list Q) : Permutation l l' -> Qsum l == Qsum l'.
Proof.
  induction 1 as [|x l l' _ IH|x y l|l l' l'' _ IH1 _ IH2].
  - reflexivity.
  - rewrite !Qsum_cons, IH. reflexivity.
  - rewrite !Qsum_cons. ring.
  - rewrite IH1. exact IH2.
Qed.

(** The outcome of [monte_carlo] on a non-empty ledger with at least one
    simulation. *)
Lemma monte_carlo_runs (cfg : BacktestConfig) (ledger : list BacktestTrade)
    (permutation : nat -> list Q -> list Q) (num_simulations : Z) :
  ledger <> [] ->
  (1 <= num_simulations)%Z ->
  let finals :=
    map (fun k => fst (fst (replay (initial_capital cfg)
                              (permutation k (map pnl ledger)))))
        (seq 0 (Z.to_nat num_simulations)) in
  exists mc,
    monte_carlo cfg ledger permutation num_simulations = Ok (Some mc)
    /\ final_capitals mc = finals
    /\ finals <> []
    /\ final_capital_mean mc = mean finals
    /\ risk_of_ruin mc
       = inject_Z (Z.of_nat (List.length (filter (fun fc => Qleb fc 0) finals)))
         / inject_Z num_simulations * 100.
Proof.
  intros Hne HN finals. unfold monte_carlo.
  destruct ledger as [|t ledger]; [contradiction|].
  rewrite map_map. fold finals.
  assert (Hf : finals <> []).
  { unfold finals. destruct (Z.to_nat num_simulations) eqn:E; [lia|].
    cbn [seq map]. discriminate. }
  destruct finals as [|fc finals'] eqn:Efinals; [contradiction|].
  eexists. split; [reflexivity|]. cbn [final_capitals final_capital_mean risk_of_ruin].
  repeat split. exact Hf.
Qed.

(** *** Monte Carlo in double precision *)

Lemma replay_equity_double (initial : float) (shuffled : list float) :
  fst (fst (Doubles.replay initial shuffled))
  = fold_left PrimFloat.add shuffled initial.
Proof.
  unfold Doubles.replay.
  generalize initial at 2 as peak. generalize 0%float as max_dd.
  revert initial. induction shuffled as [|p l IH]; intros equity max_dd peak.
  - reflexivity.
  - cbn [fold_left]. apply IH.
Qed.

Lemma exact_replay_value (shuffled : list float) :
  forall equity,
    Doubles.exact_replay equity shuffled = true ->
    Doubles.finite (fold_left PrimFloat.add shuffled equity) = true
    /\ Doubles.value (fold_left PrimFloat.add shuffled equity)
       == Doubles.value equity + Qsum (map Doubles.value shuffled).
Proof.
  induction shuffled as [|p l IH]; intros equity H.
  - cbn [Doubles.exact_replay] in H. cbn [fold_left map]. split; [exact H|].
    unfold Qsum. cbn [fold_left]. ring.
  - cbn [Doubles.exact_replay] in H. apply andb_prop in H. destruct H as [Ha Hl].
    unfold Doubles.exact_add in Ha.
    apply andb_prop in Ha. destruct Ha as [_ Hv]. apply Qeq_bool_iff in Hv.
    destruct (IH _ Hl) as [Hf Hs].
    cbn [fold_left map]. split; [exact Hf|].
    rewrite Hs, Hv, Qsum_cons. ring.
Qed.

Lemma monte_carlo_double_runs (initial : float) (pnls : list float)
    (permutation : nat -> list float -> list float) (num_simulations : Z) :
  pnls <> [] ->
  (1 <= num_simulations)%Z ->
  exists mc,
    Doubles.monte_carlo initial pnls permutation num_simulations = Ok (Some mc)
    /\ Doubles.final_capitals mc
       = map (fun k => fold_left PrimFloat.add (permutation k pnls) initial)
           (seq 0 (Z.to_nat num_simulations)).
Proof.
  intros Hne HN. unfold Doubles.monte_carlo.
  destruct pnls as [|p pnls]; [contradiction|].
  rewrite map_map.
  assert (E : map (fun k => fst (fst (Doubles.replay initial
                                        (permutation k (p :: pnls)))))
                (seq 0 (Z.to_nat num_simulations))
              = map (fun k => fold_left PrimFloat.add (permutation k (p :: pnls))
                                initial)
                  (seq 0 (Z.to_nat num_simulations))).
  { apply map_ext. intro k. apply replay_equity_double. }
  rewrite E.
  destruct (Z.to_nat num_simulations) as [|n] eqn:En; [lia|].
  cbn [seq map]. eexists. split; reflexivity.
Qed.

(** C4 (as amended): on a non-empty ledger with N >= 1 simulations that draw
    permutations of the P&Ls, the final capital of every simulation is the
    initial capital with the P&Ls added to it one after the other in the
    order drawn; and whenever none of these additions rounds, the simulation
    ends at the initial capital plus the sum of the P&Ls exactly, whatever the
    order. *)
Theorem C4_mean_final_capital (initial_capital : float) (pnls : list float)
    (permutation : nat -> list float -> list float) (num_simulations : Z) :
  pnls <> [] ->
  (1 <= num_simulations)%Z ->
  (forall k, (k < Z.to_nat num_simulations)%nat ->
             Permutation pnls (permutation k pnls)) ->
  exists mc,
    Doubles.monte_carlo initial_capital pnls permutation num_simulations
    = Ok (Some mc)
    /\ Z.of_nat (List.length (Doubles.final_capitals mc)) = num_simulations
    /\ Doubles.final_capitals mc
       = map (fun k => fold_left PrimFloat.add (permutation k pnls)
                         initial_capital)
           (seq 0 (Z.to_nat num_simulations))
    /\ forall k fc,
         nth_error (Doubles.final_capitals mc) k = Some fc ->
         Doubles.exact_replay initial_capital (permutation k pnls) = true ->
         Doubles.finite fc = true
         /\ Doubles.value fc
            == Doubles.value initial_capital + Qsum (map Doubles.value pnls).
Proof.
  intros Hne HN Hperm.
  destruct (monte_carlo_double_runs initial_capital pnls permutation
              num_simulations Hne HN) as (mc & Hmc & Hfinals).
  exists mc. split; [exact Hmc|]. rewrite Hfinals.
  split; [rewrite length_map, length_seq; lia|]. split; [reflexivity|].
  intros k fc Hk Hexact.
  assert (Hlt : (k < Z.to_nat num_simulations)%nat).
  { assert (Hsome : nth_error
                      (map (fun k => fold_left PrimFloat.add (permutation k pnls)
                                        initial_capital)
                         (seq 0 (Z.to_nat num_simulations))) k <> None)
      by (rewrite Hk; discriminate).
    apply nth_error_Some in Hsome.
    rewrite length_map, length_seq in Hsome. exact Hsome. }
  rewrite nth_error_map, nth_error_seq in Hk.
  destruct (Nat.ltb_spec k (Z.to_nat num_simulations)) as [_|C]; [|lia].
  cbn [option_map Nat.add] in Hk. injection Hk as <-.
  destruct (exact_replay_value _ _ Hexact) as [Hf Hv].
  split; [exact Hf|]. rewrite Hv.
  rewrite (Qsum_permutation (map Doubles.value pnls)
             (map Doubles.value (permutation k pnls))); [reflexivity|].
  apply Permutation_map. apply Hperm. exact Hlt.
Qed.

Lemma C4_mean_final_capital_witness :
  exists mc,
    Doubles.monte_carlo 10000 [100; -50]%float (fun _ l => rev l) 3
    = Ok (Some mc)
    /\ Forall (fun fc => Doubles.value fc == 10050) (Doubles.final_capitals mc).
Proof.
  destruct (C4_mean_final_capital 10000 [100; -50]%float (fun _ l => rev l) 3)
    as (mc & Hmc & Hlen & Hfinals & Hexact).
  - discriminate.
  - lia.
  - intros k _. apply Permutation_rev.
  - exists mc. split; [exact Hmc|].
    apply Forall_forall. intros fc Hin.
    apply In_nth_error in Hin. destruct Hin as (k & Hk).
    destruct (Hexact k fc Hk) as [_ Hv]; [vm_compute; reflexivity|].
    rewrite Hv. vm_compute. reflexivity.
Defined.

(** C4 (as stated) fails in double precision for the ledger with the P&Ls
    17.269, 11.244 and -189.183 and the initial capital 10000: the simulation
    that adds them in this order ends strictly above the one that adds them
    in reverse order, which ends at the double nearest to 9839.33; so the two
    final capitals are not the same number. *)
Lemma C4_counterexample :
  exists up down drawdowns,
    Doubles.monte_carlo 10000
      [Doubles.dec 17269 1000; Doubles.dec 11244 1000; Doubles.dec (-189183) 1000]
      Doubles.ledger_then_reverse 2
    = Ok (Some (Doubles.mkMonteCarlo [up; down] drawdowns 0))
    /\ PrimFloat.eqb down (Doubles.dec 983933 100) = true
    /\ PrimFloat.ltb down up = true
    /\ Permutation
         [Doubles.dec 17269 1000; Doubles.dec 11244 1000;
          Doubles.dec (-189183) 1000]
         (Doubles.ledger_then_reverse 1
            [Doubles.dec 17269 1000; Doubles.dec 11244 1000;
             Doubles.dec (-189183) 1000]).
Proof.
  eexists. eexists. eexists. split; [vm_compute; reflexivity|].
  split; [vm_compute; reflexivity|]. split; [vm_compute; reflexivity|].
  apply Permutation_rev.
Qed.

(** The drawdown of a replay does depend on the order: a win of 100 followed
    by a loss of 50 draws down 50 from the peak 10100, the reverse order draws
    down 50 from the peak 10000. *)
Example replay_drawdown_depends_on_order :
  snd (replay 10000 [100; -50]) == 50 # 101
  /\ snd (replay 10000 [-50; 100]) == 1 # 2.
Proof. split; vm_compute; reflexivity. Qed.

Lemma count_ruined_filter (finals : list Q) :
  Z.of_nat (List.length (filter (fun fc => Qleb fc 0) finals)) = count_ruined finals.
Proof.
  induction finals as [|fc finals IH]; [reflexivity|].
  cbn [filter count_ruined]. destruct (Qleb fc 0); cbn [List.length]; lia.
Qed.

(** C7 (as amended): on a non-empty ledger with N >= 1 simulations, whatever
    permutations are drawn, [risk_of_ruin] is the percentage of the N
    simulations whose final capital is at or below zero: 100 times the count
    divided by N. *)
Theorem C7_risk_of_ruin_percentage (cfg : BacktestConfig)
    (ledger : list BacktestTrade) (permutation : nat -> list Q -> list Q)
    (num_simulations : Z) :
  ledger <> [] ->
  (1 <= num_simulations)%Z ->
  exists mc,
    monte_carlo cfg ledger permutation num_simulations = Ok (Some mc)
    /\ Z.of_nat (List.length (final_capitals mc)) = num_simulations
    /\ risk_of_ruin mc == 100 * ruin_fraction (final_capitals mc).
Proof.
  intros Hne HN.
  destruct (monte_carlo_runs cfg ledger permutation num_simulations Hne HN)
    as (mc & Hmc & Hfinals & _ & _ & Hruin).
  exists mc. split; [exact Hmc|].
  assert (Hlen : Z.of_nat (List.length (final_capitals mc)) = num_simulations).
  { rewrite Hfinals, length_map, length_seq. lia. }
  split; [exact Hlen|].
  rewrite Hruin. unfold ruin_fraction.
  rewrite Hlen, <- Hfinals, count_ruined_filter.
  assert (Hn : ~ inject_Z num_simulations == 0).
  { intro E. change 0 with (inject_Z 0) in E. rewrite inject_Z_injective in E. lia. }
  field. exact Hn.
Qed.

Lemma C7_risk_of_ruin_percentage_witness :
  exists mc,
    monte_carlo default_config [Sample.losing_trade] Sample.keep_order 4
    = Ok (Some mc)
    /\ risk_of_ruin mc == 100.
Proof.
  destruct (C7_risk_of_ruin_percentage default_config [Sample.losing_trade]
              Sample.keep_order 4)
    as (mc & Hmc & _ & Hruin).
  - discriminate.
  - lia.
  - exists mc. split; [exact Hmc|]. rewrite Hruin.
    vm_compute in Hmc. injection Hmc as <-. reflexivity.
Defined.

(** C7 (as stated) fails for a ledger of one trade that loses 20000 of the
    10000 of capital: the single simulation is ruined, the fraction is 1, and
    [risk_of_ruin] is 100. *)
Lemma C7_counterexample :
  exists mc,
    monte_carlo default_config [Sample.losing_trade] Sample.keep_order 1
    = Ok (Some mc)
    /\ ruin_fraction (final_capitals mc) == 1
    /\ risk_of_ruin mc == 100
    /\ ~ risk_of_ruin mc == ruin_fraction (final_capitals mc).
Proof.
  eexists. split; [vm_compute; reflexivity|].
  split; [vm_compute; reflexivity|]. split; [vm_compute; reflexivity|].
  vm_compute. discriminate.
Qed.

(** ** The backtest loop *)

Lemma look_for_entry_cases (cfg : BacktestConfig) (symbol : string) (i : Z)
    (prev_close : Q) (current_date : datetime) (s s' : RunState) :
  look_for_entry cfg symbol i prev_close current_date s = Ok s' ->
  trades s' = trades s
  /\ ((in_trade s' = in_trade s /\ current_trade s' = current_trade s
       /\ trade_id s' = trade_id s)
      \/ (in_trade s = false /\ in_trade s' = true /\ current_trade s' <> None
          /\ trade_id s' = (trade_id s + 1)%Z)).
Proof.
  unfold look_for_entry. destruct (in_trade s) eqn:Ein; cbn [negb].
  - intro H. injection H as <-. split; [reflexivity|]. left. rewrite Ein. auto.
  - destruct (generate_setup (engine s) prev_close symbol (Some (po3_size cfg)) 0
                current_date) as [r eng].
    destruct r as [[setup|]|e]; cbn [bind]; [| |discriminate].
    + destruct (_filter_setup cfg setup); intro H; injection H as <-;
        cbn [trades in_trade current_trade trade_id]; (split; [reflexivity|]).
      * right. repeat split. discriminate.
      * left. auto.
    + intro H. injection H as <-.
      cbn [trades in_trade current_trade trade_id]. split; [reflexivity|].
      left. auto.
Qed.

Lemma update_excursions_same_trade (tr : OpenTrade) (high low : Q) :
  t_id (update_excursions tr high low) = t_id tr
  /\ entry_bar (update_excursions tr high low) = entry_bar tr.
Proof. unfold update_excursions. destruct (direction tr); split; reflexivity. Qed.

(** One bar: the invariant is kept, no second position is opened, and the
    ledger grows by one trade exactly on an IN-POSITION -> FLAT transition. *)
Lemma step_cases (cfg : BacktestConfig) (symbol : string) (i : Z)
    (prev cur : Bar) (s s' : RunState) :
  step cfg symbol i prev cur s = Ok s' ->
  one_position_at_most s ->
  one_position_at_most s'
  /\ no_second_position s s'
  /\ List.length (trades s')
     = (List.length (trades s) + (if in_trade s && negb (in_trade s') then 1 else 0))%nat.
Proof.
  unfold step, one_position_at_most, no_second_position, open_positions.
  intros Hstep [Hopen Hslot].
  destruct (in_trade s) eqn:Ein.
  - destruct (current_trade s) as [tr|] eqn:Ecur.
    2:{ exfalso. apply (proj1 Hslot); reflexivity. }
    destruct (_check_exit cfg tr (bar_high cur) (bar_low cur) (bar_close cur) i)
      as [exit_info|].
    + destruct (_close_trade cfg tr (bar_date cur) (exit_price exit_info)
                  (reason exit_info) (i - entry_bar tr) (mae tr) (mfe tr))
        as [trade|e]; [|discriminate].
      cbn [bind] in Hstep. injection Hstep as <-. unfold book_trade.
      cbn [trades in_trade current_trade trade_id andb negb].
      rewrite length_app. cbn [List.length].
      split; [split; [lia|split; [discriminate|intro C; contradiction]]|].
      split; [|reflexivity].
      intros _. split; [reflexivity|discriminate].
    + unfold look_for_entry in Hstep.
      cbn [in_trade negb] in Hstep.
      injection Hstep as <-.
      cbn [trades in_trade current_trade trade_id andb negb option_map].
      split; [split; [exact Hopen|split; [discriminate|reflexivity]]|].
      split; [|lia].
      intros _. split; [reflexivity|]. intros _.
      destruct (update_excursions_same_trade tr (bar_high cur) (bar_low cur))
        as [-> ->].
      split; reflexivity.
  - apply look_for_entry_cases in Hstep.
    destruct Hstep as [Htr [(Hin & Hcur & Hid)|(_ & Hin & Hcur & Hid)]].
    + rewrite Htr, Hin, Hcur, Hid, Ein. cbn [andb].
      split; [split; [exact Hopen|exact Hslot]|].
      split; [discriminate|lia].
    + rewrite Htr, Hin, Hid. cbn [andb].
      split; [split; [lia|split; [intros _; exact Hcur|reflexivity]]|].
      split; [discriminate|lia].
Qed.

Lemma bars_trace_invariants (rest : list Bar) (cfg : BacktestConfig)
    (symbol : string) (i : Z) (prev : Bar) (s : RunState) :
  one_position_at_most s ->
  Forall one_position_at_most (bars_trace cfg symbol i prev rest s)
  /\ Sorted no_second_position (s :: bars_trace cfg symbol i prev rest s).
Proof.
  revert i prev s. induction rest as [|cur rest IH]; intros i prev s Hs.
  - cbn [bars_trace]. split; [constructor|]. repeat constructor.
  - cbn [bars_trace].
    destruct (step cfg symbol i prev cur s) as [s'|e] eqn:Estep.
    + destruct (step_cases cfg symbol i prev cur s s' Estep Hs) as (Hs' & Hno & _).
      destruct (IH (i + 1)%Z cur s' Hs') as [Hall Hsorted].
      split; [constructor; assumption|].
      constructor; [exact Hsorted|]. constructor. exact Hno.
    + split; [constructor|]. repeat constructor.
Qed.

Lemma exits_cons (a b : bool) (l : list bool) :
  exits (a :: b :: l) = ((if a && negb b then 1 else 0) + exits (b :: l))%nat.
Proof. reflexivity. Qed.

Lemma entries_cons (a b : bool) (l : list bool) :
  entries (a :: b :: l) = ((if negb a && b then 1 else 0) + entries (b :: l))%nat.
Proof. reflexivity. Qed.

Lemma last_cons_default {A : Type} (l : list A) (x a : A) :
  last (x :: l) a = last l x.
Proof.
  revert x a. induction l as [|y l IH]; intros x a; [reflexivity|].
  change (last (x :: y :: l) a) with (last (y :: l) a).
  rewrite (IH y a), (IH y x). reflexivity.
Qed.

(** Closing the flags with FLAT adds one exit when the last flag is
    IN-POSITION. *)
Lemma exits_closed (l : list bool) (a : bool) :
  exits ((a :: l) ++ [false])
  = (exits (a :: l) + (if last l a then 1 else 0))%nat.
Proof.
  revert a. induction l as [|b l IH]; intro a.
  - cbn. destruct a; reflexivity.
  - change ((a :: b :: l) ++ [false]) with (a :: (b :: l) ++ [false]).
    change ((b :: l) ++ [false]) with (b :: l ++ [false]).
    rewrite exits_cons.
    change (b :: l ++ [false]) with ((b :: l) ++ [false]).
    rewrite IH, exits_cons.
    rewrite (last_cons_default l b a). lia.
Qed.

(** In flags closed with FLAT every entry has its exit. *)
Lemma exits_closed_entries (l : list bool) (a : bool) :
  exits ((a :: l) ++ [false])
  = (entries (a :: l) + (if a then 1 else 0))%nat.
Proof.
  revert a. induction l as [|b l IH]; intro a.
  - cbn. destruct a; reflexivity.
  - change ((a :: b :: l) ++ [false]) with (a :: (b :: l) ++ [false]).
    change ((b :: l) ++ [false]) with (b :: l ++ [false]).
    rewrite exits_cons.
    change (b :: l ++ [false]) with ((b :: l) ++ [false]).
    rewrite IH, entries_cons.
    destruct a, b; cbn [andb negb]; lia.
Qed.

Lemma bars_loop_ledger (rest : list Bar) (cfg : BacktestConfig)
    (symbol : string) (i : Z) (prev : Bar) (s sf : RunState) :
  one_position_at_most s ->
  bars_loop cfg symbol i prev rest s = Ok sf ->
  sf = last (bars_trace cfg symbol i prev rest s) s
  /\ List.length (bars_trace cfg symbol i prev rest s) = List.length rest
  /\ List.length (trades sf)
     = (List.length (trades s)
        + exits (map in_trade (s :: bars_trace cfg symbol i prev rest s)))%nat
  /\ one_position_at_most sf.
Proof.
  revert i prev s. induction rest as [|cur rest IH]; intros i prev s Hs Hloop.
  - cbn [bars_loop] in Hloop. injection Hloop as <-. cbn.
    repeat split; try lia; apply Hs.
  - cbn [bars_loop bars_trace] in *.
    destruct (step cfg symbol i prev cur s) as [s'|e] eqn:Estep; [|discriminate].
    cbn [bind] in Hloop.
    destruct (step_cases cfg symbol i prev cur s s' Estep Hs) as (Hs' & _ & Hlen).
    destruct (IH (i + 1)%Z cur s' Hs' Hloop) as (Hlast & Hcount & Hledger & Hsf).
    split; [|split; [|split]].
    + rewrite Hlast. symmetry. apply last_cons_default.
    + cbn [List.length]. lia.
    + rewrite Hledger, Hlen.
      change (map in_trade (s :: s' :: bars_trace cfg symbol (i + 1) cur rest s'))
        with (in_trade s :: in_trade s'
                :: map in_trade (bars_trace cfg symbol (i + 1) cur rest s')).
      rewrite exits_cons. cbn [map]. lia.
    + exact Hsf.
Qed.

Lemma start_state_flat (cfg : BacktestConfig) (eng : Engine) :
  one_position_at_most (start_state cfg eng).
Proof.
  unfold one_position_at_most, open_positions, start_state. cbn.
  split; [reflexivity|]. split; [discriminate|intro C; contradiction].
Qed.

(** The forced close books one trade exactly when a position is open. *)
Lemma close_remaining_ledger (cfg : BacktestConfig) (data : list Bar)
    (s final : RunState) :
  one_position_at_most s ->
  (in_trade s = true -> data <> []) ->
  close_remaining cfg data s = Ok final ->
  List.length (trades final)
  = (List.length (trades s) + (if in_trade s then 1 else 0))%nat
  /\ trade_id final = trade_id s.
Proof.
  unfold close_remaining, one_position_at_most. intros [_ Hslot] Hdata.
  destruct (in_trade s) eqn:Ein.
  - destruct (current_trade s) as [tr|] eqn:Ecur.
    2:{ exfalso. apply (proj1 Hslot); reflexivity. }
    destruct (rev data) as [|final_bar rd] eqn:Erev.
    { exfalso. apply (Hdata eq_refl).
      rewrite <- (rev_involutive data), Erev. reflexivity. }
    destruct (_close_trade cfg tr (bar_date final_bar) (bar_close final_bar)
                TIME_EXIT (Z.of_nat (List.length data) - entry_bar tr)
                (mae tr) (mfe tr)) as [trade|e]; [|discriminate].
    cbn [bind]. intro H. injection H as <-.
    cbn [trades trade_id]. rewrite length_app. cbn [List.length].
    split; [lia|reflexivity].
  - intro H. injection H as <-. split; [lia|reflexivity].
Qed.

(** C1: in a run of the backtest, at every bar at most one position is open
    (opened minus closed is 0 or 1, and 1 exactly when the run is in a
    trade), and no position is opened while one is open; when the run
    completes, every bar was processed and the ledger holds as many trades as
    there were FLAT -> IN-POSITION -> FLAT round trips, the forced close at
    the end of the series counted: one trade per entry. *)
Theorem C1_one_position_and_ledger_count (cfg : BacktestConfig) (eng : Engine)
    (data : list Bar) (symbol : string) :
  Forall one_position_at_most (visited cfg eng data symbol)
  /\ Forall (fun s => (0 <= open_positions s <= 1)%Z) (visited cfg eng data symbol)
  /\ Sorted no_second_position (visited cfg eng data symbol)
  /\ forall final,
       run_backtest cfg eng data symbol = Ok final ->
       List.length (visited cfg eng data symbol) = Nat.max 1 (List.length data)
       /\ List.length (trades final) = round_trips (visited cfg eng data symbol)
       /\ List.length (trades final)
          = entries (map in_trade (visited cfg eng data symbol))
       /\ Z.of_nat (List.length (trades final)) = trade_id final.
Proof.
  pose proof (start_state_flat cfg eng) as H0.
  assert (Hinv : Forall one_position_at_most (visited cfg eng data symbol)
                 /\ Sorted no_second_position (visited cfg eng data symbol)).
  { unfold visited. destruct data as [|first rest].
    - split; repeat constructor; apply H0.
    - destruct (bars_trace_invariants rest cfg symbol 1 first
                  (start_state cfg eng) H0) as [A B].
      split; [constructor; assumption|exact B]. }
  destruct Hinv as [Hall Hsorted].
  split; [exact Hall|]. split; [|split; [exact Hsorted|]].
  { eapply Forall_impl; [|exact Hall]. intros s [Hopen _].
    rewrite Hopen. destruct (in_trade s); lia. }
  intros final Hrun. unfold run_backtest in Hrun.
  unfold round_trips, visited.
  destruct data as [|first rest].
  - cbn [bind] in Hrun.
    destruct (close_remaining_ledger cfg [] (start_state cfg eng) final H0)
      as [Hlen Hid]; [discriminate|exact Hrun|].
    rewrite Hlen, Hid. cbn. repeat split.
  - destruct (bars_loop cfg symbol 1 first rest (start_state cfg eng))
      as [sf|e] eqn:Eloop; [|discriminate].
    cbn [bind] in Hrun.
    destruct (bars_loop_ledger rest cfg symbol 1 first (start_state cfg eng) sf
                H0 Eloop) as (Hlast & Hcount & Hledger & Hsf).
    destruct (close_remaining_ledger cfg (first :: rest) sf final Hsf)
      as [Hlen Hid]; [discriminate|exact Hrun|].
    set (tr := bars_trace cfg symbol 1 first rest (start_state cfg eng)) in *.
    assert (Hflag : in_trade sf = last (map in_trade tr) false).
    { rewrite Hlast. clearbody tr. clear.
      change false with (in_trade (start_state cfg eng)).
      generalize (start_state cfg eng) as d.
      induction tr as [|x tr IH]; intro d; [reflexivity|].
      cbn [map]. destruct tr as [|y tr]; [reflexivity|].
      cbn [map] in IH |- *. change (last (x :: y :: tr) d) with (last (y :: tr) d).
      change (last (in_trade x :: in_trade y :: map in_trade tr) (in_trade d))
        with (last (in_trade y :: map in_trade tr) (in_trade d)).
      apply IH. }
    assert (Hround :
      List.length (trades final)
      = exits (map in_trade (start_state cfg eng :: tr) ++ [false])).
    { cbn [map]. change (in_trade (start_state cfg eng)) with false.
      rewrite exits_closed, <- Hflag, Hlen, Hledger. reflexivity. }
    split; [|split; [exact Hround|split]].
    + cbn [List.length]. rewrite Hcount. lia.
    + rewrite Hround. cbn [map]. change (in_trade (start_state cfg eng)) with false.
      rewrite exits_closed_entries. lia.
    + rewrite Hid, Hlen. destruct Hsf as [Hopen _]. unfold open_positions in Hopen.
      destruct (in_trade sf); lia.
Qed.

(** A run with two round trips: an entry on the second bar leaves at target 2
    on the third, and the entry on the fourth bar is closed by the forced
    close. *)
Example run_four_bars :
  match run_backtest default_config (init DEFAULT_PO3) Sample.four_bars "NQ" with
  | Ok final =>
      map exit_reason (trades final) = [TARGET_2; TIME_EXIT]
      /\ map in_trade (visited default_config (init DEFAULT_PO3) Sample.four_bars "NQ")
         = [false; true; false; true]
      /\ round_trips (visited default_config (init DEFAULT_PO3) Sample.four_bars "NQ")
         = 2%nat
      /\ trade_id final = 2%Z
  | Raise _ => False
  end.
Proof. vm_compute. repeat split. Qed.

(** * Further properties of the engine and the backtester *)

Import EngineQueries Api Statistics WalkForward Scheduler Notions.

(** ** Errors of the engine *)

Lemma get_position_of_range (self : Engine) (price : Q) (po3_size : option Z)
    (r : PO3Range) :
  calculate_range self price po3_size = Ok r ->
  exists pos, get_position r price = Ok pos.
Proof.
  intro Hr. destruct (calculate_range_width self price po3_size r Hr) as [Hs _].
  unfold get_position, truediv.
  destruct (Qltb price (low r)); [eexists; reflexivity|].
  destruct (Qltb (high r) price); [eexists; reflexivity|].
  destruct (Qeq_bool (inject_Z (size r)) 0) eqn:E.
  - apply Qeq_bool_iff in E. change 0 with (inject_Z 0) in E.
    rewrite inject_Z_injective in E. contradiction.
  - eexists. reflexivity.
Qed.

Lemma calculate_range_zero (self : Engine) (price : Q) (po3_size : option Z) :
  po3_or_default self po3_size = 0%Z ->
  calculate_range self price po3_size = Raise ZeroDivisionError.
Proof. intro H. unfold calculate_range. rewrite H. reflexivity. Qed.

Lemma analyze_bias_returns (self : Engine) (price : Q) (po3_size : option Z)
    (trend_days : Z) (r : PO3Range) (pos : Q) :
  calculate_range self price po3_size = Ok r ->
  get_position r price = Ok pos ->
  exists b, analyze_bias self price po3_size trend_days = Ok b /\ position b = pos.
Proof.
  intros Hr Hpos. unfold analyze_bias. rewrite Hr. cbn [bind]. rewrite Hpos.
  cbn [bind].
  destruct (if Qleb pos 17 then _ else _) as [[b g] c].
  eexists. split; reflexivity.
Qed.

Lemma engine_outcome_by_size (self : Engine) (price : Q) (symbol : string)
    (po3_size : option Z) (trend_days : Z) (t : datetime) :
  (po3_or_default self po3_size = 0%Z ->
   calculate_range self price po3_size = Raise ZeroDivisionError
   /\ get_position_info self price po3_size = Raise ZeroDivisionError
   /\ analyze_bias self price po3_size trend_days = Raise ZeroDivisionError
   /\ fst (generate_setup self price symbol po3_size trend_days t)
      = Raise ZeroDivisionError)
  /\ (po3_or_default self po3_size <> 0%Z ->
      (exists r, calculate_range self price po3_size = Ok r)
      /\ (exists i, get_position_info self price po3_size = Ok i)
      /\ (exists b, analyze_bias self price po3_size trend_days = Ok b)
      /\ (exists s, fst (generate_setup self price symbol po3_size trend_days t)
                    = Ok s)).
Proof.
  split.
  - intro H0.
    assert (H1 : forall c, calculate_range (mkEngine (default_po3 self) c)
                             price po3_size = Raise ZeroDivisionError).
    { intro c. apply calculate_range_zero. destruct po3_size; exact H0. }
    pose proof (calculate_range_zero self price po3_size H0) as H.
    repeat split.
    + exact H.
    + unfold get_position_info. rewrite H. reflexivity.
    + unfold analyze_bias. rewrite H. reflexivity.
    + unfold generate_setup, generate_setup_body. cbn [fst]. rewrite H1. reflexivity.
  - intro Hn.
    destruct (calculate_range_fields self price po3_size Hn) as (r & Hr & _).
    destruct (get_position_of_range self price po3_size r Hr) as (pos & Hpos).
    destruct (analyze_bias_returns self price po3_size trend_days r pos Hr Hpos)
      as (b & Hb & _).
    repeat split.
    + exists r. exact Hr.
    + unfold get_position_info. rewrite Hr. cbn [bind]. rewrite Hpos. cbn [bind].
      eexists. reflexivity.
    + exists b. exact Hb.
    + set (self' := mkEngine (default_po3 self) (setup_counter self + 1)).
      assert (Hn' : po3_or_default self' po3_size <> 0%Z)
        by (destruct po3_size; exact Hn).
      destruct (calculate_range_fields self' price po3_size Hn') as (r' & Hr' & _).
      destruct (get_position_of_range self' price po3_size r' Hr') as (pos' & Hpos').
      destruct (analyze_bias_returns self' price po3_size trend_days r' pos' Hr' Hpos')
        as (b' & Hb' & _).
      unfold generate_setup, generate_setup_body. cbn [fst]. fold self'.
      rewrite Hr'. cbn [bind]. rewrite Hpos'. cbn [bind]. rewrite Hb'. cbn [bind].
      destruct (_determine_trade_plan r' pos' b') as [[[plan zone] tgts] inv].
      destruct plan; eexists; reflexivity.
Qed.

(** X1: for a finite price and a bracket size in force (the size passed in,
    or the default of the engine when none or 0 is passed), both of magnitude
    at most 10^15, [calculate_range], [get_position_info], [analyze_bias] and
    [generate_setup] raise ZeroDivisionError when that size is 0 and return
    otherwise.  For a price that is not finite [calculate_range] raises
    before the size matters: ValueError for NaN, OverflowError for an
    infinity. *)
Theorem engine_raises_iff_size_zero (self : Engine) (price : Q) (symbol : string)
    (po3_size : option Z) (trend_days : Z) (t : datetime) :
  - inject_Z (10 ^ 15) <= price <= inject_Z (10 ^ 15) ->
  (Z.abs (po3_or_default self po3_size) <= 10 ^ 15)%Z ->
  (po3_or_default self po3_size = 0%Z ->
   calculate_range_at self (Finite price) po3_size = Raise ZeroDivisionError
   /\ get_position_info self price po3_size = Raise ZeroDivisionError
   /\ analyze_bias self price po3_size trend_days = Raise ZeroDivisionError
   /\ fst (generate_setup self price symbol po3_size trend_days t)
      = Raise ZeroDivisionError)
  /\ (po3_or_default self po3_size <> 0%Z ->
      (exists r, calculate_range_at self (Finite price) po3_size = Ok r)
      /\ (exists i, get_position_info self price po3_size = Ok i)
      /\ (exists b, analyze_bias self price po3_size trend_days = Ok b)
      /\ (exists s, fst (generate_setup self price symbol po3_size trend_days t)
                    = Ok s))
  /\ calculate_range_at self NaN po3_size = Raise ValueError
  /\ (forall negative,
        calculate_range_at self (Infinity negative) po3_size
        = Raise OverflowError).
Proof.
  intros _ _.
  destruct (engine_outcome_by_size self price symbol po3_size trend_days t)
    as [Hzero Hsize].
  split; [exact Hzero|]. split; [exact Hsize|]. split; reflexivity.
Qed.

Lemma engine_raises_iff_size_zero_witness :
  (exists r, calculate_range_at (init 729) (Finite 21500) None = Ok r)
  /\ calculate_range_at (init 0) (Finite 21500) None = Raise ZeroDivisionError.
Proof.
  assert (Hp : - inject_Z (10 ^ 15) <= 21500 <= inject_Z (10 ^ 15))
    by (split; discriminate).
  split.
  - destruct (engine_raises_iff_size_zero (init 729) 21500 "NQ" None 0
                Sample.monday_10h Hp) as (_ & H & _).
    + vm_compute. discriminate.
    + destruct H as (Hr & _); [discriminate|exact Hr].
  - destruct (engine_raises_iff_size_zero (init 0) 21500 "NQ" None 0
                Sample.monday_10h Hp) as (H & _).
    + vm_compute. discriminate.
    + destruct H as (Hr & _); [reflexivity|exact Hr].
Defined.

(** ** Levels of a bracket *)

Lemma inject_Z_pos (s : Z) : (0 < s)%Z -> 0 < inject_Z s.
Proof. intro H. change 0 with (inject_Z 0). rewrite <- Zlt_Qlt. exact H. Qed.

(** Level prices grow with the level when the size is positive. *)
Lemma get_level_price_lt (r : PO3Range) (a b : Z) :
  (0 < size r)%Z -> (a < b)%Z -> get_level_price r a < get_level_price r b.
Proof.
  intros Hs Hab. unfold get_level_price.
  pose proof (inject_Z_pos (size r) Hs) as Hq.
  assert (Hd : inject_Z a / 100 < inject_Z b / 100).
  { apply Qmult_lt_compat_r; [reflexivity|]. rewrite <- Zlt_Qlt. exact Hab. }
  assert (Hm : inject_Z a / 100 * inject_Z (size r)
               < inject_Z b / 100 * inject_Z (size r)).
  { apply Qmult_lt_compat_r; assumption. }
  lra.
Qed.

Lemma calculate_levels_prices (r : PO3Range) :
  map level_price (_calculate_levels r)
  = map (fun kv => get_level_price r (fst kv)) GOLDBACH_LEVELS
  /\ map level_pct (_calculate_levels r) = map fst GOLDBACH_LEVELS.
Proof. split; reflexivity. Qed.

Lemma sorted_level_prices (r : PO3Range) (pcts : list Z) :
  (0 < size r)%Z ->
  StronglySorted Z.lt pcts ->
  StronglySorted Qlt (map (get_level_price r) pcts).
Proof.
  intros Hs H. induction H as [|a l Hl IH Ha]; cbn [map]; constructor.
  - exact IH.
  - apply Forall_forall. intros x Hx. apply in_map_iff in Hx.
    destruct Hx as (b & <- & Hb). apply get_level_price_lt; [exact Hs|].
    rewrite Forall_forall in Ha. apply Ha. exact Hb.
Qed.

Lemma goldbach_levels_sorted : StronglySorted Z.lt (map fst GOLDBACH_LEVELS).
Proof.
  unfold GOLDBACH_LEVELS. cbn [map fst].
  repeat (constructor; [|repeat (constructor; [lia|]); constructor]).
  constructor.
Qed.

(** X2: a bracket computed with a positive size carries the 21 levels of
    the table in table order, each priced by [get_level_price], with strictly
    increasing prices that start at the lower bound; for a price from 100 on
    they end at the upper bound. *)
Theorem levels_of_calculated_range (self : Engine) (price : Q)
    (po3_size : option Z) (r : PO3Range) :
  calculate_range self price po3_size = Ok r ->
  (0 < size r)%Z ->
  map level_pct (levels r) = map fst GOLDBACH_LEVELS
  /\ List.length (levels r) = 21%nat
  /\ Forall (fun l => level_price l = get_level_price r (level_pct l)) (levels r)
  /\ StronglySorted Qlt (map level_price (levels r))
  /\ (exists l, hd_error (levels r) = Some l /\ level_price l == low r)
  /\ (100 <= price ->
      exists l, hd_error (rev (levels r)) = Some l /\ level_price l == high r).
Proof.
  intros Hr Hs.
  assert (Hlv : levels r = _calculate_levels r).
  { unfold calculate_range in Hr.
    destruct (po3_or_default self po3_size =? 0)%Z; [discriminate|].
    injection Hr as <-. reflexivity. }
  split; [rewrite Hlv; reflexivity|]. split; [rewrite Hlv; reflexivity|].
  split; [rewrite Hlv; unfold _calculate_levels, GOLDBACH_LEVELS; cbn [map];
          repeat constructor|].
  split.
  { rewrite Hlv. replace (map level_price (_calculate_levels r))
      with (map (get_level_price r) (map fst GOLDBACH_LEVELS)) by reflexivity.
    apply sorted_level_prices; [exact Hs|apply goldbach_levels_sorted]. }
  split.
  - rewrite Hlv. eexists. split; [reflexivity|].
    cbn [level_price]. unfold get_level_price. field.
  - intro Hp. rewrite Hlv. eexists. split; [reflexivity|].
    cbn [level_price].
    destruct (calculate_range_width self price po3_size r Hr) as [_ Hw].
    apply Qltb_false in Hp. rewrite Hp in Hw.
    unfold get_level_price.
    setoid_replace (inject_Z (size r)) with (high r - low r) by (symmetry; exact Hw).
    field.
Qed.

Lemma levels_of_calculated_range_witness :
  exists r,
    calculate_range (init 729) 21500 None = Ok r
    /\ List.length (levels r) = 21%nat
    /\ StronglySorted Qlt (map level_price (levels r)).
Proof.
  pose (r := mkPO3Range 29 21141 21870 729
               (_calculate_levels (mkPO3Range 29 21141 21870 729 []))).
  destruct (levels_of_calculated_range (init 729) 21500 None r)
    as (_ & Hlen & _ & Hsorted & _).
  - reflexivity.
  - reflexivity.
  - exists r. split; [reflexivity|]. split; assumption.
Defined.

(** ** Nearest level and nearest special number *)

Lemma nearer_fold (price : Q) (rest pre : list GoldbachLevel) (b : GoldbachLevel)
    (post : list GoldbachLevel) :
  (forall x, In x pre -> distance price b < distance price x) ->
  (forall x, In x post -> distance price b <= distance price x) ->
  exists pre' post',
    pre ++ b :: post ++ rest = pre' ++ fold_left (nearer price) rest b :: post'
    /\ (forall x, In x pre' ->
        distance price (fold_left (nearer price) rest b) < distance price x)
    /\ (forall x, In x post' ->
        distance price (fold_left (nearer price) rest b) <= distance price x).
Proof.
  revert pre b post. induction rest as [|x rest IH]; intros pre b post Hpre Hpost.
  - exists pre, post. rewrite app_nil_r. cbn [fold_left]. auto.
  - cbn [fold_left]. unfold nearer at 2 4 6. fold (distance price x).
    fold (distance price b).
    destruct (Qltb (distance price x) (distance price b)) eqn:E; q_props.
    + destruct (IH (pre ++ b :: post) x []) as (pre' & post' & Heq & H1 & H2).
      * intros y Hy. apply in_app_or in Hy. destruct Hy as [Hy|[<-|Hy]].
        -- apply Qlt_trans with (distance price b); [exact E|apply Hpre; exact Hy].
        -- exact E.
        -- apply Qlt_le_trans with (distance price b); [exact E|apply Hpost; exact Hy].
      * intros y [].
      * exists pre', post'. split; [|split; assumption].
        rewrite <- Heq. rewrite <- app_assoc. reflexivity.
    + destruct (IH pre b (post ++ [x])) as (pre' & post' & Heq & H1 & H2).
      * exact Hpre.
      * intros y Hy. apply in_app_or in Hy. destruct Hy as [Hy|[<-|[]]].
        -- apply Hpost; exact Hy.
        -- exact E.
      * exists pre', post'. split; [|split; assumption].
        rewrite <- Heq. rewrite <- app_assoc. reflexivity.
Qed.

(** X3: [_get_nearest_level] answers nothing exactly for a bracket without
    levels; otherwise it answers the first level among those at the least
    distance from the price: every level before it is strictly farther, every
    level after it is at least as far. *)
Theorem nearest_level_is_first_minimum (r : PO3Range) (price : Q) :
  (levels r = [] <-> _get_nearest_level r price = None)
  /\ (levels r <> [] ->
      exists l pre post,
        _get_nearest_level r price = Some l
        /\ levels r = pre ++ l :: post
        /\ (forall x, In x pre -> distance price l < distance price x)
        /\ (forall x, In x post -> distance price l <= distance price x)).
Proof.
  unfold _get_nearest_level. split.
  - destruct (levels r); split; intro H; try reflexivity; discriminate.
  - intro Hne. destruct (levels r) as [|first rest]; [contradiction|].
    destruct (nearer_fold price rest [] first []) as (pre & post & Heq & H1 & H2).
    + intros x [].
    + intros x [].
    + exists (fold_left (nearer price) rest first), pre, post.
      split; [reflexivity|]. split; [exact Heq|]. split; assumption.
Qed.

Lemma min_by_key_spec (key : Z -> Z) (l : list Z) (d : Z) :
  In (min_by_key key d l) (d :: l)
  /\ forall x, In x (d :: l) -> (key (min_by_key key d l) <= key x)%Z.
Proof.
  unfold min_by_key. revert d. induction l as [|y l IH]; intro d.
  - cbn. split; [left; reflexivity|]. intros x [<-|[]]. lia.
  - cbn [fold_left].
    destruct (Z.ltb_spec (key y) (key d)) as [Hlt|Hge].
    + destruct (IH y) as [Hin Hmin]. split.
      * right. exact Hin.
      * intros x [<-|Hx].
        -- specialize (Hmin y (or_introl eq_refl)). lia.
        -- apply Hmin. exact Hx.
    + destruct (IH d) as [Hin Hmin]. split.
      * destruct Hin as [Hin|Hin]; [left; exact Hin|right; right; exact Hin].
      * intros x [<-|[<-|Hx]].
        -- apply Hmin. left. reflexivity.
        -- specialize (Hmin d (or_introl eq_refl)). lia.
        -- apply Hmin. right. exact Hx.
Qed.

(** X4: for every clock reading, [nearest_goldbach] is a special number at
    the least distance from hour + minute, and the time is special exactly
    when that nearest number is the sum itself. *)
Theorem nearest_goldbach_is_nearest (t : datetime) :
  let gb := analyze_goldbach_time t in
  sum_value gb = (dt_hour t + dt_minute t)%Z
  /\ In (nearest_goldbach gb) GOLDBACH_NUMBERS
  /\ (forall x, In x GOLDBACH_NUMBERS ->
      (Z.abs (nearest_goldbach gb - sum_value gb) <= Z.abs (x - sum_value gb))%Z)
  /\ (is_goldbach gb = true <-> nearest_goldbach gb = sum_value gb).
Proof.
  cbn zeta. unfold analyze_goldbach_time.
  cbn [sum_value nearest_goldbach is_goldbach].
  set (s := (dt_hour t + dt_minute t)%Z).
  destruct (min_by_key_spec (fun x => Z.abs (x - s)) (tl GOLDBACH_NUMBERS)
              (hd 0%Z GOLDBACH_NUMBERS)) as [Hin Hmin].
  change (hd 0%Z GOLDBACH_NUMBERS :: tl GOLDBACH_NUMBERS) with GOLDBACH_NUMBERS
    in Hin, Hmin.
  set (m := min_by_key (fun x => Z.abs (x - s)) (hd 0%Z GOLDBACH_NUMBERS)
              (tl GOLDBACH_NUMBERS)) in *.
  split; [reflexivity|]. split; [exact Hin|]. split; [exact Hmin|].
  unfold Z_mem. rewrite existsb_exists. split.
  - intros (x & Hx & E). apply Z.eqb_eq in E. subst x.
    specialize (Hmin s Hx). cbn beta in Hmin. lia.
  - intro E. exists m. split; [exact Hin|]. apply Z.eqb_eq. symmetry. exact E.
Qed.

(** ** Key days of the monthly partition *)

(** X5: in each of the twelve months the partition starts on a day from 1
    to 9; a day before the start has partition day 0 and a later day counts
    from 1; the key days are exactly the 3rd, 11th and 17th day of the
    partition, which fall on the 25th at the latest. *)
Theorem partition_key_days (date : datetime) :
  (1 <= dt_month date <= 12)%Z ->
  let info := get_monthly_partition_info date in
  let s := partition_start info in
  (1 <= s <= 9)%Z
  /\ (dt_day date < s -> partition_day info = 0)%Z
  /\ (s <= dt_day date -> partition_day info = dt_day date - s + 1)%Z
  /\ (is_key_day info = true <->
      dt_day date = (s + 2)%Z \/ dt_day date = (s + 10)%Z
      \/ dt_day date = (s + 16)%Z).
Proof.
  destruct date as [y m d h mi]. cbn [dt_month dt_day]. intro Hm.
  assert (Cases : (m = 1 \/ m = 2 \/ m = 3 \/ m = 4 \/ m = 5 \/ m = 6 \/ m = 7
                   \/ m = 8 \/ m = 9 \/ m = 10 \/ m = 11 \/ m = 12)%Z) by lia.
  cbn zeta. unfold get_monthly_partition_info.
  cbn [dt_month dt_day partition_start partition_day is_key_day].
  repeat (destruct Cases as [->|Cases]); try subst m;
    cbn [assoc MONTHLY_PARTITIONS Z.eqb Pos.eqb fst snd];
    (split; [lia|]);
    match goal with
    | |- context [(?s <=? d)%Z] => destruct (Z.leb_spec s d)
    end;
    (split; [intro; lia|]); (split; [intro; lia|]);
    unfold Z_mem; cbn [existsb]; rewrite !orb_true_iff, !Z.eqb_eq;
    intuition lia.
Qed.

Lemma partition_key_days_witness :
  is_key_day (get_monthly_partition_info (mkDatetime 2025 3 16 10 0)) = true.
Proof.
  destruct (partition_key_days (mkDatetime 2025 3 16 10 0)) as (_ & _ & _ & H).
  - cbn. lia.
  - apply H. right. left. reflexivity.
Defined.

(** ** The bias by position *)

Lemma layer_of_position (pos : Q) :
  (_get_layer_for_position pos = Some LIQUIDITY <-> pos <= 17 \/ 83 <= pos)
  /\ (_get_layer_for_position pos = Some FLOW <->
      (29 <= pos /\ pos <= 35) \/ (65 <= pos /\ pos <= 71))
  /\ (_get_layer_for_position pos = Some REBALANCE <-> 41 <= pos /\ pos <= 59).
Proof.
  unfold _get_layer_for_position.
  repeat (q_case; cbn [orb andb]); q_props;
    (split; [|split]); (split; intro Hx); try discriminate; try reflexivity;
    try lra; exfalso; lra.
Qed.

Lemma confidence_clamped (c : Z) : (40 <= Z.max 40 (Z.min 85 c) <= 85)%Z.
Proof. lia. Qed.

Lemma analyze_bias_facts (self : Engine) (price : Q)
    (po3_size : option Z) (trend_days : Z) (r : PO3Range) (pos : Q) :
  calculate_range self price po3_size = Ok r ->
  get_position r price = Ok pos ->
  exists b,
    analyze_bias self price po3_size trend_days = Ok b
    /\ position b = pos
    /\ (40 <= confidence b <= 85)%Z
    /\ (bias b = BULLISH <-> pos < 50)
    /\ (bias b = BEARISH <-> 50 < pos)
    /\ (bias b = NEUTRAL <-> pos == 50)
    /\ gip_level b = match bias b with
                     | BULLISH => 17 | BEARISH => 83 | NEUTRAL => 50
                     end%Z
    /\ (layer b = LIQUIDITY <-> pos <= 17 \/ 83 <= pos)
    /\ (layer b = REBALANCE <-> 41 <= pos /\ pos <= 59).
Proof.
  intros Hr Hpos. unfold analyze_bias. rewrite Hr. cbn [bind]. rewrite Hpos.
  cbn [bind].
  destruct (layer_of_position pos) as (HL & HF & HR).
  destruct (_get_layer_for_position pos) as [[| |]|] eqn:El;
    destruct (Qleb pos 17) eqn:E1; destruct (Qleb 83 pos) eqn:E2;
    destruct (Qltb pos 50) eqn:E3; destruct (Qltb 50 pos) eqn:E4;
    q_props;
    (eexists; split; [reflexivity|];
     cbn [position confidence bias gip_level layer];
     split; [reflexivity|]; split; [apply confidence_clamped|];
     (split; [|split; [|split; [|split; [reflexivity|split]]]]);
     (split; intro Hx); try discriminate; try reflexivity; try lra;
     try (exfalso; lra);
     try (apply Qle_antisym; lra);
     try (apply HL in Hx; try discriminate; lra);
     try (apply HR in Hx; try discriminate; lra);
     try (apply HL in Hx; discriminate);
     try (apply HR in Hx; discriminate);
     try (apply HL; reflexivity);
     try (apply HR; reflexivity)).
Qed.

(** X6: whenever the bracket and the position of a price are defined,
    [analyze_bias] answers with that position; the bias is BULLISH below
    position 50, BEARISH above it and NEUTRAL exactly at 50, with the GIP
    level 17, 83 or 50 to match; the confidence lies in [40, 85] whatever the
    trend; the layer reported is LIQUIDITY exactly at positions up to 17 or
    from 83 on, and REBALANCE exactly from 41 to 59. *)
Theorem analyze_bias_by_position (self : Engine) (price : Q)
    (po3_size : option Z) (trend_days : Z) (r : PO3Range) (pos : Q) :
  calculate_range self price po3_size = Ok r ->
  get_position r price = Ok pos ->
  exists b,
    analyze_bias self price po3_size trend_days = Ok b
    /\ position b = pos
    /\ (40 <= confidence b <= 85)%Z
    /\ (bias b = BULLISH <-> pos < 50)
    /\ (bias b = BEARISH <-> 50 < pos)
    /\ (bias b = NEUTRAL <-> pos == 50)
    /\ gip_level b = match bias b with
                     | BULLISH => 17 | BEARISH => 83 | NEUTRAL => 50
                     end%Z
    /\ (layer b = LIQUIDITY <-> pos <= 17 \/ 83 <= pos)
    /\ (layer b = REBALANCE <-> 41 <= pos /\ pos <= 59).
Proof. exact (analyze_bias_facts self price po3_size trend_days r pos). Qed.

Lemma analyze_bias_by_position_witness :
  exists b,
    analyze_bias (init 729) 21500 None 2 = Ok b
    /\ bias b = BULLISH /\ (40 <= confidence b <= 85)%Z /\ layer b = REBALANCE.
Proof.
  pose (r := mkPO3Range 29 21141 21870 729
               (_calculate_levels (mkPO3Range 29 21141 21870 729 []))).
  destruct (analyze_bias_by_position (init 729) 21500 None 2 r
              ((21500 - 21141) / inject_Z 729 * 100))
    as (b & Hb & _ & Hc & Hbull & _ & _ & _ & _ & Hreb).
  - reflexivity.
  - reflexivity.
  - exists b. split; [exact Hb|]. split; [apply Hbull; reflexivity|].
    split; [exact Hc|]. apply Hreb. split; discriminate.
Defined.

(** ** What [generate_setup] produces *)

Lemma calculate_range_counter (self : Engine) (c : Z) (price : Q)
    (po3_size : option Z) :
  calculate_range (mkEngine (default_po3 self) c) price po3_size
  = calculate_range self price po3_size.
Proof. destruct po3_size; reflexivity. Qed.

Lemma analyze_bias_counter (self : Engine) (c : Z) (price : Q)
    (po3_size : option Z) (trend_days : Z) :
  analyze_bias (mkEngine (default_po3 self) c) price po3_size trend_days
  = analyze_bias self price po3_size trend_days.
Proof. unfold analyze_bias. rewrite calculate_range_counter. reflexivity. Qed.

(** The facts on the bias that the case analyses below start from. *)
Ltac bias_facts pos Hlt Hgt :=
  let F := fresh "Fpos" in
  let G := fresh "Fpos" in
  let C := fresh "C" in
  first
    [ pose proof (proj1 Hlt eq_refl) as F
    | pose proof (proj1 Hgt eq_refl) as F
    | assert (F : ~ pos < 50)
        by (intro C; apply (proj2 Hlt) in C; discriminate C);
      assert (G : ~ 50 < pos)
        by (intro C; apply (proj2 Hgt) in C; discriminate C) ].

Lemma plan_follows_layer (r : PO3Range) (pos : Q) (b : BiasAnalysis) :
  (bias b = BULLISH <-> pos < 50) ->
  (bias b = BEARISH <-> 50 < pos) ->
  chosen_plan (_determine_trade_plan r pos b)
  = option_map plan_for_layer (_get_layer_for_position pos).
Proof.
  intros Hlt Hgt.
  unfold _determine_trade_plan, _get_layer_for_position, chosen_plan.
  destruct (bias b) eqn:Eb; bias_facts pos Hlt Hgt; cbn [Bias_eqb];
    repeat (q_case; cbn [andb orb fst option_map plan_for_layer]);
    try reflexivity; exfalso; q_props; lra.
Qed.

(** The prices of a choice in the order of a long or of a short. *)
Lemma plan_choice_shape (r : PO3Range) (pos : Q) (b : BiasAnalysis) :
  (0 < size r)%Z ->
  (bias b = BULLISH <-> pos < 50) ->
  (bias b = BEARISH <-> 50 < pos) ->
  match _determine_trade_plan r pos b with
  | (Some _, zone, [t1; t2], Some inv) =>
      fst zone < snd zone
      /\ if Bias_eqb (bias b) BEARISH
         then target_price t2 < target_price t1
              /\ target_price t1 < fst zone /\ snd zone < inv_price inv
         else inv_price inv < fst zone
              /\ snd zone < target_price t1
              /\ target_price t1 < target_price t2
  | (None, _, _, _) => True
  | _ => False
  end.
Proof.
  intros Hs Hlt Hgt.
  assert (L : forall a c, (a < c)%Z -> get_level_price r a < get_level_price r c)
    by (intros; apply get_level_price_lt; assumption).
  assert (Llow : forall c, (0 < c)%Z -> low r < get_level_price r c).
  { intros c Hc. setoid_replace (low r) with (get_level_price r 0).
    - apply L. exact Hc.
    - unfold get_level_price. field. }
  unfold _determine_trade_plan.
  destruct (bias b) eqn:Eb; bias_facts pos Hlt Hgt; cbn [Bias_eqb];
    repeat (q_case; cbn [andb]); cbn [fst snd target_price inv_price];
    try exact I;
    try (repeat split; apply L; lia);
    exfalso; q_props; lra.
Qed.

Lemma generate_setup_outcome (self : Engine) (price : Q) (symbol : string)
    (po3_size : option Z) (trend_days : Z) (t : datetime)
    (r : PO3Range) (pos : Q) (b : BiasAnalysis) :
  calculate_range self price po3_size = Ok r ->
  get_position r price = Ok pos ->
  analyze_bias self price po3_size trend_days = Ok b ->
  fst (generate_setup self price symbol po3_size trend_days t)
  = match _determine_trade_plan r pos b with
    | (None, _, _, _) => Ok None
    | (Some p, zone, tgts, inv) =>
        Ok (Some (mkTradeSetup (setup_counter self + 1) t symbol p
                    (bias b) (confidence b) zone
                    ((fst zone + snd zone) / 2)
                    (if Bias_eqb (bias b) BULLISH then
                       match inv with
                       | Some i => inv_price i
                       | None => fst zone - 20
                       end
                     else
                       match inv with
                       | Some i => inv_price i
                       | None => snd zone + 20
                       end)
                    tgts inv
                    (is_goldbach (analyze_goldbach_time t))
                    (cycle (get_amd_cycle t))
                    (partition_day (get_monthly_partition_info t))
                    (_calculate_signal_strength b (analyze_goldbach_time t)
                       (get_amd_cycle t) (get_monthly_partition_info t))
                    "PENDING" None))
    end.
Proof.
  intros Hr Hpos Hb. unfold generate_setup, generate_setup_body. cbn [fst].
  rewrite calculate_range_counter, analyze_bias_counter, Hr. cbn [bind].
  rewrite Hpos. cbn [bind]. rewrite Hb. cbn [bind].
  destruct (_determine_trade_plan r pos b) as [[[plan zone] tgts] inv].
  destruct plan; reflexivity.
Qed.

(** X7: [generate_setup] returns a setup exactly when the position of the
    price lies in a layer band, and the plan is the one of the layer:
    EINSTEIN in the liquidity bands, FLOW_CONTINUATION in the flow bands,
    REBALANCE in the rebalance band.  The plans LIQUIDITY, FLOW_REJECTION and
    STOP_RUN are never produced.  The bias of the setup is BULLISH below
    position 50 and BEARISH above. *)
Theorem setup_exactly_in_layer_bands (self : Engine) (price : Q)
    (symbol : string) (po3_size : option Z) (trend_days : Z) (t : datetime)
    (r : PO3Range) (pos : Q) :
  calculate_range self price po3_size = Ok r ->
  get_position r price = Ok pos ->
  exists s,
    fst (generate_setup self price symbol po3_size trend_days t) = Ok s
    /\ option_map plan s = option_map plan_for_layer (_get_layer_for_position pos)
    /\ forall setup,
         s = Some setup ->
         plan setup <> PLAN_LIQUIDITY /\ plan setup <> FLOW_REJECTION
         /\ plan setup <> STOP_RUN
         /\ (setup_bias setup = BULLISH <-> pos < 50)
         /\ (setup_bias setup = BEARISH <-> 50 < pos).
Proof.
  intros Hr Hpos.
  destruct (analyze_bias_facts self price po3_size trend_days r pos Hr Hpos)
    as (b & Hb & _ & _ & Hlt & Hgt & _).
  pose proof (plan_follows_layer r pos b Hlt Hgt) as Hplan.
  rewrite (generate_setup_outcome self price symbol po3_size trend_days t r pos b
             Hr Hpos Hb).
  unfold chosen_plan in Hplan.
  destruct (_determine_trade_plan r pos b) as [[[p zone] tgts] inv].
  cbn [fst] in Hplan. destruct p as [p|].
  - eexists. split; [reflexivity|]. cbn [option_map plan].
    split; [exact Hplan|].
    intros setup E. injection E as <-. cbn [plan setup_bias].
    destruct (_get_layer_for_position pos) as [[| |]|]; cbn in Hplan;
      try discriminate; injection Hplan as ->;
      (repeat split; try discriminate; try apply Hlt; try apply Hgt).
  - exists None. split; [reflexivity|]. split; [exact Hplan|].
    intros setup E. discriminate.
Qed.

Lemma setup_exactly_in_layer_bands_witness :
  exists setup,
    fst (generate_setup (init 729) 21500 "NQ" None 0 Sample.monday_10h)
    = Ok (Some setup)
    /\ plan setup = PLAN_REBALANCE.
Proof.
  pose (r := mkPO3Range 29 21141 21870 729
               (_calculate_levels (mkPO3Range 29 21141 21870 729 []))).
  destruct (setup_exactly_in_layer_bands (init 729) 21500 "NQ" None 0
              Sample.monday_10h r ((21500 - 21141) / inject_Z 729 * 100))
    as (s & Hs & Hplan & _).
  - reflexivity.
  - reflexivity.
  - destruct s as [setup|]; [|discriminate Hplan].
    exists setup. split; [exact Hs|].
    cbn in Hplan. injection Hplan as ->. reflexivity.
Defined.

(** X8: in a bracket of positive size, the entry price of a setup is the
    midpoint of its entry zone, and its prices are in the order of its side:
    for a BEARISH bias target 2 < target 1 < entry zone < stop, otherwise stop
    < entry zone < target 1 < target 2.  A NEUTRAL setup, which arises at
    position 50 exactly, is shaped as a long. *)
Theorem setup_prices_ordered (self : Engine) (price : Q) (symbol : string)
    (po3_size : option Z) (trend_days : Z) (t : datetime)
    (r : PO3Range) (pos : Q) (setup : TradeSetup) :
  calculate_range self price po3_size = Ok r ->
  get_position r price = Ok pos ->
  (0 < size r)%Z ->
  fst (generate_setup self price symbol po3_size trend_days t) = Ok (Some setup) ->
  entry_price setup
  == (fst (entry_zone setup) + snd (entry_zone setup)) / 2
  /\ (setup_bias setup = BEARISH -> short_shaped setup)
  /\ (setup_bias setup <> BEARISH -> long_shaped setup)
  /\ (setup_bias setup = NEUTRAL <-> pos == 50).
Proof.
  intros Hr Hpos Hs Hgen.
  destruct (analyze_bias_facts self price po3_size trend_days r pos Hr Hpos)
    as (b & Hb & _ & _ & Hlt & Hgt & Hneu & _).
  pose proof (plan_choice_shape r pos b Hs Hlt Hgt) as Hshape.
  rewrite (generate_setup_outcome self price symbol po3_size trend_days t r pos b
             Hr Hpos Hb) in Hgen.
  destruct (_determine_trade_plan r pos b) as [[[p zone] tgts] inv].
  destruct p as [p|]; [|discriminate].
  destruct tgts as [|t1 [|t2 [|t3 tgts]]]; try contradiction.
  destruct inv as [inv|]; [|contradiction].
  injection Hgen as <-.
  cbn [entry_price entry_zone setup_bias].
  destruct Hshape as [Hzone Hside].
  split; [reflexivity|].
  assert (Hmid1 : fst zone < (fst zone + snd zone) / 2)
    by (apply Qlt_shift_div_l; [reflexivity|lra]).
  assert (Hmid2 : (fst zone + snd zone) / 2 < snd zone)
    by (apply Qlt_shift_div_r; [reflexivity|lra]).
  split; [|split; [|exact Hneu]].
  - intro Eb. rewrite Eb in Hside. cbn [Bias_eqb] in Hside.
    destruct Hside as (H1 & H2 & H3).
    exists t1, t2.
    cbn [targets stop_loss entry_zone entry_price].
    rewrite Eb. cbn [Bias_eqb].
    repeat split; assumption.
  - intro Eb. exists t1, t2.
    cbn [targets stop_loss entry_zone entry_price].
    destruct (bias b); [| contradiction |]; cbn [Bias_eqb] in Hside |- *;
      destruct Hside as (H1 & H2 & H3); repeat split; assumption.
Qed.

Lemma setup_prices_ordered_witness :
  exists setup,
    fst (generate_setup (init 729) 21500 "NQ" None 0 Sample.monday_10h)
    = Ok (Some setup)
    /\ long_shaped setup.
Proof.
  pose (r := mkPO3Range 29 21141 21870 729
               (_calculate_levels (mkPO3Range 29 21141 21870 729 []))).
  destruct (fst (generate_setup (init 729) 21500 "NQ" None 0 Sample.monday_10h))
    as [[setup|]|e] eqn:E; try discriminate E.
  destruct (setup_prices_ordered (init 729) 21500 "NQ" None 0
              Sample.monday_10h r ((21500 - 21141) / inject_Z 729 * 100) setup)
    as (_ & _ & Hlong & _).
  - reflexivity.
  - reflexivity.
  - reflexivity.
  - exact E.
  - exists setup. split; [reflexivity|]. apply Hlong.
    vm_compute in E. injection E as <-. discriminate.
Defined.

(** Without a trend the confidence is fixed by the layer. *)
Lemma analyze_bias_untrended (self : Engine) (price : Q) (po3_size : option Z)
    (r : PO3Range) (pos : Q) (b : BiasAnalysis) :
  calculate_range self price po3_size = Ok r ->
  get_position r price = Ok pos ->
  analyze_bias self price po3_size 0 = Ok b ->
  match _get_layer_for_position pos with
  | Some LIQUIDITY => confidence b = 75%Z /\ layer b = LIQUIDITY
  | Some FLOW => confidence b = 55%Z /\ layer b = FLOW
  | Some REBALANCE => confidence b = 50%Z /\ layer b = REBALANCE
  | None => confidence b = 50%Z /\ layer b = FLOW
  end.
Proof.
  intros Hr Hpos. unfold analyze_bias. rewrite Hr. cbn [bind]. rewrite Hpos.
  cbn [bind].
  destruct (layer_of_position pos) as (HL & HF & HR).
  destruct (_get_layer_for_position pos) as [[| |]|] eqn:El;
    destruct (Qleb pos 17) eqn:E1; destruct (Qleb 83 pos) eqn:E2;
    destruct (Qltb pos 50) eqn:E3; destruct (Qltb 50 pos) eqn:E4;
    q_props; intro H; injection H as <-; cbn [confidence layer];
    try (split; reflexivity);
    exfalso;
    try (pose proof (proj1 HL eq_refl); lra);
    try (pose proof (proj1 HF eq_refl); lra);
    try (pose proof (proj1 HR eq_refl); lra);
    try (assert (C : @None Layer = Some LIQUIDITY)
           by (apply HL; lra); discriminate C).
Qed.

Lemma perfect_needs_special_time (b : BiasAnalysis) (gb_time : GoldbachTime)
    (amd : AMDInfo) (partition : PartitionInfo) :
  _calculate_signal_strength b gb_time amd partition = PERFECT ->
  is_goldbach gb_time = true.
Proof.
  unfold _calculate_signal_strength.
  destruct (is_goldbach gb_time); [reflexivity|].
  destruct (70 <=? confidence b)%Z; destruct (60 <=? confidence b)%Z;
    destruct (cycle amd); destruct (is_key_day partition);
    destruct (layer b); cbn; discriminate.
Qed.

(** X9: for a call without a trend, as every call of a backtest is, an
    EINSTEIN setup has confidence 75 and is never WEAK, while any other setup
    has confidence 55 or 50 and is never EXCELLENT or PERFECT; and whatever
    the trend, a PERFECT setup is confirmed by a special time. *)
Theorem untrended_signal_strength (self : Engine) (price : Q) (symbol : string)
    (po3_size : option Z) (trend_days : Z) (t : datetime) (r : PO3Range)
    (pos : Q) :
  calculate_range self price po3_size = Ok r ->
  get_position r price = Ok pos ->
  (forall setup,
      fst (generate_setup self price symbol po3_size 0 t) = Ok (Some setup) ->
      (plan setup = EINSTEIN ->
       setup_confidence setup = 75%Z /\ signal_strength setup <> WEAK)
      /\ (plan setup <> EINSTEIN ->
          (setup_confidence setup = 55%Z \/ setup_confidence setup = 50%Z)
          /\ signal_strength setup <> EXCELLENT
          /\ signal_strength setup <> PERFECT))
  /\ (forall setup,
        fst (generate_setup self price symbol po3_size trend_days t)
        = Ok (Some setup) ->
        signal_strength setup = PERFECT -> goldbach_time_confirm setup = true).
Proof.
  intros Hr Hpos. split.
  - intros setup Hgen.
    destruct (analyze_bias_facts self price po3_size 0 r pos Hr Hpos)
      as (b & Hb & _ & _ & Hlt & Hgt & _).
    pose proof (plan_follows_layer r pos b Hlt Hgt) as Hplan.
    pose proof (analyze_bias_untrended self price po3_size r pos b Hr Hpos Hb)
      as Hconf.
    rewrite (generate_setup_outcome self price symbol po3_size 0 t r pos b
               Hr Hpos Hb) in Hgen.
    unfold chosen_plan in Hplan.
    destruct (_determine_trade_plan r pos b) as [[[p zone] tgts] inv].
    cbn [fst] in Hplan. destruct p as [p|]; [|discriminate].
    injection Hgen as <-.
    cbn [plan setup_confidence signal_strength goldbach_time_confirm].
    unfold _calculate_signal_strength.
    destruct (_get_layer_for_position pos) as [[| |]|]; cbn in Hplan;
      try discriminate; injection Hplan as ->;
      destruct Hconf as [-> ->];
      destruct (is_goldbach (analyze_goldbach_time t)) eqn:Eg;
      destruct (cycle (get_amd_cycle t));
      destruct (is_key_day (get_monthly_partition_info t));
      cbn; split; intro H; try discriminate; try reflexivity;
      try contradiction; try (split; [auto|split; discriminate]);
      try (split; [reflexivity|discriminate]).
  - intros setup Hgen Hperfect.
    destruct (analyze_bias_returns self price po3_size trend_days r pos Hr Hpos)
      as (b & Hb & _).
    rewrite (generate_setup_outcome self price symbol po3_size trend_days t r
               pos b Hr Hpos Hb) in Hgen.
    destruct (_determine_trade_plan r pos b) as [[[p zone] tgts] inv].
    destruct p as [p|]; [|discriminate].
    injection Hgen as <-.
    cbn [signal_strength goldbach_time_confirm] in *.
    apply (perfect_needs_special_time _ _ _ _ Hperfect).
Qed.

Lemma untrended_signal_strength_witness :
  exists setup,
    fst (generate_setup (init 729) (2125035 # 100) "NQ" None 0 Sample.monday_10h)
    = Ok (Some setup)
    /\ setup_confidence setup = 75%Z /\ signal_strength setup <> WEAK.
Proof.
  pose (r := mkPO3Range 29 21141 21870 729
               (_calculate_levels (mkPO3Range 29 21141 21870 729 []))).
  destruct (fst (generate_setup (init 729) (2125035 # 100) "NQ" None 0
                   Sample.monday_10h)) as [[setup|]|e] eqn:E; try discriminate E.
  destruct (untrended_signal_strength (init 729) (2125035 # 100) "NQ" None 3
              Sample.monday_10h r
              (((2125035 # 100) - 21141) / inject_Z 729 * 100))
    as (H & _).
  - reflexivity.
  - reflexivity.
  - exists setup. split; [reflexivity|].
    destruct (H setup E) as (Hplan & _). apply Hplan.
    vm_compute in E. injection E as <-. reflexivity.
Defined.

(** ** Closing a trade *)

Lemma close_trade_fields (cfg : BacktestConfig) (trade : OpenTrade)
    (exit_time : datetime) (exit_price : Q) (exit_reason : ExitReason)
    (bars : Z) (mae mfe : Q) (t : BacktestTrade) :
  _close_trade cfg trade exit_time exit_price exit_reason bars mae mfe = Ok t ->
  bt_id t = t_id trade /\ bars_held t = bars
  /\ Backtester.exit_reason t = exit_reason
  /\ bt_entry_time t = t_entry_time trade /\ bt_exit_time t = exit_time
  /\ pnl t = favourable_move trade exit_price * position_size trade
             - commission cfg * 2 - slippage cfg * 2.
Proof.
  unfold _close_trade, favourable_move.
  destruct (truediv _ (position_size trade)); [|discriminate].
  cbn [bind]. intro H. injection H as <-.
  cbn [bt_id bars_held Backtester.exit_reason bt_entry_time bt_exit_time pnl].
  repeat split. destruct (direction trade); reflexivity.
Qed.

(** X10: closing a trade raises ZeroDivisionError exactly when its position
    size is 0.  Otherwise the P&L is the price move in the direction of the
    trade times the position size, less twice the commission and twice the
    slippage; the trade is a WIN, a LOSS or BREAKEVEN as the P&L is positive,
    negative or zero; and [pnl_pct] is the P&L divided by the position size,
    times 100. *)
Theorem close_trade_outcome (cfg : BacktestConfig) (trade : OpenTrade)
    (exit_time : datetime) (exit_price : Q) (exit_reason : ExitReason)
    (bars : Z) (mae mfe : Q) :
  (position_size trade == 0 ->
   _close_trade cfg trade exit_time exit_price exit_reason bars mae mfe
   = Raise ZeroDivisionError)
  /\ (~ position_size trade == 0 ->
      exists t,
        _close_trade cfg trade exit_time exit_price exit_reason bars mae mfe = Ok t
        /\ pnl t == favourable_move trade exit_price * position_size trade
                    - 2 * commission cfg - 2 * slippage cfg
        /\ (bt_result t = WIN <-> 0 < pnl t)
        /\ (bt_result t = LOSS <-> pnl t < 0)
        /\ (bt_result t = BREAKEVEN <-> pnl t == 0)
        /\ pnl_pct t == pnl t / position_size trade * 100).
Proof.
  unfold _close_trade, truediv. split.
  - intro Hz. apply Qeq_bool_iff in Hz. rewrite Hz. reflexivity.
  - intro Hnz.
    destruct (Qeq_bool (position_size trade) 0) eqn:E.
    { apply Qeq_bool_iff in E. contradiction. }
    cbn [bind]. eexists. split; [reflexivity|].
    cbn [pnl bt_result pnl_pct].
    set (p := (match direction trade with
               | LONG => (exit_price - t_entry_price trade) * position_size trade
               | SHORT => (t_entry_price trade - exit_price) * position_size trade
               end - commission cfg * 2 - slippage cfg * 2)%Q).
    assert (Hp : p == favourable_move trade exit_price * position_size trade
                      - 2 * commission cfg - 2 * slippage cfg).
    { unfold p, favourable_move. destruct (direction trade); ring. }
    split; [exact Hp|].
    destruct (Qltb 0 p) eqn:E1; destruct (Qltb p 0) eqn:E2; q_props;
      (split; [|split; [|split]]);
      try (split; intro H; try discriminate; try reflexivity; try lra;
           try (exfalso; lra); try (rewrite H in *; exfalso; lra);
           apply Qle_antisym; assumption).
    all: reflexivity.
Qed.

(** ** The four ways a bar is processed *)

Lemma filter_passes_cycle (cfg : BacktestConfig) (setup : TradeSetup) :
  _filter_setup cfg setup = true ->
  existsb (String.eqb (AMDCycle_value (amd_cycle setup))) (allowed_amd_cycles cfg)
  = true.
Proof.
  unfold _filter_setup.
  destruct (strength_index (signal_strength setup) <? _)%Z; [discriminate|].
  destruct (existsb (TradePlan_eqb (plan setup)) (allowed_plans cfg));
    [|discriminate]. cbn [negb].
  destruct (existsb _ (allowed_amd_cycles cfg)); [reflexivity|discriminate].
Qed.

Lemma generate_setup_stamp (self : Engine) (price : Q) (symbol : string)
    (po3_size : option Z) (trend_days : Z) (t : datetime) (setup : TradeSetup) :
  fst (generate_setup self price symbol po3_size trend_days t) = Ok (Some setup) ->
  amd_cycle setup = cycle (get_amd_cycle t) /\ timestamp setup = t.
Proof.
  unfold generate_setup. cbn [fst]. unfold generate_setup_body.
  destruct (calculate_range _ price po3_size) as [r|e]; [|discriminate].
  cbn [bind].
  destruct (get_position r price) as [pos|e]; [|discriminate].
  cbn [bind].
  destruct (analyze_bias _ price po3_size trend_days) as [b|e]; [|discriminate].
  cbn [bind].
  destruct (_determine_trade_plan r pos b) as [[[plan zone] tgts] inv].
  destruct plan as [plan|]; [|discriminate].
  intro H. injection H as <-. split; reflexivity.
Qed.

Lemma step_event (cfg : BacktestConfig) (symbol : string) (i : Z)
    (prev cur : Bar) (s s' : RunState) :
  one_position_at_most s ->
  step cfg symbol i prev cur s = Ok s' ->
  bar_event cfg i cur s s'.
Proof.
  intros [_ Hslot] Hstep. unfold step in Hstep.
  destruct (in_trade s) eqn:Ein.
  - destruct (current_trade s) as [tr|] eqn:Ecur.
    2:{ exfalso. apply (proj1 Hslot); reflexivity. }
    destruct (_check_exit cfg tr (bar_high cur) (bar_low cur) (bar_close cur) i)
      as [e|] eqn:Eexit.
    + destruct (_close_trade cfg tr (bar_date cur) (exit_price e) (reason e)
                  (i - entry_bar tr) (mae tr) (mfe tr)) as [trade|x] eqn:Eclose;
        [|discriminate].
      cbn [bind] in Hstep. injection Hstep as <-.
      apply (Leave cfg i cur s _ tr e trade); auto.
    + unfold look_for_entry in Hstep. cbn [in_trade negb] in Hstep.
      injection Hstep as <-.
      apply (Hold cfg i cur s _ tr); auto.
  - unfold look_for_entry in Hstep. rewrite Ein in Hstep. cbn [negb] in Hstep.
    pose proof (generate_setup_stamp (engine s) (bar_close prev) symbol
                  (Some (po3_size cfg)) 0 (bar_date cur)) as Hstamp.
    destruct (generate_setup (engine s) (bar_close prev) symbol
                (Some (po3_size cfg)) 0 (bar_date cur)) as [r eng].
    cbn [fst] in Hstamp.
    destruct r as [[setup|]|x]; cbn [bind] in Hstep; [| |discriminate].
    + destruct (_filter_setup cfg setup) eqn:Efilter; injection Hstep as <-.
      * eapply Enter; cbn [in_trade trades capital equity_curve current_trade
                            trade_id]; try reflexivity; try exact Ein.
        unfold cycle_allowed.
        destruct (Hstamp setup eq_refl) as [<- _].
        apply filter_passes_cycle. exact Efilter.
      * apply StayFlat; cbn; auto.
    + injection Hstep as <-. apply StayFlat; cbn; auto.
Qed.

(** A property of the states that holds at the start and is kept by every
    bar holds after the loop; [i - 1] is the index of the last bar done. *)
Lemma bars_loop_keeps (cfg : BacktestConfig) (symbol : string)
    (P : Z -> RunState -> Prop) :
  (forall i cur s s',
      one_position_at_most s -> P (i - 1)%Z s ->
      bar_event cfg i cur s s' -> P i s') ->
  forall rest i prev s sf,
    one_position_at_most s -> P (i - 1)%Z s ->
    bars_loop cfg symbol i prev rest s = Ok sf ->
    one_position_at_most sf /\ P (i - 1 + Z.of_nat (List.length rest))%Z sf.
Proof.
  intros Hkeep rest. induction rest as [|cur rest IH]; intros i prev s sf Hs HP Hloop.
  - cbn [bars_loop] in Hloop. injection Hloop as <-.
    cbn [List.length]. rewrite Z.add_0_r. split; assumption.
  - cbn [bars_loop] in Hloop.
    destruct (step cfg symbol i prev cur s) as [s'|e] eqn:Estep; [|discriminate].
    cbn [bind] in Hloop.
    destruct (step_cases cfg symbol i prev cur s s' Estep Hs) as (Hs' & _).
    pose proof (step_event cfg symbol i prev cur s s' Hs Estep) as Hev.
    pose proof (Hkeep i cur s s' Hs HP Hev) as HP'.
    destruct (IH (i + 1)%Z cur s' sf Hs') as [Hsf HPf].
    + replace (i + 1 - 1)%Z with i by lia. exact HP'.
    + exact Hloop.
    + split; [exact Hsf|].
      replace (i - 1 + Z.of_nat (List.length (cur :: rest)))%Z
        with (i + 1 - 1 + Z.of_nat (List.length rest))%Z
        by (cbn [List.length]; lia).
      exact HPf.
Qed.

(** The same for a whole run up to the forced close: the state the loop ends
    in, with the index of the last bar. *)
Lemma run_loop_keeps (cfg : BacktestConfig) (eng : Engine) (data : list Bar)
    (symbol : string) (P : Z -> RunState -> Prop) (final : RunState) :
  (forall i cur s s',
      one_position_at_most s -> P (i - 1)%Z s ->
      bar_event cfg i cur s s' -> P i s') ->
  P 0%Z (start_state cfg eng) ->
  run_backtest cfg eng data symbol = Ok final ->
  exists sf,
    one_position_at_most sf
    /\ P (Z.max 0 (Z.of_nat (List.length data) - 1)) sf
    /\ close_remaining cfg data sf = Ok final
    /\ (in_trade sf = true -> data <> []).
Proof.
  intros Hkeep H0 Hrun. unfold run_backtest in Hrun.
  destruct data as [|first rest].
  - cbn [bind] in Hrun. exists (start_state cfg eng).
    split; [apply start_state_flat|]. split; [exact H0|]. split; [exact Hrun|].
    cbn. discriminate.
  - destruct (bars_loop cfg symbol 1 first rest (start_state cfg eng))
      as [sf|e] eqn:Eloop; [|discriminate].
    cbn [bind] in Hrun.
    destruct (bars_loop_keeps cfg symbol P Hkeep rest 1%Z first
                (start_state cfg eng) sf (start_state_flat cfg eng) H0 Eloop)
      as [Hsf HP].
    exists sf. split; [exact Hsf|]. split; [|split; [exact Hrun|discriminate]].
    replace (Z.max 0 (Z.of_nat (List.length (first :: rest)) - 1))
      with (1 - 1 + Z.of_nat (List.length rest))%Z
      by (cbn [List.length]; lia).
    exact HP.
Qed.

(** ** The equity curve *)

Lemma running_capital_snoc (c : Q) (l : list Q) (p : Q) :
  running_capital c (l ++ [p])
  = running_capital c l ++ [last (running_capital c l) c + p].
Proof.
  revert c. induction l as [|x l IH]; intro c; [reflexivity|].
  cbn [app running_capital]. rewrite IH.
  rewrite (last_cons_default (running_capital (c + x) l) (c + x) c).
  reflexivity.
Qed.

Lemma running_capital_length (c : Q) (l : list Q) :
  List.length (running_capital c l) = List.length l.
Proof.
  revert c. induction l as [|x l IH]; intro c; [reflexivity|].
  cbn [running_capital List.length]. rewrite IH. reflexivity.
Qed.

Lemma accounts_after_booking (cfg : BacktestConfig) (s : RunState)
    (trade : BacktestTrade) (in_trade' : bool) (cur : option OpenTrade) :
  accounts_agree cfg s ->
  accounts_agree cfg
    (mkRunState (trades s ++ [trade]) (capital s + pnl trade)
       (equity_curve s ++ [capital s + pnl trade]) in_trade' cur
       (trade_id s) (engine s)).
Proof.
  intros [Hcurve Hcap]. unfold accounts_agree.
  cbn [equity_curve trades capital].
  rewrite map_app. cbn [map]. rewrite running_capital_snoc, <- Hcap.
  split.
  - rewrite Hcurve. reflexivity.
  - rewrite last_last. reflexivity.
Qed.

Lemma run_accounts_agree (cfg : BacktestConfig) (eng : Engine)
    (data : list Bar) (symbol : string) (final : RunState) :
  run_backtest cfg eng data symbol = Ok final -> accounts_agree cfg final.
Proof.
  intro Hrun.
  destruct (run_loop_keeps cfg eng data symbol (fun _ s => accounts_agree cfg s)
              final) as (sf & Hsf & Hacc & Hclose & Hdata).
  - intros i cur s s' _ Hs Hev.
    destruct Hev as [F1 F2 Ht Hc He _ _
                    |tr F1 F2 Ht Hc He _ _ _ _ _ _ _
                    |tr F1 F2 _ _ Ht Hc He _ _
                    |tr e trade _ _ _ _ ->];
      try (unfold accounts_agree in *; rewrite Ht, Hc, He; exact Hs).
    apply accounts_after_booking. exact Hs.
  - split; reflexivity.
  - exact Hrun.
  - unfold close_remaining in Hclose.
    destruct (if in_trade sf then current_trade sf else None) as [tr|];
      [|injection Hclose as <-; exact Hacc].
    destruct (rev data) as [|last_bar rd]; [injection Hclose as <-; exact Hacc|].
    destruct (_close_trade cfg tr (bar_date last_bar) (bar_close last_bar)
                TIME_EXIT _ (mae tr) (mfe tr)) as [trade|x]; [|discriminate].
    cbn [bind] in Hclose. injection Hclose as <-.
    apply accounts_after_booking. exact Hacc.
Qed.

(** X11: a completed run keeps its accounts: the equity curve is the initial
    capital followed by the capital after each trade of the ledger, each entry
    being the one before it plus the P&L of the trade, so it has one entry
    more than the ledger; and the final capital is its last entry. *)
Theorem equity_curve_follows_ledger (cfg : BacktestConfig) (eng : Engine)
    (data : list Bar) (symbol : string) (final : RunState) :
  run_backtest cfg eng data symbol = Ok final ->
  equity_curve final
  = initial_capital cfg
    :: running_capital (initial_capital cfg) (map pnl (trades final))
  /\ List.length (equity_curve final) = S (List.length (trades final))
  /\ capital final = last (equity_curve final) (initial_capital cfg).
Proof.
  intro Hrun.
  destruct (run_accounts_agree cfg eng data symbol final Hrun) as [Hcurve Hcap].
  split; [exact Hcurve|]. split.
  - rewrite Hcurve. cbn [List.length].
    rewrite running_capital_length, length_map. reflexivity.
  - rewrite Hcap, Hcurve. symmetry. apply last_cons_default.
Qed.

Lemma equity_curve_follows_ledger_witness :
  exists final,
    run_backtest default_config (init DEFAULT_PO3) Sample.four_bars "NQ" = Ok final
    /\ List.length (equity_curve final) = 3%nat.
Proof.
  destruct (run_backtest default_config (init DEFAULT_PO3) Sample.four_bars "NQ")
    as [final|e] eqn:E; [|vm_compute in E; discriminate E].
  destruct (equity_curve_follows_ledger default_config (init DEFAULT_PO3)
              Sample.four_bars "NQ" final E) as (_ & Hlen & _).
  exists final. split; [reflexivity|]. rewrite Hlen.
  vm_compute in E. injection E as <-. reflexivity.
Defined.

(** ** Trade identifiers and holding times *)

Lemma seq_snoc (n : nat) : seq 1 (S n) = seq 1 n ++ [S n].
Proof. rewrite seq_S. reflexivity. Qed.

(** X12: unlike setup ids, the ids of the trades in the ledger of a completed
    run are consecutive: 1, 2, ..., n in ledger order. *)
Theorem trade_ids_consecutive (cfg : BacktestConfig) (eng : Engine)
    (data : list Bar) (symbol : string) (final : RunState) :
  run_backtest cfg eng data symbol = Ok final ->
  map bt_id (trades final)
  = map Z.of_nat (seq 1 (List.length (trades final))).
Proof.
  intro Hrun.
  pose (P := fun (_ : Z) (s : RunState) =>
               map bt_id (trades s) = map Z.of_nat (seq 1 (List.length (trades s)))
               /\ forall tr, in_trade s = true -> current_trade s = Some tr ->
                             t_id tr = trade_id s).
  assert (Hbook : forall s tr trade,
             one_position_at_most s -> in_trade s = true ->
             map bt_id (trades s) = map Z.of_nat (seq 1 (List.length (trades s))) ->
             t_id tr = trade_id s -> bt_id trade = t_id tr ->
             map bt_id (trades s ++ [trade])
             = map Z.of_nat (seq 1 (List.length (trades s ++ [trade])))).
  { intros s tr trade [Hopen _] Hin Hids Htid Hbt.
    unfold open_positions in Hopen. rewrite Hin in Hopen.
    rewrite length_app, map_app, Hids. cbn [List.length map].
    rewrite Nat.add_1_r, seq_snoc, map_app. cbn [map].
    rewrite Hbt, Htid. f_equal. f_equal. lia. }
  destruct (run_loop_keeps cfg eng data symbol P final)
    as (sf & Hsf & [Hids Hopen] & Hclose & Hdata).
  - intros i cur s s' Hs [Hids Hcur] Hev. unfold P.
    destruct Hev as [F1 F2 Ht _ _ _ _
                    |tr F1 F2 Ht _ _ Hc Hid Htid _ _ _ _
                    |tr F1 F2 Hc _ Ht _ _ Hc' Hid
                    |tr e trade F1 Hc _ Hclose' ->].
    + rewrite Ht. split; [exact Hids|]. intros tr C. congruence.
    + rewrite Ht. split; [exact Hids|]. intros tr' _ E.
      rewrite Hc in E. injection E as <-. congruence.
    + rewrite Ht. split; [exact Hids|]. intros tr' _ E.
      rewrite Hc' in E. injection E as <-.
      destruct (update_excursions_same_trade tr (bar_high cur) (bar_low cur))
        as [-> _].
      rewrite Hid. apply Hcur; assumption.
    + unfold book_trade. cbn [trades in_trade current_trade]. split.
      * apply (Hbook s tr trade Hs F1 Hids (Hcur tr F1 Hc)).
        apply (close_trade_fields _ _ _ _ _ _ _ _ _ Hclose').
      * intros tr' C. discriminate.
  - split; [reflexivity|]. intros tr C. discriminate.
  - exact Hrun.
  - unfold close_remaining in Hclose.
    destruct (in_trade sf) eqn:Ein; [|injection Hclose as <-; exact Hids].
    destruct (current_trade sf) as [tr|] eqn:Ecur;
      [|injection Hclose as <-; exact Hids].
    destruct (rev data) as [|last_bar rd]; [injection Hclose as <-; exact Hids|].
    destruct (_close_trade cfg tr (bar_date last_bar) (bar_close last_bar)
                TIME_EXIT _ (mae tr) (mfe tr)) as [trade|x] eqn:Eclose;
      [|discriminate].
    cbn [bind] in Hclose. injection Hclose as <-. cbn [trades].
    apply (Hbook sf tr trade Hsf Ein Hids (Hopen tr eq_refl eq_refl)).
    apply (close_trade_fields _ _ _ _ _ _ _ _ _ Eclose).
Qed.

Lemma trade_ids_consecutive_witness :
  exists final,
    run_backtest default_config (init DEFAULT_PO3) Sample.four_bars "NQ" = Ok final
    /\ map bt_id (trades final) = [1; 2]%Z.
Proof.
  destruct (run_backtest default_config (init DEFAULT_PO3) Sample.four_bars "NQ")
    as [final|e] eqn:E; [|vm_compute in E; discriminate E].
  pose proof (trade_ids_consecutive default_config (init DEFAULT_PO3)
                Sample.four_bars "NQ" final E) as H.
  exists final. split; [reflexivity|]. rewrite H.
  vm_compute in E. injection E as <-. reflexivity.
Defined.

Lemma check_exit_none_bars (cfg : BacktestConfig) (tr : OpenTrade)
    (high low close : Q) (i : Z) :
  _check_exit cfg tr high low close i = None ->
  (i - entry_bar tr < max_bars_in_trade cfg)%Z.
Proof.
  unfold _check_exit.
  destruct (Z.leb_spec (max_bars_in_trade cfg) (i - entry_bar tr));
    [discriminate|]. intros _. assumption.
Qed.

(** X13: every trade in the ledger of a completed run was held for at least
    one bar and for at most [max_bars_in_trade] bars (at most one bar when
    that limit is below 1). *)
Theorem bars_held_bounded (cfg : BacktestConfig) (eng : Engine)
    (data : list Bar) (symbol : string) (final : RunState) :
  run_backtest cfg eng data symbol = Ok final ->
  Forall (fun t => (1 <= bars_held t <= Z.max 1 (max_bars_in_trade cfg))%Z)
         (trades final).
Proof.
  intro Hrun.
  pose (ok := fun t => (1 <= bars_held t <= Z.max 1 (max_bars_in_trade cfg))%Z).
  pose (P := fun (i : Z) (s : RunState) =>
               Forall ok (trades s)
               /\ forall tr, in_trade s = true -> current_trade s = Some tr ->
                             (entry_bar tr <= i
                              /\ (i - entry_bar tr < max_bars_in_trade cfg
                                  \/ entry_bar tr = i))%Z).
  destruct (run_loop_keeps cfg eng data symbol P final)
    as (sf & Hsf & [Hall Hopen] & Hclose & Hdata).
  - intros i cur s s' Hs [Hall Hcur] Hev. unfold P.
    destruct Hev as [F1 F2 Ht _ _ _ _
                    |tr F1 F2 Ht _ _ Hc _ _ Hbar _ _ _
                    |tr F1 F2 Hc Hexit Ht _ _ Hc' _
                    |tr e trade F1 Hc _ Hclose' ->].
    + rewrite Ht. split; [exact Hall|]. intros tr C. congruence.
    + rewrite Ht. split; [exact Hall|]. intros tr' _ E.
      rewrite Hc in E. injection E as <-. lia.
    + rewrite Ht. split; [exact Hall|]. intros tr' _ E.
      rewrite Hc' in E. injection E as <-.
      destruct (update_excursions_same_trade tr (bar_high cur) (bar_low cur))
        as [_ ->].
      apply check_exit_none_bars in Hexit.
      destruct (Hcur tr F1 Hc) as [Hle _]. lia.
    + unfold book_trade. cbn [trades in_trade current_trade]. split.
      * apply Forall_app. split; [exact Hall|]. constructor; [|constructor].
        unfold ok.
        destruct (close_trade_fields _ _ _ _ _ _ _ _ _ Hclose') as (_ & -> & _).
        destruct (Hcur tr F1 Hc) as [Hle Hlim]. lia.
      * intros tr' C. discriminate.
  - split; [constructor|]. intros tr C. discriminate.
  - exact Hrun.
  - unfold close_remaining in Hclose.
    destruct (in_trade sf) eqn:Ein; [|injection Hclose as <-; exact Hall].
    destruct (current_trade sf) as [tr|] eqn:Ecur;
      [|injection Hclose as <-; exact Hall].
    destruct (rev data) as [|last_bar rd] eqn:Erev;
      [injection Hclose as <-; exact Hall|].
    destruct (_close_trade cfg tr (bar_date last_bar) (bar_close last_bar)
                TIME_EXIT _ (mae tr) (mfe tr)) as [trade|x] eqn:Eclose;
      [|discriminate].
    cbn [bind] in Hclose. injection Hclose as <-. cbn [trades].
    apply Forall_app. split; [exact Hall|]. constructor; [|constructor].
    destruct (close_trade_fields _ _ _ _ _ _ _ _ _ Eclose) as (_ & -> & _).
    destruct (Hopen tr eq_refl eq_refl) as [Hle Hlim].
    assert (Hlen : (1 <= Z.of_nat (List.length data))%Z).
    { destruct data; [discriminate Erev|]. cbn [List.length]. lia. }
    lia.
Qed.

Lemma bars_held_bounded_witness :
  exists final,
    run_backtest default_config (init DEFAULT_PO3) Sample.four_bars "NQ" = Ok final
    /\ Forall (fun t => (1 <= bars_held t <= 50)%Z) (trades final).
Proof.
  destruct (run_backtest default_config (init DEFAULT_PO3) Sample.four_bars "NQ")
    as [final|e] eqn:E; [|vm_compute in E; discriminate E].
  pose proof (bars_held_bounded default_config (init DEFAULT_PO3)
                Sample.four_bars "NQ" final E) as H.
  exists final. split; [reflexivity|]. exact H.
Defined.

(** ** Runs that never trade, and runs that cannot start *)

Lemma flat_bar_outside_cycles (cfg : BacktestConfig) (symbol : string) (i : Z)
    (prev cur : Bar) (s s' : RunState) :
  in_trade s = false ->
  cycle_allowed cfg cur = false ->
  step cfg symbol i prev cur s = Ok s' ->
  s' = mkRunState (trades s) (capital s) (equity_curve s) (in_trade s)
         (current_trade s) (trade_id s)
         (mkEngine (default_po3 (engine s)) (setup_counter (engine s) + 1)).
Proof.
  intros Hflat Hcycle. unfold step, look_for_entry.
  rewrite Hflat. cbn [negb].
  pose proof (generate_setup_stamp (engine s) (bar_close prev) symbol
                (Some (po3_size cfg)) 0 (bar_date cur)) as Hstamp.
  pose proof (generate_setup_engine (engine s) (bar_close prev) symbol
                (Some (po3_size cfg)) 0 (bar_date cur)) as Heng.
  destruct (generate_setup (engine s) (bar_close prev) symbol
              (Some (po3_size cfg)) 0 (bar_date cur)) as [r eng'].
  cbn [fst snd] in Hstamp, Heng. subst eng'.
  destruct r as [[setup|]|e]; cbn [bind]; [| |discriminate].
  - destruct (_filter_setup cfg setup) eqn:Efilter.
    + exfalso. apply filter_passes_cycle in Efilter.
      destruct (Hstamp setup eq_refl) as [Hcyc _]. rewrite Hcyc in Efilter.
      unfold cycle_allowed in Hcycle. congruence.
    + intro H. injection H as <-. reflexivity.
  - intro H. injection H as <-. reflexivity.
Qed.

Lemma bars_loop_outside_cycles (cfg : BacktestConfig) (symbol : string)
    (rest : list Bar) (i : Z) (prev : Bar) (s sf : RunState) :
  in_trade s = false ->
  Forall (fun b => cycle_allowed cfg b = false) rest ->
  bars_loop cfg symbol i prev rest s = Ok sf ->
  sf = mkRunState (trades s) (capital s) (equity_curve s) (in_trade s)
         (current_trade s) (trade_id s)
         (match rest with
          | [] => engine s
          | _ => mkEngine (default_po3 (engine s))
                   (setup_counter (engine s) + Z.of_nat (List.length rest))
          end).
Proof.
  intros Hflat Hall. revert i prev s Hflat.
  induction Hall as [|cur rest Hcur _ IH]; intros i prev s Hflat Hloop.
  - cbn [bars_loop] in Hloop. injection Hloop as <-. destruct s. reflexivity.
  - cbn [bars_loop] in Hloop.
    destruct (step cfg symbol i prev cur s) as [s1|e] eqn:Estep; [|discriminate].
    cbn [bind] in Hloop.
    pose proof (flat_bar_outside_cycles cfg symbol i prev cur s s1 Hflat Hcur
                  Estep) as ->.
    apply IH in Hloop; [|exact Hflat]. rewrite Hloop.
    cbn [trades capital equity_curve in_trade current_trade trade_id engine
         default_po3 setup_counter].
    do 2 f_equal. destruct rest as [|b rest]; [reflexivity|].
    f_equal. cbn [List.length]. lia.
Qed.

(** X14: a run that completes over bars none of which (the first apart, on
    which nothing is decided) falls into an allowed cycle has opened no
    trade: its ledger is empty, the capital untouched and the equity curve
    [initial]; it has asked the engine for a setup once per bar; and its
    statistics are the all-zero default, whose equity curve is empty. *)
Theorem no_trade_outside_allowed_cycles (cfg : BacktestConfig) (eng : Engine)
    (data : list Bar) (symbol : string) (final : RunState) :
  Forall (fun b => cycle_allowed cfg b = false) (tl data) ->
  run_backtest cfg eng data symbol = Ok final ->
  trades final = []
  /\ capital final = initial_capital cfg
  /\ equity_curve final = [initial_capital cfg]
  /\ setup_counter (engine final)
     = (setup_counter eng + Z.of_nat (List.length (tl data)))%Z
  /\ run_backtest_statistics cfg eng data symbol
     = Return (default_statistics, final).
Proof.
  intros Hall Hrun.
  assert (Hfinal : trades final = []
                   /\ capital final = initial_capital cfg
                   /\ equity_curve final = [initial_capital cfg]
                   /\ setup_counter (engine final)
                      = (setup_counter eng + Z.of_nat (List.length (tl data)))%Z).
  { unfold run_backtest in Hrun.
    destruct data as [|first rest].
    - cbn in Hrun. injection Hrun as <-. cbn. repeat split. lia.
    - cbn [tl] in Hall.
      destruct (bars_loop cfg symbol 1 first rest (start_state cfg eng))
        as [sf|e] eqn:Eloop; [|discriminate].
      cbn [bind] in Hrun.
      pose proof (bars_loop_outside_cycles cfg symbol rest 1 first
                    (start_state cfg eng) sf eq_refl Hall Eloop) as ->.
      unfold close_remaining in Hrun. cbn [in_trade start_state] in Hrun.
      injection Hrun as <-.
      cbn [trades capital equity_curve engine start_state tl].
      repeat split.
      destruct rest; cbn [setup_counter List.length]; lia. }
  destruct Hfinal as (Ht & Hc & He & Hn).
  split; [exact Ht|]. split; [exact Hc|]. split; [exact He|].
  split; [exact Hn|].
  unfold run_backtest_statistics. rewrite Hrun. cbn [lift obind].
  rewrite Ht. reflexivity.
Qed.

Lemma no_trade_outside_allowed_cycles_witness :
  exists final,
    run_backtest default_config (init DEFAULT_PO3) MoreSamples.daily_bars "NQ"
    = Ok final
    /\ trades final = [] /\ setup_counter (engine final) = 2%Z.
Proof.
  destruct (run_backtest default_config (init DEFAULT_PO3)
              MoreSamples.daily_bars "NQ") as [final|e] eqn:E;
    [|vm_compute in E; discriminate E].
  destruct (no_trade_outside_allowed_cycles default_config (init DEFAULT_PO3)
              MoreSamples.daily_bars "NQ" final)
    as (Htrades & _ & _ & Hcount & _).
  - repeat constructor.
  - exact E.
  - exists final. split; [reflexivity|]. split; [exact Htrades|].
    rewrite Hcount. reflexivity.
Defined.

(** X15: a series of fewer than two bars leaves the run in its start state
    whatever the configuration, since no bar is ever processed; and when the
    bracket size and the default of the engine are both 0, no run over two
    bars or more completes: it is aborted by an exception on its second
    bar. *)
Theorem run_backtest_short_or_sizeless (cfg : BacktestConfig) (eng : Engine)
    (data : list Bar) (symbol : string) :
  ((List.length data <= 1)%nat ->
   run_backtest cfg eng data symbol = Ok (start_state cfg eng))
  /\ (po3_size cfg = 0%Z -> default_po3 eng = 0%Z ->
      (2 <= List.length data)%nat ->
      exists e, run_backtest cfg eng data symbol = Raise e).
Proof.
  split.
  - intro Hlen. destruct data as [|b0 [|b1 rest]]; [reflexivity|reflexivity|].
    cbn [List.length] in Hlen. lia.
  - intros Hsize Hdef Hlen.
    destruct data as [|b0 [|b1 rest]]; cbn [List.length] in Hlen; try lia.
    unfold run_backtest. cbn [bars_loop].
    assert (Hstep : step cfg symbol 1 b0 b1 (start_state cfg eng)
                    = Raise ZeroDivisionError).
    { unfold step, look_for_entry. cbn [start_state in_trade negb engine].
      destruct (engine_outcome_by_size eng (bar_close b0) symbol
                  (Some (po3_size cfg)) 0 (bar_date b1)) as [Hraise _].
      destruct Hraise as (_ & _ & _ & Hgen).
      { rewrite Hsize. exact Hdef. }
      destruct (generate_setup eng (bar_close b0) symbol (Some (po3_size cfg)) 0
                  (bar_date b1)) as [r eng'].
      cbn [fst] in Hgen. subst r. reflexivity. }
    rewrite Hstep. eexists. reflexivity.
Qed.

(** ** Dicts *)

Section DictFacts.

Context {K V : Type}.
Variable eqb : K -> K -> bool.
Hypothesis eqb_eq : forall a b, eqb a b = true <-> a = b.

Lemma dict_get_none (k : K) (d : list (K * V)) :
  dict_get eqb k d = None <-> ~ In k (map fst d).
Proof.
  induction d as [|[k' v'] d IH]; cbn [dict_get map fst In].
  - split; [intros _ []|reflexivity].
  - destruct (eqb k k') eqn:E.
    + apply eqb_eq in E. subst k'. split; [discriminate|]. intro H.
      exfalso. apply H. left. reflexivity.
    + rewrite IH. split.
      * intros H [C|C]; [|exact (H C)].
        subst k'. assert (T : eqb k k = true) by (apply eqb_eq; reflexivity).
        congruence.
      * intros H C. apply H. right. exact C.
Qed.

Lemma dict_set_keys (k : K) (v : V) (d : list (K * V)) :
  map fst (dict_set eqb k v d)
  = match dict_get eqb k d with
    | Some _ => map fst d
    | None => map fst d ++ [k]
    end.
Proof.
  induction d as [|[k' v'] d IH]; cbn [dict_get dict_set map fst app].
  - reflexivity.
  - destruct (eqb k k'); cbn [map fst]; [reflexivity|].
    rewrite IH. destruct (dict_get eqb k d); reflexivity.
Qed.

Lemma dict_set_nodup (k : K) (v : V) (d : list (K * V)) :
  NoDup (map fst d) -> NoDup (map fst (dict_set eqb k v d)).
Proof.
  intro H. rewrite dict_set_keys.
  destruct (dict_get eqb k d) eqn:E; [exact H|].
  apply dict_get_none in E.
  apply NoDup_app; [exact H|repeat constructor; intros []|].
  intros x Hx [<-|[]]. exact (E Hx).
Qed.

(** The total of an integer weight over the values after [d[k] = v]. *)
Lemma weight_dict_set (w : V -> Z) (k : K) (v : V) (d : list (K * V)) :
  fold_right (fun kv acc => (w (snd kv) + acc)%Z) 0%Z (dict_set eqb k v d)
  = (fold_right (fun kv acc => (w (snd kv) + acc)%Z) 0%Z d + w v
     - match dict_get eqb k d with Some old => w old | None => 0 end)%Z.
Proof.
  induction d as [|[k' v'] d IH]; cbn [dict_get dict_set fold_right snd].
  - lia.
  - destruct (eqb k k'); cbn [fold_right snd]; [lia|]. rewrite IH. lia.
Qed.

(** The same for a rational weight. *)
Lemma qweight_dict_set (w : V -> Q) (k : K) (v : V) (d : list (K * V)) :
  fold_right (fun kv acc => (w (snd kv) + acc)%Q) 0%Q (dict_set eqb k v d)
  == fold_right (fun kv acc => (w (snd kv) + acc)%Q) 0%Q d + w v
     - match dict_get eqb k d with Some old => w old | None => 0 end.
Proof.
  induction d as [|[k' v'] d IH]; cbn [dict_get dict_set fold_right snd].
  - ring.
  - destruct (eqb k k'); cbn [fold_right snd]; [ring|]. rewrite IH. ring.
Qed.

Lemma dict_set_forall (P : V -> Prop) (k : K) (v : V) (d : list (K * V)) :
  Forall (fun kv => P (snd kv)) d -> P v ->
  Forall (fun kv => P (snd kv)) (dict_set eqb k v d).
Proof.
  intros H Hv. induction H as [|[k' v'] d Hx Hd IH]; cbn [dict_set].
  - constructor; [exact Hv|constructor].
  - destruct (eqb k k'); constructor; assumption.
Qed.

Lemma dict_get_forall (P : V -> Prop) (k : K) (v : V) (d : list (K * V)) :
  Forall (fun kv => P (snd kv)) d -> dict_get eqb k d = Some v -> P v.
Proof.
  intros H. induction H as [|[k' v'] d Hx _ IH]; cbn [dict_get]; [discriminate|].
  destruct (eqb k k'); [|exact IH]. intro E. injection E as <-. exact Hx.
Qed.

End DictFacts.

Lemma month_eqb_eq (a b : Z * Z) : month_eqb a b = true <-> a = b.
Proof.
  unfold month_eqb. destruct a as [y m], b as [y' m']. cbn [fst snd].
  rewrite andb_true_iff, !Z.eqb_eq. split.
  - intros [-> ->]. reflexivity.
  - intro H. injection H as -> ->. split; reflexivity.
Qed.

(** ** Grouped breakdowns *)

(** The loop of [_stats_by_category] from a dict [d] on. *)
Lemma category_loop_totals (key_of : BacktestTrade -> string)
    (ledger : list BacktestTrade) (d : list (string * GroupStats)) :
  let step := fun (result : list (string * GroupStats)) (t : BacktestTrade) =>
    dict_set String.eqb (key_of t)
      (count_trade match dict_get String.eqb (key_of t) result with
                   | Some g => g
                   | None => empty_group
                   end t) result in
  let d' := fold_left step ledger d in
  (NoDup (map fst d) -> NoDup (map fst d'))
  /\ groups_trades d' = (groups_trades d + len ledger)%Z
  /\ groups_wins d' = (groups_wins d + len (wins_of ledger))%Z
  /\ groups_pnl d' == groups_pnl d + Qsum (map pnl ledger)
  /\ (Forall (fun kg => 0 < g_trades (snd kg))%Z d ->
      Forall (fun kg => 0 < g_trades (snd kg))%Z d')
  /\ (forall k, In k (map fst d') <->
                In k (map fst d) \/ In k (map key_of ledger)).
Proof.
  cbn zeta. revert d. induction ledger as [|t ledger IH]; intro d.
  - cbn [fold_left map]. unfold len, wins_of. cbn.
    repeat split; try lia; try auto; try ring.
    intros [H|[]]; exact H.
  - cbn [fold_left].
    set (g := match dict_get String.eqb (key_of t) d with
              | Some g => g
              | None => empty_group
              end).
    set (d1 := dict_set String.eqb (key_of t) (count_trade g t) d).
    destruct (IH d1) as (Hnd & Htr & Hw & Hp & Hpos & Hkeys).
    assert (Htr1 : groups_trades d1 = (groups_trades d + 1)%Z).
    { unfold groups_trades, d1.
      rewrite (weight_dict_set String.eqb g_trades). unfold g.
      destruct (dict_get String.eqb (key_of t) d);
        cbn [g_trades count_trade empty_group]; lia. }
    assert (Hw1 : groups_wins d1
                  = (groups_wins d + if has_result WIN t then 1 else 0)%Z).
    { unfold groups_wins, d1.
      rewrite (weight_dict_set String.eqb g_wins). unfold g, has_result.
      destruct (dict_get String.eqb (key_of t) d);
        cbn [g_wins count_trade empty_group]; destruct (bt_result t); lia. }
    assert (Hp1 : groups_pnl d1 == groups_pnl d + pnl t).
    { unfold groups_pnl, d1.
      rewrite (qweight_dict_set String.eqb g_pnl). unfold g.
      destruct (dict_get String.eqb (key_of t) d);
        cbn [g_pnl count_trade empty_group]; ring. }
    split; [|split; [|split; [|split; [|split]]]].
    + intro H. apply Hnd. apply (dict_set_nodup String.eqb String.eqb_eq).
      exact H.
    + rewrite Htr, Htr1. unfold len. cbn [List.length]. lia.
    + rewrite Hw, Hw1. unfold len, wins_of. cbn [filter].
      destruct (has_result WIN t); cbn [List.length]; lia.
    + rewrite Hp, Hp1. cbn [map]. rewrite Qsum_cons. ring.
    + intro H. apply Hpos. unfold d1.
      apply (dict_set_forall String.eqb (fun g0 => (0 < g_trades g0)%Z));
        [exact H|].
      cbn [g_trades count_trade]. unfold g.
      destruct (dict_get String.eqb (key_of t) d) as [g0|] eqn:E; [|cbn; lia].
      pose proof (dict_get_forall String.eqb (fun g1 => (0 < g_trades g1)%Z)
                    (key_of t) g0 d H E) as Hg0.
      cbn beta in Hg0. lia.
    + intro k. rewrite Hkeys. unfold d1.
      rewrite (dict_set_keys String.eqb). cbn [map In].
      destruct (dict_get String.eqb (key_of t) d) eqn:E.
      * assert (Hin : In (key_of t) (map fst d)).
        { destruct (in_dec string_dec (key_of t) (map fst d)) as [Y|N];
            [exact Y|].
          apply (dict_get_none String.eqb String.eqb_eq) in N. congruence. }
        split; [intros [H|H]; auto|].
        intros [H|[<-|H]]; auto.
      * rewrite in_app_iff. cbn [In]. tauto.
Qed.

Lemma groups_after_rates (f : GroupStats -> option Q)
    (d : list (string * GroupStats)) :
  let d' := map (fun kg : string * GroupStats =>
                   let (key, g) := kg in
                   (key, mkGroupStats (g_trades g) (g_wins g) (g_pnl g) (f g))) d in
  map fst d' = map fst d
  /\ groups_trades d' = groups_trades d
  /\ groups_wins d' = groups_wins d
  /\ groups_pnl d' = groups_pnl d.
Proof.
  cbn zeta. induction d as [|[k g] d (IH1 & IH2 & IH3 & IH4)]; [repeat split|].
  cbn [map fst]. unfold groups_trades, groups_wins, groups_pnl in *.
  cbn [fold_right snd g_trades g_wins g_pnl].
  rewrite IH1, IH2, IH3, IH4. repeat split.
Qed.

(** ** Loops that keep a value per key *)

Section GroupedFold.
Context {K V T : Type}.
Variable eqb : K -> K -> bool.
Hypothesis eqb_eq : forall a b, eqb a b = true <-> a = b.
Variable key_of : T -> K.
Variable init : V.
Variable upd : V -> T -> V.

Lemma key_eqb_false (a b : K) : a <> b -> eqb a b = false.
Proof.
  intro H. destruct (eqb a b) eqn:E; [|reflexivity].
  apply eqb_eq in E. contradiction.
Qed.

Lemma key_eqb_true (a : K) : eqb a a = true.
Proof. apply eqb_eq. reflexivity. Qed.

(** [absent] decides that a key is missing. *)
Lemma absent_spec (d : list (K * V)) (k : K) :
  absent eqb d k = true <-> ~ In k (map fst d).
Proof.
  unfold absent. rewrite negb_true_iff. split.
  - intros H Hin. assert (E : existsb (fun k' => eqb k k') (map fst d) = true).
    { apply existsb_exists. exists k. split; [exact Hin|apply key_eqb_true]. }
    congruence.
  - intro H. destruct (existsb (fun k' => eqb k k') (map fst d)) eqn:E; [|reflexivity].
    apply existsb_exists in E. destruct E as (k' & Hin & Ek).
    apply eqb_eq in Ek. subst k'. contradiction.
Qed.

Lemma carried_set_present (d : list (K * V)) (t : T) (rest : list T) (v : V) :
  NoDup (map fst d) ->
  dict_get eqb (key_of t) d = Some v ->
  carried eqb key_of upd (dict_set eqb (key_of t) (upd v t) d) rest = carried eqb key_of upd d (t :: rest).
Proof.
  unfold carried, group.
  induction d as [|[k' v'] d IH]; intros Hnd Hget; [discriminate|].
  cbn [map fst] in Hnd. inversion Hnd as [|x l Hnotin Hnd']; subst.
  cbn [dict_get] in Hget. cbn [dict_set].
  destruct (eqb (key_of t) k') eqn:E.
  - injection Hget as ->. apply eqb_eq in E. subst k'.
    cbn [map fst snd filter]. rewrite key_eqb_true. cbn [fold_left].
    f_equal. apply map_ext_in. intros [k1 v1] Hin. cbn [fst snd].
    assert (Hne : key_of t <> k1).
    { intro C. apply Hnotin. rewrite C. apply (in_map fst _ _ Hin). }
    rewrite (key_eqb_false _ _ Hne). reflexivity.
  - cbn [map fst snd filter]. rewrite E. rewrite IH by assumption.
    reflexivity.
Qed.

Lemma carried_absent (d : list (K * V)) (t : T) (rest : list T) :
  ~ In (key_of t) (map fst d) ->
  carried eqb key_of upd d (t :: rest) = carried eqb key_of upd d rest.
Proof.
  intro Hnotin. unfold carried, group. apply map_ext_in.
  intros [k1 v1] Hin. cbn [fst snd filter].
  assert (Hne : key_of t <> k1).
  { intro C. apply Hnotin. rewrite C. apply (in_map fst _ _ Hin). }
  rewrite (key_eqb_false _ _ Hne). reflexivity.
Qed.

Lemma dict_set_absent (k : K) (v : V) (d : list (K * V)) :
  dict_get eqb k d = None -> dict_set eqb k v d = d ++ [(k, v)].
Proof.
  induction d as [|[k' v'] d IH]; cbn [dict_get dict_set app]; [reflexivity|].
  destruct (eqb k k'); [discriminate|]. intro H. rewrite IH by exact H. reflexivity.
Qed.

Lemma filter_twice {A : Type} (f g : A -> bool) (l : list A) :
  filter f (filter g l) = filter (fun x => g x && f x) l.
Proof.
  induction l as [|x l IH]; [reflexivity|].
  cbn [filter]. destruct (g x); cbn [filter andb]; [destruct (f x)|]; rewrite IH; reflexivity.
Qed.

Lemma accumulate_all (l : list T) :
  forall d : list (K * V),
    NoDup (map fst d) ->
    fold_left (accumulate eqb key_of init upd) l d
    = carried eqb key_of upd d l
      ++ fresh eqb key_of init upd l (filter (absent eqb d) (first_occurrences eqb (map key_of l))).
Proof.
  induction l as [|t rest IH]; intros d Hnd.
  - cbn [fold_left map first_occurrences filter]. unfold carried, fresh, group.
    cbn [filter fold_left map]. rewrite app_nil_r.
    rewrite <- (map_id d) at 1. apply map_ext. intros [k v]. reflexivity.
  - cbn [fold_left]. unfold accumulate at 2.
    assert (Hnd1 : NoDup (map fst (dict_set eqb (key_of t)
                     (upd match dict_get eqb (key_of t) d with
                          | Some v => v | None => init end t) d))).
    { apply (dict_set_nodup eqb eqb_eq). exact Hnd. }
    rewrite (IH _ Hnd1).
    cbn [map first_occurrences filter].
    destruct (dict_get eqb (key_of t) d) as [v|] eqn:Eget.
    + assert (Hin : In (key_of t) (map fst d)).
      { destruct (absent eqb d (key_of t)) eqn:Ea.
        - apply absent_spec in Ea. apply (dict_get_none eqb eqb_eq) in Ea. congruence.
        - destruct (existsb (fun k' => eqb (key_of t) k') (map fst d)) eqn:E.
          + apply existsb_exists in E. destruct E as (k' & Hk' & Ek).
            apply eqb_eq in Ek. subst k'. exact Hk'.
          + unfold absent in Ea. rewrite E in Ea. discriminate. }
      assert (Ea : absent eqb d (key_of t) = false).
      { destruct (absent eqb d (key_of t)) eqn:Ea; [|reflexivity].
        apply absent_spec in Ea. contradiction. }
      rewrite Ea. rewrite (carried_set_present d t rest v Hnd Eget).
      f_equal.
      rewrite filter_twice.
      assert (Hkeys : map fst (dict_set eqb (key_of t) (upd v t) d) = map fst d).
      { rewrite (dict_set_keys eqb). rewrite Eget. reflexivity. }
      assert (Hfil :
        filter (absent eqb (dict_set eqb (key_of t) (upd v t) d))
               (first_occurrences eqb (map key_of rest))
        = filter (fun x => negb (eqb x (key_of t)) && absent eqb d x)
                 (first_occurrences eqb (map key_of rest))).
      { apply filter_ext. intro x. unfold absent. rewrite Hkeys.
        destruct (eqb x (key_of t)) eqn:Ex; cbn [negb andb]; [|reflexivity].
        apply eqb_eq in Ex. subst x. exact Ea. }
      rewrite Hfil. unfold fresh, group. apply map_ext_in.
      intros k Hk. apply filter_In in Hk. destruct Hk as [_ Hk].
      apply andb_prop in Hk. destruct Hk as [Hk _].
      cbn [filter]. destruct (eqb (key_of t) k) eqn:E; [|reflexivity].
      apply eqb_eq in E. subst k. rewrite key_eqb_true in Hk. discriminate.
    + assert (Hnotin : ~ In (key_of t) (map fst d))
        by (apply (dict_get_none eqb eqb_eq); exact Eget).
      assert (Ea : absent eqb d (key_of t) = true) by (apply absent_spec; exact Hnotin).
      rewrite Ea. rewrite (dict_set_absent _ _ _ Eget).
      unfold carried at 1. rewrite map_app. fold (carried eqb key_of upd d rest).
      rewrite <- (carried_absent d t rest Hnotin).
      rewrite <- app_assoc. f_equal. cbn [map fst snd app].
      unfold fresh at 2. cbn [map]. unfold group at 2. cbn [filter].
      rewrite key_eqb_true. cbn [fold_left]. f_equal.
      rewrite filter_twice.
      assert (Hfil :
        filter (absent eqb (d ++ [(key_of t, upd init t)]))
               (first_occurrences eqb (map key_of rest))
        = filter (fun x => negb (eqb x (key_of t)) && absent eqb d x)
                 (first_occurrences eqb (map key_of rest))).
      { apply filter_ext. intro x. unfold absent.
        rewrite map_app, existsb_app. cbn [map fst existsb].
        rewrite orb_false_r, negb_orb, andb_comm. reflexivity. }
      rewrite Hfil. unfold fresh, group. apply map_ext_in.
      intros k Hk. apply filter_In in Hk. destruct Hk as [_ Hk].
      apply andb_prop in Hk. destruct Hk as [Hk _].
      cbn [filter]. destruct (eqb (key_of t) k) eqn:E; [|reflexivity].
      apply eqb_eq in E. subst k. rewrite key_eqb_true in Hk. discriminate.
Qed.

Lemma accumulate_from_empty (l : list T) :
  fold_left (accumulate eqb key_of init upd) l []
  = map (fun k => (k, fold_left upd (group eqb key_of k l) init))
      (first_occurrences eqb (map key_of l)).
Proof.
  rewrite (accumulate_all l [] (NoDup_nil _)).
  unfold carried, fresh. cbn [map app].
  f_equal. rewrite <- (filter_ext (fun _ => true)).
  - induction (first_occurrences eqb (map key_of l)) as [|x xs IHx];
      [reflexivity|cbn [filter]; rewrite IHx; reflexivity].
  - intro x. reflexivity.
Qed.

End GroupedFold.

Section Occurrences.
Context {K : Type}.
Variable eqb : K -> K -> bool.
Hypothesis eqb_eq : forall a b, eqb a b = true <-> a = b.

Lemma first_occurrences_in (l : list K) (k : K) :
  In k (first_occurrences eqb l) <-> In k l.
Proof.
  induction l as [|x l IH]; [reflexivity|].
  cbn [first_occurrences In]. rewrite filter_In, IH.
  split.
  - intros [H|[H _]]; [left|right]; assumption.
  - intros [H|H]; [left; exact H|].
    destruct (eqb k x) eqn:E.
    + left. apply eqb_eq in E. symmetry. exact E.
    + right. split; [exact H|reflexivity].
Qed.

Lemma first_occurrences_nodup (l : list K) : NoDup (first_occurrences eqb l).
Proof.
  induction l as [|x l IH]; [constructor|].
  cbn [first_occurrences]. constructor.
  - intro H. apply filter_In in H. destruct H as [_ H].
    assert (E : eqb x x = true) by (apply eqb_eq; reflexivity).
    rewrite E in H. discriminate.
  - apply NoDup_filter. exact IH.
Qed.

End Occurrences.

Lemma count_trades_of (l : list BacktestTrade) :
  forall g,
    fold_left count_trade l g
    = mkGroupStats (g_trades g + len l) (g_wins g + len (wins_of l))
        (fold_left Qplus (map pnl l) (g_pnl g)) (g_win_rate g).
Proof.
  induction l as [|t l IH]; intro g.
  - cbn [fold_left map]. unfold len, wins_of. cbn [filter List.length Z.of_nat].
    rewrite !Z.add_0_r. destruct g. reflexivity.
  - cbn [fold_left map]. rewrite IH.
    unfold count_trade at 1 2 3 4.
    cbn [g_trades g_wins g_pnl g_win_rate].
    f_equal.
    + unfold len. cbn [List.length]. lia.
    + unfold len, wins_of, has_result. cbn [filter].
      destruct (bt_result t); cbn [List.length]; lia.
Qed.

Lemma raw_group (l : list BacktestTrade) :
  fold_left count_trade l empty_group
  = mkGroupStats (len l) (len (wins_of l)) (Qsum (map pnl l)) None.
Proof.
  rewrite count_trades_of. cbn [empty_group g_trades g_wins g_pnl g_win_rate].
  rewrite !Z.add_0_l. reflexivity.
Qed.

Lemma group_of_key {K T : Type} (eqb : K -> K -> bool)
    (eqb_eq : forall a b, eqb a b = true <-> a = b)
    (key_of : T -> K) (k : K) (l : list T) :
  In k (map key_of l) -> group eqb key_of k l <> [].
Proof.
  intros Hin C. apply in_map_iff in Hin. destruct Hin as (t & <- & Ht).
  assert (Hg : In t (group eqb key_of (key_of t) l)).
  { apply filter_In. split; [exact Ht|]. apply eqb_eq. reflexivity. }
  rewrite C in Hg. exact Hg.
Qed.

(** X16: a grouped breakdown has one entry for each value of the category
    that occurs in the ledger, in the order in which the values first occur.
    The entry of a value counts the trades of the ledger that have it and the
    wins among them, carries their P&L added up from 0 in ledger order, and
    has the win rate [wins / trades * 100].  The trade counts of the entries
    add up to the number of trades, their wins to the number of winning
    trades. *)
Theorem stats_by_category_totals (key_of : BacktestTrade -> string)
    (ledger : list BacktestTrade) :
  _stats_by_category key_of ledger
  = map (fun k => (k, group_stats (group String.eqb key_of k ledger)))
      (first_occurrences String.eqb (map key_of ledger))
  /\ NoDup (first_occurrences String.eqb (map key_of ledger))
  /\ (forall k, In k (first_occurrences String.eqb (map key_of ledger))
                <-> In k (map key_of ledger))
  /\ groups_trades (_stats_by_category key_of ledger) = len ledger
  /\ groups_wins (_stats_by_category key_of ledger) = len (wins_of ledger).
Proof.
  split; [|split; [|split]].
  - unfold _stats_by_category.
    change (fold_left _ ledger [])
      with (fold_left (accumulate String.eqb key_of empty_group count_trade)
              ledger []).
    rewrite (accumulate_from_empty String.eqb String.eqb_eq).
    rewrite map_map. apply map_ext_in. intros k Hk.
    apply (proj1 (first_occurrences_in String.eqb String.eqb_eq _ _)) in Hk.
    pose proof (group_of_key String.eqb String.eqb_eq key_of k ledger Hk) as Hne.
    rewrite raw_group. cbn [g_trades g_wins g_pnl].
    unfold group_stats, group_win_rate. cbn [g_trades g_wins].
    destruct (Z.ltb_spec 0 (len (group String.eqb key_of k ledger))) as [_|C];
      [reflexivity|].
    exfalso. unfold len in C.
    destruct (group String.eqb key_of k ledger); [contradiction|].
    cbn [List.length] in C. lia.
  - apply (first_occurrences_nodup String.eqb String.eqb_eq).
  - intro k. apply (first_occurrences_in String.eqb String.eqb_eq).
  - unfold _stats_by_category.
    destruct (category_loop_totals key_of ledger [])
      as (_ & Htr & Hw & _).
    cbn zeta in *.
    set (d0 := fold_left _ ledger []) in *.
    destruct (groups_after_rates
                (fun g => Some (if (0 <? g_trades g)%Z then group_win_rate g else 0))
                d0) as (_ & K2 & K3 & _).
    cbn zeta in *. rewrite K2, K3, Htr, Hw. split; reflexivity.
Qed.

Lemma fold_left_map_sum (l : list BacktestTrade) (a : Q) :
  fold_left (fun v t => v + pnl t) l a = fold_left Qplus (map pnl l) a.
Proof.
  revert a. induction l as [|t l IH]; intro a; [reflexivity|].
  cbn [fold_left map]. apply IH.
Qed.

(** X17: the monthly returns have one entry for each month in which a trade
    was closed, in the order in which the months first occur in the ledger;
    the entry of a month is the P&L of the trades closed in it, added up from
    0 in ledger order. *)
Theorem monthly_returns_total (ledger : list BacktestTrade) :
  _calculate_monthly_returns ledger
  = map (fun m => (m, Qsum (map pnl (group month_eqb exit_month m ledger))))
      (first_occurrences month_eqb (map exit_month ledger))
  /\ NoDup (first_occurrences month_eqb (map exit_month ledger))
  /\ (forall m, In m (first_occurrences month_eqb (map exit_month ledger))
                <-> In m (map exit_month ledger)).
Proof.
  split; [|split].
  - unfold _calculate_monthly_returns.
    change (fold_left _ ledger [])
      with (fold_left (accumulate month_eqb exit_month 0
                         (fun v t => v + pnl t)) ledger []).
    rewrite (accumulate_from_empty month_eqb month_eqb_eq).
    apply map_ext. intro m. rewrite fold_left_map_sum. reflexivity.
  - apply (first_occurrences_nodup month_eqb month_eqb_eq).
  - intro m. apply (first_occurrences_in month_eqb month_eqb_eq).
Qed.

(** ** Breakdown by weekday *)

Lemma weekday_range (t : datetime) : (0 <= weekday t < 7)%Z.
Proof. unfold weekday. apply Z.mod_pos_bound. lia. Qed.

Lemma day_of_week (t : BacktestTrade) :
  if weekend_entry t
  then nth_error days (Z.to_nat (weekday (bt_entry_time t))) = None
  else exists day,
         nth_error days (Z.to_nat (weekday (bt_entry_time t))) = Some day
         /\ In day days.
Proof.
  unfold weekend_entry.
  pose proof (weekday_range (bt_entry_time t)) as Hw.
  destruct (Z.leb_spec 5 (weekday (bt_entry_time t))) as [H|H].
  - apply nth_error_None. cbn [days List.length]. lia.
  - destruct (nth_error days (Z.to_nat (weekday (bt_entry_time t)))) as [day|] eqn:E.
    + exists day. split; [reflexivity|]. apply (nth_error_In _ _ E).
    + apply nth_error_None in E. cbn [days List.length] in E. lia.
Qed.

Lemma count_by_day_outcome (ledger : list BacktestTrade)
    (d : list (string * GroupStats)) :
  map fst d = days ->
  (existsb weekend_entry ledger = true ->
   count_by_day d ledger = Throw IndexError)
  /\ (existsb weekend_entry ledger = false ->
      exists d',
        count_by_day d ledger = Return d'
        /\ map fst d' = days
        /\ groups_trades d' = (groups_trades d + len ledger)%Z
        /\ groups_wins d' = (groups_wins d + len (wins_of ledger))%Z
        /\ groups_pnl d' == groups_pnl d + Qsum (map pnl ledger)).
Proof.
  revert d. induction ledger as [|t ledger IH]; intros d Hkeys.
  - split; [discriminate|]. intros _. exists d. cbn [count_by_day].
    unfold len, wins_of. cbn. repeat split; try lia; try assumption. ring.
  - cbn [count_by_day existsb].
    pose proof (day_of_week t) as Hday.
    destruct (weekend_entry t) eqn:Ew.
    + rewrite Hday. cbn [orb]. split; [reflexivity|discriminate].
    + destruct Hday as (day & -> & Hin). cbn [orb].
      set (g := match dict_get String.eqb day d with
                | Some g => g
                | None => empty_group
                end).
      set (d1 := dict_set String.eqb day (count_trade g t) d).
      assert (Hsome : dict_get String.eqb day d <> None).
      { intro C. apply (dict_get_none String.eqb String.eqb_eq) in C.
        apply C. rewrite Hkeys. exact Hin. }
      assert (Hkeys1 : map fst d1 = days).
      { unfold d1. rewrite (dict_set_keys String.eqb).
        destruct (dict_get String.eqb day d); [exact Hkeys|contradiction]. }
      assert (Htr1 : groups_trades d1 = (groups_trades d + 1)%Z).
      { unfold groups_trades, d1.
        rewrite (weight_dict_set String.eqb g_trades). unfold g.
        destruct (dict_get String.eqb day d);
          cbn [g_trades count_trade empty_group]; lia. }
      assert (Hw1 : groups_wins d1
                    = (groups_wins d + if has_result WIN t then 1 else 0)%Z).
      { unfold groups_wins, d1.
        rewrite (weight_dict_set String.eqb g_wins). unfold g, has_result.
        destruct (dict_get String.eqb day d);
          cbn [g_wins count_trade empty_group]; destruct (bt_result t); lia. }
      assert (Hp1 : groups_pnl d1 == groups_pnl d + pnl t).
      { unfold groups_pnl, d1.
        rewrite (qweight_dict_set String.eqb g_pnl). unfold g.
        destruct (dict_get String.eqb day d);
          cbn [g_pnl count_trade empty_group]; ring. }
      destruct (IH d1 Hkeys1) as [IHt IHf].
      split; [exact IHt|].
      intro Hno. destruct (IHf Hno) as (d' & Hd' & Hk & Ht & Hw & Hp).
      exists d'. split; [exact Hd'|]. split; [exact Hk|].
      split; [rewrite Ht, Htr1; unfold len; cbn [List.length]; lia|].
      split.
      * rewrite Hw, Hw1. unfold len, wins_of. cbn [filter].
        destruct (has_result WIN t); cbn [List.length]; lia.
      * rewrite Hp, Hp1. cbn [map]. rewrite Qsum_cons. ring.
Qed.

Lemma groups_after_day_rates (d : list (string * GroupStats)) :
  let d' := map (fun kg : string * GroupStats =>
                   let (day, g) := kg in
                   if (0 <? g_trades g)%Z
                   then (day, mkGroupStats (g_trades g) (g_wins g) (g_pnl g)
                                (Some (group_win_rate g)))
                   else (day, g)) d in
  map fst d' = map fst d
  /\ groups_trades d' = groups_trades d
  /\ groups_wins d' = groups_wins d
  /\ groups_pnl d' = groups_pnl d.
Proof.
  cbn zeta. induction d as [|[k g] d (IH1 & IH2 & IH3 & IH4)]; [repeat split|].
  cbn [map]. unfold groups_trades, groups_wins, groups_pnl in *.
  destruct (0 <? g_trades g)%Z;
    cbn [fold_right fst snd map g_trades g_wins g_pnl];
    rewrite IH1, IH2, IH3, IH4; repeat split.
Qed.

Lemma stats_by_day_cases (ledger : list BacktestTrade) :
  (existsb weekend_entry ledger = true ->
   _stats_by_day ledger = Throw IndexError)
  /\ (existsb weekend_entry ledger = false ->
      exists d,
        _stats_by_day ledger = Return d
        /\ map fst d = days
        /\ groups_trades d = len ledger
        /\ groups_wins d = len (wins_of ledger)
        /\ groups_pnl d == total_pnl ledger).
Proof.
  unfold _stats_by_day, total_pnl.
  destruct (count_by_day_outcome ledger
              (map (fun day => (day, empty_group)) days) eq_refl) as [Ht Hf].
  split.
  - intro H. rewrite (Ht H). reflexivity.
  - intro H. destruct (Hf H) as (d' & Hd' & Hk & Htr & Hw & Hp).
    rewrite Hd'. cbn [obind]. eexists. split; [reflexivity|].
    destruct (groups_after_day_rates d') as (K1 & K2 & K3 & K4).
    cbn zeta in *. rewrite K1, K2, K3, K4.
    split; [exact Hk|]. split; [rewrite Htr; reflexivity|].
    split; [rewrite Hw; reflexivity|].
    rewrite Hp. unfold groups_pnl. cbn. ring.
Qed.

Lemma entry_day_of (t : BacktestTrade) :
  weekend_entry t = false ->
  nth_error days (Z.to_nat (weekday (bt_entry_time t))) = Some (entry_day t)
  /\ In (entry_day t) days.
Proof.
  intro Hw. pose proof (day_of_week t) as H. rewrite Hw in H.
  destruct H as (day & Hday & Hin).
  unfold entry_day. rewrite (nth_error_nth _ _ _ Hday).
  split; assumption.
Qed.

Lemma count_by_day_fold (ledger : list BacktestTrade) :
  forall d,
    existsb weekend_entry ledger = false ->
    count_by_day d ledger
    = Return (fold_left (accumulate String.eqb entry_day empty_group count_trade)
                ledger d).
Proof.
  induction ledger as [|t rest IH]; intros d Hno; [reflexivity|].
  cbn [existsb] in Hno. apply orb_false_elim in Hno. destruct Hno as [Ht Hrest].
  destruct (entry_day_of t Ht) as [Hday _].
  cbn [count_by_day fold_left]. rewrite Hday.
  rewrite (IH _ Hrest). reflexivity.
Qed.

Lemma filter_none {A : Type} (f : A -> bool) (l : list A) :
  (forall x, In x l -> f x = false) -> filter f l = [].
Proof.
  induction l as [|x l IH]; intro H; [reflexivity|].
  cbn [filter]. rewrite (H x (or_introl eq_refl)).
  apply IH. intros y Hy. apply H. right. exact Hy.
Qed.

(** X18: the breakdown by weekday raises IndexError exactly when some trade
    was entered on a Saturday or a Sunday.  Otherwise it has the five days
    Monday to Friday as keys, in this order; a day without a trade keeps the
    entry it was set up with, and the entry of any other day counts the trades
    entered on it and the wins among them, carries their P&L added up from 0
    in ledger order, and has the win rate [wins / trades * 100].  The trade
    counts of the days add up to the number of trades, their wins to the
    number of winning trades. *)
Theorem stats_by_day_outcome (ledger : list BacktestTrade) :
  (existsb weekend_entry ledger = true ->
   _stats_by_day ledger = Throw IndexError)
  /\ (existsb weekend_entry ledger = false ->
      exists d,
        _stats_by_day ledger = Return d
        /\ d = map (fun day =>
                      (day, day_stats (group String.eqb entry_day day ledger)))
                 days
        /\ groups_trades d = len ledger
        /\ groups_wins d = len (wins_of ledger)).
Proof.
  destruct (stats_by_day_cases ledger) as [Hweekend Hweek].
  split; [exact Hweekend|].
  intro Hno. destruct (Hweek Hno) as (d & Hd & _ & Htr & Hw & _).
  exists d. split; [exact Hd|]. split; [|split; assumption].
  assert (Heq : _stats_by_day ledger
                = Return (map (fun day =>
                                 (day, day_stats (group String.eqb entry_day day
                                                    ledger))) days)).
  { unfold _stats_by_day.
    rewrite (count_by_day_fold ledger _ Hno).
    rewrite (accumulate_all String.eqb String.eqb_eq entry_day empty_group
               count_trade ledger (map (fun day => (day, empty_group)) days)).
    2:{ rewrite map_map. cbn [fst]. rewrite map_id.
        unfold days. repeat constructor; cbn [In]; intuition discriminate. }
    rewrite filter_none.
    2:{ intros x Hx.
        apply (proj1 (first_occurrences_in String.eqb String.eqb_eq _ _)) in Hx.
        apply in_map_iff in Hx. destruct Hx as (t & <- & Ht).
        assert (Hwt : weekend_entry t = false).
        { destruct (weekend_entry t) eqn:E; [|reflexivity].
          assert (C : existsb weekend_entry ledger = true).
          { apply existsb_exists. exists t. split; assumption. }
          congruence. }
        destruct (entry_day_of t Hwt) as [_ Hin].
        destruct (absent String.eqb
                    (map (fun day : string => (day, empty_group)) days)
                    (entry_day t)) eqn:Ea; [|reflexivity].
        apply (absent_spec String.eqb String.eqb_eq) in Ea.
        exfalso. apply Ea. rewrite map_map. cbn [fst]. rewrite map_id. exact Hin. }
    unfold fresh. cbn [map obind]. rewrite app_nil_r. f_equal.
    unfold carried. rewrite !map_map. apply map_ext. intro day. cbn [fst snd].
    rewrite raw_group. cbn [g_trades].
    unfold day_stats, group_stats, group_win_rate.
    destruct (group String.eqb entry_day day ledger) as [|t l] eqn:El.
    - reflexivity.
    - cbn [g_trades g_wins g_pnl].
      destruct (Z.ltb_spec 0 (len (t :: l))) as [_|C]; [reflexivity|].
      unfold len in C. cbn [List.length] in C. lia. }
  rewrite Heq in Hd. injection Hd as <-. reflexivity.
Qed.

(** ** The statistics of a ledger *)

Lemma calculate_statistics_fields (cfg : BacktestConfig) (t : BacktestTrade)
    (ledger : list BacktestTrade) (curve : list Q) (stats : BacktestStatistics) :
  _calculate_statistics cfg (t :: ledger) curve = Return stats ->
  exists first rest by_day,
    curve = first :: rest
    /\ ~ initial_capital cfg == 0
    /\ _stats_by_day (t :: ledger) = Return by_day
    /\ stats =
       mkBacktestStatistics (len (t :: ledger)) (len (wins_of (t :: ledger)))
         (len (losses_of (t :: ledger))) (len (breakevens_of (t :: ledger)))
         (win_rate_of (t :: ledger))
         (Qsum (map pnl (t :: ledger))) (Qsum (map pnl_pct (t :: ledger)))
         (fst (mean_and_extreme Qmax_list (wins_of (t :: ledger))))
         (fst (mean_and_extreme Qmin_list (losses_of (t :: ledger))))
         (snd (mean_and_extreme Qmax_list (wins_of (t :: ledger))))
         (snd (mean_and_extreme Qmin_list (losses_of (t :: ledger))))
         (profit_factor_of (t :: ledger)) (expectancy_of (t :: ledger))
         (risk_reward_of
            (fst (mean_and_extreme Qmax_list (wins_of (t :: ledger))))
            (fst (mean_and_extreme Qmin_list (losses_of (t :: ledger)))))
         (max_drawdown_of (fst (drawdowns_of first curve)))
         (max_drawdown_of (fst (drawdowns_of first curve))
          / initial_capital cfg * 100)
         (avg_drawdown_of (fst (drawdowns_of first curve)))
         (snd (drawdowns_of first curve))
         (fst (streaks_of (t :: ledger))) (snd (streaks_of (t :: ledger))) 0
         (mean_bars (t :: ledger)) (mean_bars_of (wins_of (t :: ledger)))
         (mean_bars_of (losses_of (t :: ledger)))
         (_stats_by_category (fun t => TradePlan_value (bt_plan t)) (t :: ledger))
         (_stats_by_category (fun t => Strength_value (bt_signal_strength t))
            (t :: ledger))
         by_day
         (_stats_by_category bt_amd_cycle (t :: ledger))
         (_calculate_monthly_returns (t :: ledger))
         curve.
Proof.
  unfold _calculate_statistics. destruct curve as [|first rest]; [discriminate|].
  unfold truediv.
  destruct (Qeq_bool (initial_capital cfg) 0) eqn:E; [discriminate|].
  cbn [lift obind].
  destruct (_stats_by_day (t :: ledger)) as [by_day|e]; [|discriminate].
  cbn [obind]. intro H. injection H as <-.
  exists first, rest, by_day. split; [reflexivity|]. split.
  - intro C. apply Qeq_bool_iff in C. congruence.
  - split; reflexivity.
Qed.

(** X19: on an empty ledger the statistics are the default ones, whatever
    the equity curve and the configuration.  On a non-empty ledger the
    computation raises IndexError for an empty equity curve, else
    ZeroDivisionError for an initial capital of 0, else IndexError when a
    trade was entered on a Saturday or a Sunday, and returns otherwise. *)
Theorem calculate_statistics_outcome (cfg : BacktestConfig)
    (ledger : list BacktestTrade) (curve : list Q) :
  match ledger, curve with
  | [], _ => _calculate_statistics cfg ledger curve = Return default_statistics
  | _ :: _, [] => _calculate_statistics cfg ledger curve = Throw IndexError
  | _ :: _, _ :: _ =>
      if Qeq_bool (initial_capital cfg) 0
      then _calculate_statistics cfg ledger curve
           = Throw (Builtin ZeroDivisionError)
      else if existsb weekend_entry ledger
      then _calculate_statistics cfg ledger curve = Throw IndexError
      else exists stats,
             _calculate_statistics cfg ledger curve = Return stats
             /\ s_equity_curve stats = curve
  end.
Proof.
  destruct ledger as [|t ledger]; [reflexivity|].
  destruct curve as [|first rest]; [reflexivity|].
  unfold _calculate_statistics, truediv.
  destruct (Qeq_bool (initial_capital cfg) 0); [reflexivity|].
  cbn [lift obind].
  destruct (stats_by_day_cases (t :: ledger)) as [Hw Hn].
  destruct (existsb weekend_entry (t :: ledger)).
  - rewrite (Hw eq_refl). reflexivity.
  - destruct (Hn eq_refl) as (d & -> & _). cbn [obind].
    eexists. split; reflexivity.
Qed.

Lemma results_partition (ledger : list BacktestTrade) :
  (len (wins_of ledger) + len (losses_of ledger) + len (breakevens_of ledger)
   = len ledger)%Z.
Proof.
  unfold len, wins_of, losses_of, breakevens_of, has_result.
  induction ledger as [|t ledger IH]; [reflexivity|].
  cbn [filter]. destruct (bt_result t); cbn [List.length]; lia.
Qed.

Lemma wins_at_most (ledger : list BacktestTrade) :
  (0 <= len (wins_of ledger) <= len ledger)%Z.
Proof.
  pose proof (results_partition ledger). unfold len in *. lia.
Qed.

Lemma len_cons_pos {A : Type} (x : A) (l : list A) : (0 < len (x :: l))%Z.
Proof. unfold len. cbn [List.length]. lia. Qed.

(** X20: in the statistics of a ledger the winning, losing and breakeven
    trades add up to the total, which is the length of the ledger; the total
    P&L is the sum over the ledger; the win rate lies between 0 and 100.  For
    an empty ledger the win rate and the expectancy are 0; otherwise the win
    rate is [winning_trades / total_trades * 100] and the expectancy is
    [total_pnl / total_trades], computed in this order. *)
Theorem statistics_counts (cfg : BacktestConfig) (ledger : list BacktestTrade)
    (curve : list Q) (stats : BacktestStatistics) :
  _calculate_statistics cfg ledger curve = Return stats ->
  total_trades stats = len ledger
  /\ (winning_trades stats + losing_trades stats + breakeven_trades stats
      = total_trades stats)%Z
  /\ winning_trades stats = len (wins_of ledger)
  /\ 0 <= win_rate stats <= 100
  /\ s_total_pnl stats = total_pnl ledger
  /\ (ledger = [] -> win_rate stats = 0 /\ expectancy stats = 0)
  /\ (ledger <> [] ->
      win_rate stats
      = inject_Z (winning_trades stats) / inject_Z (total_trades stats) * 100
      /\ expectancy stats = s_total_pnl stats / inject_Z (total_trades stats)).
Proof.
  destruct ledger as [|t ledger].
  - cbn [_calculate_statistics]. intro H. injection H as <-.
    cbn [default_statistics total_trades winning_trades losing_trades
         breakeven_trades win_rate s_total_pnl expectancy].
    unfold total_pnl, Qsum, len. cbn [map fold_left List.length wins_of filter].
    repeat split; try reflexivity; try lra.
  - intro H.
    destruct (calculate_statistics_fields cfg t ledger curve stats H)
      as (first & rest & by_day & _ & _ & _ & ->).
    cbn [total_trades winning_trades losing_trades breakeven_trades win_rate
         s_total_pnl expectancy].
    pose proof (results_partition (t :: ledger)) as Hpart.
    pose proof (wins_at_most (t :: ledger)) as Hwins.
    pose proof (len_cons_pos t ledger) as Hpos.
    set (n := len (t :: ledger)) in *.
    set (w := len (wins_of (t :: ledger))) in *.
    assert (Hn : 0 < inject_Z n) by (apply inject_Z_pos; exact Hpos).
    assert (Hw0 : 0 <= inject_Z w).
    { change 0 with (inject_Z 0). rewrite <- Zle_Qle. lia. }
    assert (Hwn : inject_Z w <= inject_Z n) by (rewrite <- Zle_Qle; lia).
    unfold win_rate_of, expectancy_of, total_pnl. fold n w.
    destruct (Z.ltb_spec 0 n) as [_|C]; [|lia].
    split; [reflexivity|]. split; [exact Hpart|]. split; [reflexivity|].
    split; [|split; [reflexivity|split]].
    + split.
      * apply Qmult_le_0_compat; [|lra].
        apply Qle_shift_div_l; [exact Hn|lra].
      * setoid_replace 100 with (1 * 100) at 2 by ring.
        apply Qmult_le_compat_r; [|lra].
        apply Qle_shift_div_r; [exact Hn|lra].
    + intro C. discriminate C.
    + intros _. split; reflexivity.
Qed.

Lemma statistics_counts_witness :
  exists stats,
    _calculate_statistics default_config [Sample.win_100; Sample.loss_50]
      [10000; 10100; 10050] = Return stats
    /\ total_trades stats = 2%Z
    /\ win_rate stats = inject_Z 1 / inject_Z 2 * 100
    /\ expectancy stats = (0 + 100 + -50) / inject_Z 2.
Proof.
  destruct (_calculate_statistics default_config
              [Sample.win_100; Sample.loss_50] [10000; 10100; 10050])
    as [stats|e] eqn:E; [|vm_compute in E; discriminate E].
  destruct (statistics_counts default_config [Sample.win_100; Sample.loss_50]
              [10000; 10100; 10050] stats E)
    as (Hn & _ & Hw & _ & Hp & _ & Hrate).
  destruct Hrate as [Hr He]; [discriminate|].
  rewrite Hn, Hw in Hr. rewrite Hn, Hp in He.
  exists stats. split; [reflexivity|]. split; [exact Hn|].
  split; [exact Hr|exact He].
Defined.

(** ** Results and the sign of the P&L *)

Lemma close_trade_result (cfg : BacktestConfig) (trade : OpenTrade)
    (exit_time : datetime) (exit_price : Q) (exit_reason : ExitReason)
    (bars : Z) (mae mfe : Q) (t : BacktestTrade) :
  _close_trade cfg trade exit_time exit_price exit_reason bars mae mfe = Ok t ->
  result_by_pnl t.
Proof.
  unfold _close_trade.
  destruct (truediv _ (position_size trade)); [|discriminate].
  cbn [bind]. intro H. injection H as <-.
  unfold result_by_pnl. cbn [bt_result pnl].
  set (p := (_ - slippage cfg * 2)%Q).
  destruct (Qltb 0 p) eqn:E1; [q_props; exact E1|].
  destruct (Qltb p 0) eqn:E2; q_props; [exact E2|].
  apply Qle_antisym; assumption.
Qed.

Lemma run_results_by_pnl (cfg : BacktestConfig) (eng : Engine) (data : list Bar)
    (symbol : string) (final : RunState) :
  run_backtest cfg eng data symbol = Ok final ->
  Forall result_by_pnl (trades final).
Proof.
  intro Hrun.
  destruct (run_loop_keeps cfg eng data symbol
              (fun _ s => Forall result_by_pnl (trades s)) final)
    as (sf & Hsf & Hres & Hclose & Hdata).
  - intros i cur s s' _ Hs Hev.
    destruct Hev as [F1 F2 Ht Hc He _ _
                    |tr F1 F2 Ht Hc He _ _ _ _ _ _ _
                    |tr F1 F2 _ _ Ht Hc He _ _
                    |tr e trade _ _ _ Hct ->];
      try (rewrite Ht; exact Hs).
    cbn [book_trade trades]. apply Forall_app. split; [exact Hs|].
    constructor; [|constructor]. exact (close_trade_result _ _ _ _ _ _ _ _ _ Hct).
  - constructor.
  - exact Hrun.
  - unfold close_remaining in Hclose.
    destruct (if in_trade sf then current_trade sf else None) as [tr|];
      [|injection Hclose as <-; exact Hres].
    destruct (rev data) as [|last_bar rd]; [injection Hclose as <-; exact Hres|].
    destruct (_close_trade cfg tr (bar_date last_bar) (bar_close last_bar)
                TIME_EXIT _ (mae tr) (mfe tr)) as [trade|x] eqn:Hct;
      [|discriminate].
    cbn [bind] in Hclose. injection Hclose as <-. cbn [trades].
    apply Forall_app. split; [exact Hres|].
    constructor; [|constructor]. exact (close_trade_result _ _ _ _ _ _ _ _ _ Hct).
Qed.

Lemma Qsum_nonneg (l : list Q) : Forall (fun x => 0 <= x) l -> 0 <= Qsum l.
Proof.
  induction 1 as [|x l Hx _ IH]; [unfold Qsum; cbn; lra|].
  rewrite Qsum_cons. lra.
Qed.

Lemma Qsum_nonpos (l : list Q) : Forall (fun x => x <= 0) l -> Qsum l <= 0.
Proof.
  induction 1 as [|x l Hx _ IH]; [unfold Qsum; cbn; lra|].
  rewrite Qsum_cons. lra.
Qed.

Lemma Qsum_zero (l : list Q) : Forall (fun x => x == 0) l -> Qsum l == 0.
Proof.
  induction 1 as [|x l Hx _ IH]; [unfold Qsum; cbn; lra|].
  rewrite Qsum_cons. lra.
Qed.

Lemma Qmax_list_lower (x : Q) (l : list Q) : x <= Qmax_list x l.
Proof.
  unfold Qmax_list. revert x. induction l as [|y l IH]; intro x; [cbn; lra|].
  cbn [fold_left]. specialize (IH (Qmax2 x y)). unfold Qmax2 in *.
  destruct (Qltb x y) eqn:E; q_props; lra.
Qed.

Lemma Qmin_list_upper (x : Q) (l : list Q) : Qmin_list x l <= x.
Proof.
  unfold Qmin_list. revert x. induction l as [|y l IH]; intro x; [cbn; lra|].
  cbn [fold_left]. specialize (IH (Qmin2 x y)). unfold Qmin2 in *.
  destruct (Qltb y x) eqn:E; q_props; lra.
Qed.

Lemma pnl_by_result (ledger : list BacktestTrade) :
  Forall result_by_pnl ledger ->
  Forall (fun x => 0 < x) (map pnl (wins_of ledger))
  /\ Forall (fun x => x < 0) (map pnl (losses_of ledger))
  /\ Forall (fun x => x == 0) (map pnl (breakevens_of ledger)).
Proof.
  unfold wins_of, losses_of, breakevens_of, has_result, result_by_pnl.
  induction 1 as [|t ledger Ht _ (IH1 & IH2 & IH3)]; [repeat constructor|].
  cbn [filter]. destruct (bt_result t); cbn [map];
    (split; [|split]); try assumption; constructor; assumption.
Qed.

Lemma pnl_split_by_result (ledger : list BacktestTrade) :
  Qsum (map pnl ledger)
  == Qsum (map pnl (wins_of ledger)) + Qsum (map pnl (losses_of ledger))
     + Qsum (map pnl (breakevens_of ledger)).
Proof.
  unfold wins_of, losses_of, breakevens_of, has_result.
  induction ledger as [|t ledger IH]; [unfold Qsum; cbn; ring|].
  cbn [filter map]. rewrite Qsum_cons, IH.
  destruct (bt_result t); cbn [map]; rewrite Qsum_cons; ring.
Qed.

Lemma Forall_weaken_pos (l : list Q) :
  Forall (fun x => 0 < x) l -> Forall (fun x => 0 <= x) l.
Proof. apply Forall_impl. intros x Hx. lra. Qed.

Lemma Forall_weaken_neg (l : list Q) :
  Forall (fun x => x < 0) l -> Forall (fun x => x <= 0) l.
Proof. apply Forall_impl. intros x Hx. lra. Qed.

Lemma mean_of_wins (wins : list BacktestTrade) :
  Forall (fun x => 0 < x) (map pnl wins) ->
  0 <= fst (mean_and_extreme Qmax_list wins)
  /\ 0 <= snd (mean_and_extreme Qmax_list wins)
  /\ (wins <> [] -> 0 < snd (mean_and_extreme Qmax_list wins)).
Proof.
  intro H. unfold mean_and_extreme.
  destruct wins as [|t wins]; [cbn; repeat split; try lra; congruence|].
  cbn [map fst snd] in *.
  pose proof (Qsum_nonneg _ (Forall_weaken_pos _ H)) as Hs.
  pose proof (Qmax_list_lower (pnl t) (map pnl wins)) as Hm.
  pose proof (inject_Z_pos _ (len_cons_pos t wins)) as Hn.
  inversion H as [|x l Hx Hl]; subst.
  split; [apply Qle_shift_div_l; [exact Hn|lra]|].
  split; [lra|]. intros _. lra.
Qed.

Lemma mean_of_losses (losses : list BacktestTrade) :
  Forall (fun x => x < 0) (map pnl losses) ->
  fst (mean_and_extreme Qmin_list losses) <= 0
  /\ snd (mean_and_extreme Qmin_list losses) <= 0
  /\ (losses <> [] -> snd (mean_and_extreme Qmin_list losses) < 0).
Proof.
  intro H. unfold mean_and_extreme.
  destruct losses as [|t losses]; [cbn; repeat split; try lra; congruence|].
  cbn [map fst snd] in *.
  pose proof (Qsum_nonpos _ (Forall_weaken_neg _ H)) as Hs.
  pose proof (Qmin_list_upper (pnl t) (map pnl losses)) as Hm.
  pose proof (inject_Z_pos _ (len_cons_pos t losses)) as Hn.
  inversion H as [|x l Hx Hl]; subst.
  split; [apply Qle_shift_div_r; [exact Hn|lra]|].
  split; [lra|]. intros _. lra.
Qed.

Lemma profit_factor_by_result (ledger : list BacktestTrade) :
  Forall result_by_pnl ledger ->
  0 <= profit_factor_of ledger
  /\ (losses_of ledger = [] -> profit_factor_of ledger == Qsum (map pnl ledger))
  /\ (wins_of ledger = [] -> profit_factor_of ledger == 0).
Proof.
  intro H. destruct (pnl_by_result ledger H) as (Hw & Hl & Hb).
  pose proof (Qsum_nonneg _ (Forall_weaken_pos _ Hw)) as Hgp.
  pose proof (Qsum_zero _ Hb) as Hbe.
  pose proof (pnl_split_by_result ledger) as Hsplit.
  unfold profit_factor_of.
  set (gp := match wins_of ledger with
             | [] => 0
             | _ :: _ => Qsum (map pnl (wins_of ledger))
             end).
  assert (Egp : gp = Qsum (map pnl (wins_of ledger))).
  { unfold gp. destruct (wins_of ledger); reflexivity. }
  set (gl := match losses_of ledger with
             | [] => 1
             | _ :: _ => Qabs (Qsum (map pnl (losses_of ledger)))
             end).
  destruct (Qltb 0 gl) eqn:E; q_props.
  - split; [|split].
    + apply Qle_shift_div_l; [exact E|]. rewrite Egp. lra.
    + intro Hno. unfold gl in *. rewrite Hno in *. rewrite Egp, Hsplit, Hbe.
      unfold Qsum at 3. cbn [map fold_left]. field.
    + intro Hno. rewrite Egp, Hno. unfold Qsum. cbn [map fold_left].
      field. lra.
  - split; [lra|]. split; [|reflexivity].
    intro Hno. unfold gl in *. rewrite Hno in E. lra.
Qed.

(** X21: in a completed run every trade of the ledger is a WIN, a LOSS or
    BREAKEVEN as its P&L is positive, negative or zero.  So in the statistics
    of the run the average and the largest win are not negative, the average
    and the largest loss are not positive, and the profit factor is not
    negative; it is 0 without a winning trade, and without a losing trade it
    is the total P&L itself, the gross loss counting as 1. *)
Theorem run_statistics_signs (cfg : BacktestConfig) (eng : Engine)
    (data : list Bar) (symbol : string) (stats : BacktestStatistics)
    (final : RunState) :
  run_backtest_statistics cfg eng data symbol = Return (stats, final) ->
  Forall result_by_pnl (trades final)
  /\ 0 <= avg_win stats /\ 0 <= largest_win stats
  /\ avg_loss stats <= 0 /\ largest_loss stats <= 0
  /\ 0 <= profit_factor stats
  /\ (winning_trades stats = 0%Z -> profit_factor stats == 0)
  /\ (losing_trades stats = 0%Z -> profit_factor stats == s_total_pnl stats).
Proof.
  unfold run_backtest_statistics.
  destruct (run_backtest cfg eng data symbol) as [s|e] eqn:Hrun; [|discriminate].
  cbn [lift obind].
  destruct (_calculate_statistics cfg (trades s) (equity_curve s))
    as [st|e] eqn:Hst; [|discriminate].
  cbn [obind]. intro H. injection H as <- <-.
  pose proof (run_results_by_pnl cfg eng data symbol s Hrun) as Hres.
  split; [exact Hres|].
  destruct (trades s) as [|t ledger] eqn:El.
  - cbn [_calculate_statistics] in Hst. injection Hst as <-.
    cbn [default_statistics avg_win largest_win avg_loss largest_loss
         profit_factor winning_trades losing_trades s_total_pnl].
    repeat split; try lra; intros _; reflexivity.
  - destruct (calculate_statistics_fields cfg t ledger _ st Hst)
      as (first & rest & by_day & _ & _ & _ & ->).
    cbn [avg_win largest_win avg_loss largest_loss profit_factor
         winning_trades losing_trades s_total_pnl].
    destruct (pnl_by_result _ Hres) as (Hw & Hl & _).
    destruct (mean_of_wins _ Hw) as (W1 & W2 & _).
    destruct (mean_of_losses _ Hl) as (L1 & L2 & _).
    destruct (profit_factor_by_result _ Hres) as (P1 & P2 & P3).
    split; [exact W1|]. split; [exact W2|]. split; [exact L1|].
    split; [exact L2|]. split; [exact P1|]. split.
    + intro Hz. apply P3. unfold len in Hz.
      destruct (wins_of (t :: ledger)); [reflexivity|cbn [List.length] in Hz; lia].
    + intro Hz. apply P2. unfold len in Hz.
      destruct (losses_of (t :: ledger)); [reflexivity|cbn [List.length] in Hz; lia].
Qed.

Lemma run_statistics_signs_witness :
  exists stats final,
    run_backtest_statistics default_config (init DEFAULT_PO3) Sample.four_bars
      "NQ" = Return (stats, final)
    /\ trades final <> []
    /\ 0 <= profit_factor stats.
Proof.
  destruct (run_backtest_statistics default_config (init DEFAULT_PO3)
              Sample.four_bars "NQ") as [[stats final]|e] eqn:E;
    [|vm_compute in E; discriminate E].
  destruct (run_statistics_signs default_config (init DEFAULT_PO3)
              Sample.four_bars "NQ" stats final E) as (_ & _ & _ & _ & _ & Hp & _).
  exists stats, final. split; [reflexivity|]. split; [|exact Hp].
  vm_compute in E. injection E as _ <-. discriminate.
Defined.

(** ** The maximum drawdown *)

Lemma drawdown_loop_drawdowns (curve : list Q) :
  forall (i : Z) (peak : Q) (dds : list Q) (ds md : Z),
  exists p ds' md',
    drawdown_loop i curve (peak, dds, ds, md)
    = (p, dds ++ drawdowns_from peak curve, ds', md').
Proof.
  induction curve as [|e rest IH]; intros i peak dds ds md.
  - exists peak, ds, md. cbn [drawdown_loop drawdowns_from].
    rewrite app_nil_r. reflexivity.
  - cbn [drawdown_loop drawdowns_from].
    destruct (Qltb peak e).
    + destruct (IH (i + 1)%Z e (dds ++ [e - e]) i
                  (if (0 <? ds)%Z then Z.max md (i - ds) else md))
        as (p & ds' & md' & ->).
      exists p, ds', md'. rewrite <- app_assoc. reflexivity.
    + destruct (IH (i + 1)%Z peak (dds ++ [peak - e]) ds md)
        as (p & ds' & md' & ->).
      exists p, ds', md'. rewrite <- app_assoc. reflexivity.
Qed.

Lemma drawdowns_from_bound (curve : list Q) :
  forall (peak : Q) (j : nat) (b : Q),
    nth_error curve j = Some b ->
    exists d,
      nth_error (drawdowns_from peak curve) j = Some d
      /\ 0 <= d /\ peak - b <= d
      /\ forall i a, (i <= j)%nat -> nth_error curve i = Some a -> a - b <= d.
Proof.
  induction curve as [|e rest IH]; intros peak j b Hj.
  - destruct j; discriminate.
  - cbn [drawdowns_from].
    set (peak' := if Qltb peak e then e else peak).
    assert (Hp : peak <= peak' /\ e <= peak').
    { unfold peak'. destruct (Qltb peak e) eqn:E; q_props; lra. }
    destruct j as [|j].
    + cbn [nth_error] in Hj. injection Hj as <-.
      exists (peak' - e). split; [reflexivity|]. split; [lra|]. split; [lra|].
      intros i a Hi Ha. assert (i = 0%nat) by lia. subst i.
      cbn [nth_error] in Ha. injection Ha as <-. lra.
    + cbn [nth_error] in Hj.
      destruct (IH peak' j b Hj) as (d & Hd & H0 & Hpk & Hall).
      exists d. split; [exact Hd|]. split; [exact H0|]. split; [lra|].
      intros i a Hi Ha. destruct i as [|i].
      * cbn [nth_error] in Ha. injection Ha as <-. lra.
      * cbn [nth_error] in Ha. apply (Hall i a); [lia|exact Ha].
Qed.

Lemma drawdowns_from_attained (curve : list Q) :
  forall (peak : Q) (j : nat) (d : Q),
    nth_error (drawdowns_from peak curve) j = Some d ->
    exists b,
      nth_error curve j = Some b
      /\ (d == peak - b
          \/ exists i a, (i <= j)%nat /\ nth_error curve i = Some a /\ d == a - b).
Proof.
  induction curve as [|e rest IH]; intros peak j d Hj.
  - destruct j; discriminate.
  - cbn [drawdowns_from] in Hj.
    destruct j as [|j].
    + cbn [nth_error] in Hj. injection Hj as <-.
      exists e. split; [reflexivity|].
      destruct (Qltb peak e); [right|left; reflexivity].
      exists 0%nat, e. split; [lia|]. split; reflexivity.
    + cbn [nth_error] in Hj.
      destruct (IH _ j d Hj) as (b & Hb & Hd).
      exists b. split; [exact Hb|].
      destruct Hd as [Hd|(i & a & Hi & Ha & Hd)].
      * destruct (Qltb peak e); [right|left; exact Hd].
        exists 0%nat, e. split; [lia|]. split; [reflexivity|exact Hd].
      * right. exists (S i), a. split; [lia|]. split; assumption.
Qed.

Lemma Qmax_list_upper (x : Q) (l : list Q) :
  forall y, In y (x :: l) -> y <= Qmax_list x l.
Proof.
  unfold Qmax_list. revert x. induction l as [|z l IH]; intros x y Hy.
  - destruct Hy as [<-|[]]. cbn. lra.
  - cbn [fold_left].
    assert (Hm : x <= Qmax2 x z /\ z <= Qmax2 x z).
    { unfold Qmax2. destruct (Qltb x z) eqn:E; q_props; lra. }
    destruct Hy as [<-|[<-|Hy]].
    + pose proof (IH (Qmax2 x z) (Qmax2 x z) (or_introl eq_refl)). lra.
    + pose proof (IH (Qmax2 x z) (Qmax2 x z) (or_introl eq_refl)). lra.
    + apply IH. right. exact Hy.
Qed.

Lemma Qmax_list_in (x : Q) (l : list Q) : In (Qmax_list x l) (x :: l).
Proof.
  unfold Qmax_list. revert x. induction l as [|z l IH]; intro x.
  - left. reflexivity.
  - cbn [fold_left]. destruct (IH (Qmax2 x z)) as [H|H].
    + rewrite <- H. unfold Qmax2. destruct (Qltb x z).
      * right. left. reflexivity.
      * left. reflexivity.
    + right. right. exact H.
Qed.

(** X22: in the statistics of a non-empty ledger, [max_drawdown] is the
    largest decline of the equity curve: no later entry of the curve lies
    further below an earlier one, and some pair of entries attains it; it is
    0 at least.  [max_drawdown_pct] is its percentage of the initial capital,
    not of the peak. *)
Theorem max_drawdown_is_largest_decline (cfg : BacktestConfig)
    (ledger : list BacktestTrade) (curve : list Q) (stats : BacktestStatistics) :
  ledger <> [] ->
  _calculate_statistics cfg ledger curve = Return stats ->
  0 <= max_drawdown stats
  /\ (forall i j a b,
        (i <= j)%nat -> nth_error curve i = Some a -> nth_error curve j = Some b ->
        a - b <= max_drawdown stats)
  /\ (exists i j a b,
        (i <= j)%nat /\ nth_error curve i = Some a /\ nth_error curve j = Some b
        /\ max_drawdown stats == a - b)
  /\ max_drawdown_pct stats == max_drawdown stats / initial_capital cfg * 100.
Proof.
  intros Hne Hst. destruct ledger as [|t ledger]; [contradiction|].
  destruct (calculate_statistics_fields cfg t ledger curve stats Hst)
    as (first & rest & by_day & -> & _ & _ & ->).
  cbn [max_drawdown max_drawdown_pct].
  unfold drawdowns_of.
  destruct (drawdown_loop_drawdowns (first :: rest) 0 first [] 0 0)
    as (p & ds' & md' & ->).
  cbn [fst app].
  set (dds := drawdowns_from first (first :: rest)).
  assert (Hex : exists d ds, dds = d :: ds).
  { unfold dds. cbn [drawdowns_from]. eexists. eexists. reflexivity. }
  destruct Hex as (d0 & ds & Edds). rewrite Edds. cbn [max_drawdown_of].
  pose proof (Qmax_list_upper d0 ds) as Hup.
  pose proof (Qmax_list_in d0 ds) as Hin.
  rewrite <- Edds in Hup, Hin.
  split; [|split; [|split; [|reflexivity]]].
  - destruct (drawdowns_from_bound (first :: rest) first 0 first eq_refl)
      as (d & Hd & H0 & _).
    fold dds in Hd. apply nth_error_In in Hd. specialize (Hup d Hd). lra.
  - intros i j a b Hij Ha Hb.
    destruct (drawdowns_from_bound (first :: rest) first j b Hb)
      as (d & Hd & _ & _ & Hall).
    fold dds in Hd. apply nth_error_In in Hd. specialize (Hup d Hd).
    specialize (Hall i a Hij Ha). lra.
  - apply In_nth_error in Hin. destruct Hin as (j & Hj).
    destruct (drawdowns_from_attained (first :: rest) first j _ Hj)
      as (b & Hb & [Hd|(i & a & Hi & Ha & Hd)]).
    + exists 0%nat, j, first, b. split; [lia|]. split; [reflexivity|].
      split; [exact Hb|exact Hd].
    + exists i, j, a, b. split; [exact Hi|]. split; [exact Ha|].
      split; [exact Hb|exact Hd].
Qed.

Lemma max_drawdown_is_largest_decline_witness :
  exists stats,
    _calculate_statistics default_config [Sample.win_100; Sample.loss_50]
      [10000; 10100; 10050] = Return stats
    /\ 10100 - 10050 <= max_drawdown stats.
Proof.
  destruct (_calculate_statistics default_config
              [Sample.win_100; Sample.loss_50] [10000; 10100; 10050])
    as [stats|e] eqn:E; [|vm_compute in E; discriminate E].
  assert (Hne : [Sample.win_100; Sample.loss_50] <> []) by discriminate.
  destruct (max_drawdown_is_largest_decline default_config
              [Sample.win_100; Sample.loss_50] [10000; 10100; 10050] stats
              Hne E) as (_ & Hall & _).
  exists stats. split; [reflexivity|].
  apply (Hall 1%nat 2%nat); [lia|reflexivity|reflexivity].
Defined.

(** ** A run with its statistics *)

(** X23: when a run returns its statistics, they count the trades of its
    ledger.  Without a trade they are the default statistics, with an empty
    equity curve and nothing but zeros, and the capital is the initial one.
    With a trade the initial capital is not 0, no trade was entered on a
    Saturday or a Sunday, the equity curve of the statistics is that of the
    run, one entry longer than the ledger, and its last entry is the final
    capital. *)
Theorem run_statistics_accounts (cfg : BacktestConfig) (eng : Engine)
    (data : list Bar) (symbol : string) (stats : BacktestStatistics)
    (final : RunState) :
  run_backtest_statistics cfg eng data symbol = Return (stats, final) ->
  run_backtest cfg eng data symbol = Ok final
  /\ total_trades stats = len (trades final)
  /\ (trades final = [] ->
      stats = default_statistics /\ capital final = initial_capital cfg)
  /\ (trades final <> [] ->
      ~ initial_capital cfg == 0
      /\ existsb weekend_entry (trades final) = false
      /\ s_equity_curve stats = equity_curve final
      /\ len (s_equity_curve stats) = (total_trades stats + 1)%Z
      /\ capital final = last (s_equity_curve stats) (initial_capital cfg)).
Proof.
  unfold run_backtest_statistics.
  destruct (run_backtest cfg eng data symbol) as [s|e] eqn:Hrun; [|discriminate].
  cbn [lift obind].
  destruct (_calculate_statistics cfg (trades s) (equity_curve s))
    as [st|e] eqn:Hst; [|discriminate].
  cbn [obind]. intro H. injection H as <- <-.
  split; [reflexivity|].
  destruct (run_accounts_agree cfg eng data symbol s Hrun) as [Hcurve Hcap].
  destruct (trades s) as [|t ledger] eqn:El.
  - cbn [_calculate_statistics] in Hst. injection Hst as <-.
    split; [reflexivity|]. split; [|intro C; contradiction].
    intros _. split; [reflexivity|]. rewrite Hcap. reflexivity.
  - destruct (calculate_statistics_fields cfg t ledger _ st Hst)
      as (first & rest & by_day & Ecurve & Hic & Hday & ->).
    cbn [total_trades s_equity_curve s_total_pnl].
    split; [reflexivity|]. split; [discriminate|]. intros _.
    split; [exact Hic|]. split.
    + destruct (stats_by_day_cases (t :: ledger)) as [Hw _].
      destruct (existsb weekend_entry (t :: ledger)); [|reflexivity].
      rewrite (Hw eq_refl) in Hday. discriminate.
    + split; [reflexivity|]. split.
      * rewrite Hcurve. unfold len. cbn [List.length].
        rewrite running_capital_length, length_map. cbn [List.length]. lia.
      * rewrite Hcap, Hcurve. symmetry. apply last_cons_default.
Qed.

Lemma run_statistics_accounts_witness :
  exists stats final,
    run_backtest_statistics default_config (init DEFAULT_PO3) Sample.four_bars
      "NQ" = Return (stats, final)
    /\ total_trades stats = len (trades final).
Proof.
  destruct (run_backtest_statistics default_config (init DEFAULT_PO3)
              Sample.four_bars "NQ") as [[stats final]|e] eqn:E;
    [|vm_compute in E; discriminate E].
  destruct (run_statistics_accounts default_config (init DEFAULT_PO3)
              Sample.four_bars "NQ" stats final E) as (_ & Hn & _).
  exists stats, final. split; [reflexivity|exact Hn].
Defined.

(** ** Monte Carlo *)

(** X24: a Monte Carlo simulation of an empty ledger returns the empty
    report, whatever the number of simulations.  On a non-empty ledger it
    raises ValueError for a number of simulations of 0 or below; otherwise it
    returns a report with one final capital and one maximal drawdown for each
    simulation, those of the replay of the order drawn for it, and
    [risk_of_ruin] is the number of final capitals at or below zero, divided
    by the number of simulations and multiplied by 100, computed in this
    order on doubles. *)
Theorem monte_carlo_outcome (initial_capital : float) (pnls : list float)
    (permutation : nat -> list float -> list float) (num_simulations : Z) :
  match pnls with
  | [] =>
      Doubles.monte_carlo initial_capital pnls permutation num_simulations
      = Ok None
  | _ :: _ =>
      if (num_simulations <=? 0)%Z
      then Doubles.monte_carlo initial_capital pnls permutation num_simulations
           = Raise ValueError
      else exists mc,
             Doubles.monte_carlo initial_capital pnls permutation
               num_simulations = Ok (Some mc)
             /\ len (Doubles.final_capitals mc) = num_simulations
             /\ len (Doubles.max_drawdowns mc) = num_simulations
             /\ Doubles.final_capitals mc
                = map (fun k => fst (fst (Doubles.replay initial_capital
                                            (permutation k pnls))))
                    (seq 0 (Z.to_nat num_simulations))
             /\ Doubles.max_drawdowns mc
                = map (fun k => snd (Doubles.replay initial_capital
                                       (permutation k pnls)))
                    (seq 0 (Z.to_nat num_simulations))
             /\ Doubles.risk_of_ruin mc
                = PrimFloat.mul
                    (PrimFloat.div
                       (Doubles.of_Z
                          (len (filter (fun fc => PrimFloat.leb fc 0)
                                  (Doubles.final_capitals mc))))
                       (Doubles.of_Z num_simulations))
                    100
  end.
Proof.
  destruct pnls as [|p pnls]; [reflexivity|].
  destruct (Z.leb_spec num_simulations 0) as [H|H].
  - unfold Doubles.monte_carlo.
    replace (Z.to_nat num_simulations) with 0%nat by lia. reflexivity.
  - unfold Doubles.monte_carlo. rewrite !map_map. cbv beta.
    remember (map (fun k => fst (fst (Doubles.replay initial_capital
                                        (permutation k (p :: pnls)))))
                (seq 0 (Z.to_nat num_simulations))) as finals eqn:Ef.
    remember (map (fun k => snd (Doubles.replay initial_capital
                                   (permutation k (p :: pnls))))
                (seq 0 (Z.to_nat num_simulations))) as drawdowns eqn:Ed.
    assert (Hf : len finals = num_simulations).
    { rewrite Ef. unfold len. rewrite length_map, length_seq. lia. }
    assert (Hd : len drawdowns = num_simulations).
    { rewrite Ed. unfold len. rewrite length_map, length_seq. lia. }
    destruct finals as [|fc rest].
    { unfold len in Hf. cbn [List.length] in Hf. lia. }
    eexists. split; [reflexivity|].
    cbn [Doubles.final_capitals Doubles.max_drawdowns Doubles.risk_of_ruin].
    repeat split; assumption || reflexivity.
Qed.

(** With an initial capital of 10000 and the P&Ls -10000.3 and 0.3, the
    replay in ledger order ends above zero and the replay in the reverse
    order ends at zero: of two simulations, one is ruined. *)
Example ruin_depends_on_order :
  exists up down drawdowns,
    Doubles.monte_carlo (Doubles.of_Z 10000)
      [Doubles.dec (-100003) 10; Doubles.dec 3 10]
      Doubles.ledger_then_reverse 2
    = Ok (Some (Doubles.mkMonteCarlo [up; down] drawdowns (Doubles.of_Z 50)))
    /\ PrimFloat.ltb 0 up = true
    /\ PrimFloat.eqb down 0 = true.
Proof.
  eexists. eexists. eexists. split; [vm_compute; reflexivity|].
  split; vm_compute; reflexivity.
Qed.

(** ** The levels endpoint *)

(** X25: for a price from 100 on and a bracket size other than 0, the
    levels endpoint asked for the number of the bracket that the engine
    computes for the price answers with the bounds and the size of that
    bracket and lists its 21 levels in the same order, with the same prices,
    ICT names and layers. *)
Theorem api_levels_match_engine (self : Engine) (price : Q) (po3_size : Z)
    (r : PO3Range) :
  100 <= price ->
  po3_size <> 0%Z ->
  calculate_range self price (Some po3_size) = Ok r ->
  let answer := api_levels (range_num r) po3_size in
  api_po3_size answer = size r
  /\ inject_Z (api_range_low answer) == low r
  /\ inject_Z (api_range_high answer) == high r
  /\ Forall2 (fun al l =>
                api_level al = level_pct l
                /\ api_price al == level_price l
                /\ api_ict_name al = ict_name l
                /\ api_layer al = level_layer l)
             (api_levels_list answer) (levels r).
Proof.
  intros Hp Hs Hr. cbn zeta.
  unfold calculate_range in Hr.
  rewrite (po3_or_default_Some self po3_size Hs) in Hr.
  destruct (Z.eqb_spec po3_size 0) as [C|_]; [contradiction|].
  apply Qltb_false in Hp. rewrite Hp in Hr. injection Hr as <-.
  cbn [range_num size low high levels].
  unfold api_levels.
  cbn [api_po3_size api_range_low api_range_high api_levels_list].
  split; [reflexivity|]. split; [reflexivity|]. split; [reflexivity|].
  unfold _calculate_levels, get_level_price, GOLDBACH_LEVELS.
  cbn [map low size api_level api_price api_ict_name api_layer].
  repeat (constructor;
          [cbn [api_level api_price api_ict_name api_layer level_pct level_price
                ict_name level_layer info_ict info_layer];
           split; [reflexivity|split; [reflexivity|split; reflexivity]]|]).
  constructor.
Qed.

Lemma api_levels_match_engine_witness :
  exists r,
    calculate_range (init 729) 21500 (Some 729%Z) = Ok r
    /\ inject_Z (api_range_low (api_levels (range_num r) 729)) == low r.
Proof.
  pose (r := mkPO3Range 29 21141 21870 729
               (_calculate_levels (mkPO3Range 29 21141 21870 729 []))).
  destruct (api_levels_match_engine (init 729) 21500 729 r)
    as (_ & Hlow & _).
  - discriminate.
  - discriminate.
  - reflexivity.
  - exists r. split; [reflexivity|exact Hlow].
Defined.

(** ** Walk-forward analysis *)

(** X26: the robustness score lies between 0 and 100.  It is 0 when the
    in-sample win rate is 0, and 100 when the in-sample win rate and profit
    factor are positive and the out-of-sample ones are no smaller. *)
Theorem robustness_bounds (in_stats out_stats : BacktestStatistics) :
  0 <= _calculate_robustness in_stats out_stats <= 100
  /\ (win_rate in_stats == 0 -> _calculate_robustness in_stats out_stats = 0)
  /\ (0 < win_rate in_stats -> 0 < profit_factor in_stats ->
      win_rate in_stats <= win_rate out_stats ->
      profit_factor in_stats <= profit_factor out_stats ->
      _calculate_robustness in_stats out_stats == 100).
Proof.
  unfold _calculate_robustness.
  split; [|split].
  - destruct (Qeq_bool (win_rate in_stats) 0); [lra|].
    unfold Qmin2, Qmax2.
    set (score := (_ * 50 + _ * 50)%Q).
    destruct (Qltb 0 score) eqn:E1.
    + destruct (Qltb score 100) eqn:E2; q_props; lra.
    + destruct (Qltb 0 100) eqn:E2; q_props; lra.
  - intro H. apply Qeq_bool_iff in H. rewrite H. reflexivity.
  - intros Hw Hp Hw' Hp'.
    destruct (Qeq_bool (win_rate in_stats) 0) eqn:E.
    { apply Qeq_bool_iff in E. lra. }
    destruct (Qltb 0 (win_rate in_stats)) eqn:E1; q_props; [|lra].
    destruct (Qltb 0 (profit_factor in_stats)) eqn:E2; q_props; [|lra].
    assert (H1 : 1 <= win_rate out_stats / win_rate in_stats).
    { apply Qle_shift_div_l; [exact Hw|lra]. }
    assert (H2 : 1 <= profit_factor out_stats / profit_factor in_stats).
    { apply Qle_shift_div_l; [exact Hp|lra]. }
    unfold Qmin2, Qmax2.
    set (score := (_ * 50 + _ * 50)%Q).
    assert (Hs : 100 <= score) by (unfold score; lra).
    destruct (Qltb 0 score) eqn:E3; q_props; [|lra].
    destruct (Qltb score 100) eqn:E4; q_props; [lra|reflexivity].
Qed.

Lemma firstn_plus {A : Type} (p q : nat) (l : list A) :
  firstn (p + q) l = firstn p l ++ firstn q (skipn p l).
Proof.
  revert l. induction p as [|p IH]; intro l; [reflexivity|].
  destruct l as [|x l]; [cbn; rewrite firstn_nil; reflexivity|].
  cbn [Nat.add firstn skipn app]. rewrite IH. reflexivity.
Qed.

Lemma iloc_inner {A : Type} (data : list A) (a b : Z) :
  (0 <= a <= b)%Z -> (b <= len data)%Z ->
  iloc data a b = firstn (Z.to_nat (b - a)) (skipn (Z.to_nat a) data).
Proof.
  intros Hab Hb. unfold iloc, slice_index.
  destruct (Z.ltb_spec a 0); [lia|]. destruct (Z.ltb_spec b 0); [lia|].
  rewrite !Z.min_l by lia. reflexivity.
Qed.

Lemma len_firstn_skipn {A : Type} (data : list A) (a k : Z) :
  (0 <= a)%Z -> (0 <= k)%Z -> (a + k <= len data)%Z ->
  len (firstn (Z.to_nat k) (skipn (Z.to_nat a) data)) = k.
Proof.
  intros Ha Hk Hlen. unfold len in *.
  rewrite length_firstn, length_skipn. lia.
Qed.

Lemma py_int_fraction (n : Z) (pct : Q) :
  (0 <= n)%Z -> 0 <= pct <= 1 -> (0 <= py_int (inject_Z n * pct) <= n)%Z.
Proof.
  intros Hn [H0 H1].
  assert (Hq : 0 <= inject_Z n).
  { change 0 with (inject_Z 0). rewrite <- Zle_Qle. exact Hn. }
  assert (Hlo : 0 <= inject_Z n * pct) by (apply Qmult_le_0_compat; assumption).
  assert (Hhi : inject_Z n * pct <= inject_Z n).
  { setoid_replace (inject_Z n) with (inject_Z n * 1) at 2 by ring.
    rewrite (Qmult_comm (inject_Z n) pct), (Qmult_comm (inject_Z n) 1).
    apply Qmult_le_compat_r; assumption. }
  rewrite (py_int_nonneg _ Hlo). split.
  - change 0%Z with (Qfloor 0). apply Qfloor_resp_le. exact Hlo.
  - pose proof (Qfloor_resp_le _ _ Hhi) as Hf.
    rewrite Qfloor_Z in Hf. exact Hf.
Qed.

(** X27: with at least one fold, the two samples of a fold split its block
    of bars, whatever length between 0 and the fold size the in-sample part is
    given: in-sample followed by out-of-sample is the block of
    [len(data) // num_folds] consecutive bars that starts at the fold number
    times that size, and the in-sample part has the given length.  The bars
    after the last block, fewer than [num_folds], belong to no fold.  For a
    share between 0 and 1 the length [int(fold_size * in_sample_pct)] lies
    between 0 and the fold size. *)
Theorem fold_samples_partition (data : list Bar) (num_folds fold : Z)
    (in_sample_len : Z) :
  (1 <= num_folds)%Z ->
  (0 <= fold < num_folds)%Z ->
  (0 <= in_sample_len <= len data / num_folds)%Z ->
  let fold_size := (len data / num_folds)%Z in
  let samples := fold_slices data fold_size fold in_sample_len in
  (fst samples ++ snd samples
   = firstn (Z.to_nat fold_size) (skipn (Z.to_nat (fold * fold_size)) data))%list
  /\ len (fst samples) = in_sample_len
  /\ (len (fst samples) + len (snd samples))%Z = fold_size
  /\ (0 <= len data - num_folds * fold_size < num_folds)%Z
  /\ forall in_sample_pct,
       0 <= in_sample_pct <= 1 ->
       fold_samples data in_sample_pct fold_size fold
       = fold_slices data fold_size fold
           (py_int (inject_Z fold_size * in_sample_pct))
       /\ (0 <= py_int (inject_Z fold_size * in_sample_pct) <= fold_size)%Z.
Proof.
  intros Hn Hfold Hm. cbn zeta.
  set (fs := (len data / num_folds)%Z) in *.
  assert (Hfs : (0 <= fs)%Z).
  { unfold fs. apply Z.div_pos; [unfold len|]; lia. }
  assert (Hblocks : (num_folds * fs <= len data)%Z).
  { unfold fs. apply Z.mul_div_le. lia. }
  assert (Hrest : (len data - num_folds * fs < num_folds)%Z).
  { unfold fs. pose proof (Z.mod_pos_bound (len data) num_folds).
    rewrite Z.mod_eq in H by lia. lia. }
  set (m := in_sample_len) in *.
  assert (Ha : (0 <= fold * fs)%Z) by nia.
  assert (Hc : (fold * fs + fs <= len data)%Z) by nia.
  unfold fold_slices. cbn [fst snd].
  rewrite (iloc_inner data (fold * fs) (fold * fs + m)) by lia.
  rewrite (iloc_inner data (fold * fs + m) (fold * fs + fs)) by lia.
  replace (fold * fs + m - fold * fs)%Z with m by lia.
  replace (fold * fs + fs - (fold * fs + m))%Z with (fs - m)%Z by lia.
  split; [|split; [|split; [|split]]].
  - replace (Z.to_nat fs) with (Z.to_nat m + Z.to_nat (fs - m))%nat by lia.
    rewrite firstn_plus, skipn_skipn.
    replace (Z.to_nat m + Z.to_nat (fold * fs))%nat
      with (Z.to_nat (fold * fs + m)) by lia.
    reflexivity.
  - apply len_firstn_skipn; lia.
  - rewrite !len_firstn_skipn by lia. lia.
  - lia.
  - intros pct Hpct. split; [reflexivity|].
    apply py_int_fraction; assumption.
Qed.

Lemma fold_samples_partition_witness :
  len (fst (fold_slices Sample.four_bars (len Sample.four_bars / 2) 1 1)) = 1%Z
  /\ (len (fst (fold_slices Sample.four_bars (len Sample.four_bars / 2) 1 1))
      + len (snd (fold_slices Sample.four_bars (len Sample.four_bars / 2) 1 1))
      = 2)%Z.
Proof.
  destruct (fold_samples_partition Sample.four_bars 2 1 1)
    as (_ & Hlen & Hsum & _).
  - lia.
  - lia.
  - vm_compute. split; discriminate.
  - split; [exact Hlen|exact Hsum].
Defined.

(** On doubles the in-sample part of a fold of 90 bars with a share of 0.7
    is 62 bars long: the product is 62.99999999999999. *)
Example in_sample_size_rounds_down :
  Doubles.in_sample_size 90 (Doubles.dec 7 10) = Ok 62%Z
  /\ py_int (inject_Z 90 * (7 # 10)) = 63%Z.
Proof. split; vm_compute; reflexivity. Qed.

Lemma run_statistics_no_bars (cfg : BacktestConfig) (eng : Engine)
    (symbol : string) :
  run_backtest_statistics cfg eng [] symbol
  = Return (default_statistics, start_state cfg eng).
Proof. reflexivity. Qed.

Lemma fold_samples_sizeless (data : list Bar) (in_sample_pct : Q) (fold : Z) :
  fold_samples data in_sample_pct 0 fold = ([], []).
Proof.
  unfold fold_samples, fold_slices. rewrite Z.mul_0_r.
  assert (E : py_int (inject_Z 0 * in_sample_pct) = 0%Z).
  { apply py_int_inject_Z. ring. }
  rewrite E. cbn [Z.add]. unfold iloc, slice_index. cbn [Z.ltb Z.compare].
  rewrite Z.min_l by (unfold len; lia). reflexivity.
Qed.

Lemma folds_loop_sizeless (cfg : BacktestConfig) (data : list Bar)
    (in_sample_pct : Q) (folds : list Z) (eng : Engine) :
  exists reports,
    folds_loop cfg data in_sample_pct 0 folds eng = Return (reports, eng)
    /\ List.length reports = List.length folds
    /\ Forall (fun r =>
                 robustness_score r = 0
                 /\ in_sample r = report_sample [] default_statistics
                 /\ out_of_sample r = report_sample [] default_statistics)
              reports.
Proof.
  induction folds as [|fold rest (reports & IH & Hlen & Hall)].
  - exists []. repeat split. constructor.
  - cbn [folds_loop]. rewrite fold_samples_sizeless.
    rewrite run_statistics_no_bars. cbn [obind snd fst engine start_state].
    rewrite run_statistics_no_bars. cbn [obind snd fst engine start_state].
    rewrite IH. cbn [obind fst snd].
    eexists. split; [reflexivity|]. split.
    + cbn [List.length]. rewrite Hlen. reflexivity.
    + constructor; [|exact Hall].
      cbn [robustness_score in_sample out_of_sample]. repeat split.
Qed.

Lemma folds_loop_numbers (cfg : BacktestConfig) (data : list Bar)
    (in_sample_pct : Q) (fold_size : Z) (folds : list Z) :
  forall (eng : Engine) (reports : list FoldReport) (eng' : Engine),
    folds_loop cfg data in_sample_pct fold_size folds eng
    = Return (reports, eng') ->
    map fold_number reports = map (fun fold => (fold + 1)%Z) folds.
Proof.
  induction folds as [|fold rest IH]; intros eng reports eng' H.
  - cbn [folds_loop] in H. injection H as <- _. reflexivity.
  - cbn [folds_loop] in H.
    destruct (fold_samples data in_sample_pct fold_size fold) as [ins outs].
    destruct (run_backtest_statistics cfg eng ins "NQ") as [in_run|e];
      [|discriminate].
    cbn [obind] in H.
    destruct (run_backtest_statistics cfg (engine (snd in_run)) outs "NQ")
      as [out_run|e]; [|discriminate].
    cbn [obind] in H.
    destruct (folds_loop cfg data in_sample_pct fold_size rest
                (engine (snd out_run))) as [[later eng1]|e] eqn:El;
      [|discriminate].
    cbn [obind fst snd] in H. injection H as <- _.
    cbn [map fold_number]. rewrite (IH _ _ _ El). reflexivity.
Qed.

Lemma fold_numbers_from_one (n : nat) :
  map (fun fold => (fold + 1)%Z) (map Z.of_nat (seq 0 n))
  = map Z.of_nat (seq 1 n).
Proof.
  rewrite map_map, <- seq_shift, map_map.
  apply map_ext. intro k. lia.
Qed.

(** X28: a walk-forward analysis with 0 folds raises ZeroDivisionError and
    one with a negative number of folds returns no result.  Whenever it
    returns, the results are numbered 1, 2, ... up to the number of folds.
    With more folds than bars every sample is empty: the analysis returns one
    result per fold, each with no dates, no trades and a robustness of 0, and
    leaves the engine as it was. *)
Theorem walk_forward_outcome (cfg : BacktestConfig) (eng : Engine)
    (data : list Bar) (in_sample_pct : Q) (num_folds : Z) :
  (num_folds = 0%Z ->
   walk_forward cfg eng data in_sample_pct num_folds
   = Throw (Builtin ZeroDivisionError))
  /\ ((num_folds < 0)%Z ->
      walk_forward cfg eng data in_sample_pct num_folds = Return ([], eng))
  /\ (forall reports eng',
        walk_forward cfg eng data in_sample_pct num_folds
        = Return (reports, eng') ->
        map fold_number reports = map Z.of_nat (seq 1 (Z.to_nat num_folds)))
  /\ ((len data < num_folds)%Z ->
      exists reports,
        walk_forward cfg eng data in_sample_pct num_folds
        = Return (reports, eng)
        /\ len reports = num_folds
        /\ Forall (fun r =>
                     robustness_score r = 0
                     /\ in_sample r = mkSampleReport None None 0 0 0
                     /\ out_of_sample r = mkSampleReport None None 0 0 0)
                  reports).
Proof.
  unfold walk_forward. split; [|split; [|split]].
  - intros ->. reflexivity.
  - intro H. destruct (Z.eqb_spec num_folds 0); [lia|].
    replace (Z.to_nat num_folds) with 0%nat by lia. reflexivity.
  - intros reports eng' H.
    destruct (Z.eqb_spec num_folds 0); [discriminate|].
    rewrite (folds_loop_numbers _ _ _ _ _ _ _ _ H).
    apply fold_numbers_from_one.
  - intro H. assert (Hpos : (0 < num_folds)%Z) by (unfold len in H; lia).
    destruct (Z.eqb_spec num_folds 0); [lia|].
    rewrite Z.div_small by (unfold len in *; lia).
    destruct (folds_loop_sizeless cfg data in_sample_pct
                (map Z.of_nat (seq 0 (Z.to_nat num_folds))) eng)
      as (reports & -> & Hlen & Hall).
    exists reports. split; [reflexivity|]. split; [|exact Hall].
    unfold len. rewrite Hlen, length_map, length_seq. lia.
Qed.

(** ** Price alerts *)

Lemma check_triggered (a : PriceAlert) (price : Q) :
  triggered a = true -> check a price = false.
Proof.
  intro H. unfold check. rewrite H, orb_true_r. reflexivity.
Qed.

Lemma check_true (a : PriceAlert) (price : Q) :
  check a price = true ->
  enabled a = true /\ triggered a = false
  /\ (condition a = "above"%string /\ alert_price a < price
      \/ condition a = "below"%string /\ price < alert_price a).
Proof.
  unfold check.
  destruct (enabled a); destruct (triggered a); cbn [negb orb];
    try discriminate.
  destruct (String.eqb_spec (condition a) "above") as [Ea|Ea]; cbn [andb].
  - destruct (Qltb (alert_price a) price) eqn:E1.
    + intros _. q_props. repeat split. left. split; assumption.
    + destruct (String.eqb_spec (condition a) "below") as [Eb|Eb];
        [rewrite Ea in Eb; discriminate|]. cbn [andb]. discriminate.
  - destruct (String.eqb_spec (condition a) "below") as [Eb|Eb]; cbn [andb];
      [|discriminate].
    destruct (Qltb price (alert_price a)) eqn:E2; [|discriminate].
    intros _. q_props. repeat split. right. split; assumption.
Qed.

(** X29: a call of [check_alerts] keeps the ids of the alerts in place.  The
    alerts it hands on are alerts of the symbol asked for, enabled, marked as
    triggered, and with a condition "above" or "below" that the price meets
    strictly, so an alert with the condition "cross" never fires.  Every
    firing uses up one alert that was not triggered before, and a second call
    with the same symbol and price fires nothing and changes nothing. *)
Theorem check_alerts_fires_once (alerts : Alerts) (symbol : string) (price : Q) :
  let alerts' := fst (check_alerts alerts symbol price) in
  let fired := snd (check_alerts alerts symbol price) in
  map fst alerts' = map fst alerts
  /\ Forall (fun a =>
               alert_symbol a = symbol /\ enabled a = true
               /\ triggered a = true
               /\ (condition a = "above"%string /\ alert_price a < price
                   \/ condition a = "below"%string /\ price < alert_price a))
            fired
  /\ (untriggered alerts' + len fired)%Z = untriggered alerts
  /\ check_alerts alerts' symbol price = (alerts', []).
Proof.
  cbn zeta. unfold untriggered, len.
  induction alerts as [|[id a] rest (IH1 & IH2 & IH3 & IH4)].
  - cbn. repeat split. constructor.
  - cbn [check_alerts].
    destruct (check_alerts rest symbol price) as [rest' fired'] eqn:Er.
    cbn [fst snd] in IH1, IH2, IH3, IH4.
    destruct (String.eqb_spec (alert_symbol a) symbol) as [Es|Es]; cbn [negb].
    + destruct (check a price) eqn:Ec.
      * destruct (check_true a price Ec) as (Hen & Htr & Hcond).
        cbn [fst snd map filter set_triggered triggered negb List.length].
        rewrite Htr. cbn [negb List.length].
        split; [rewrite IH1; reflexivity|]. split.
        { constructor; [|exact IH2].
          cbn [alert_symbol enabled triggered condition alert_price].
          repeat split; assumption. }
        split; [lia|].
        cbn [check_alerts]. rewrite IH4.
        cbn [alert_symbol set_triggered].
        destruct (String.eqb_spec (alert_symbol a) symbol) as [_|C];
          [|contradiction].
        cbn [negb]. rewrite check_triggered by reflexivity. reflexivity.
      * cbn [fst snd map filter List.length].
        split; [rewrite IH1; reflexivity|]. split; [exact IH2|].
        split.
        { destruct (negb (triggered a)); cbn [List.length]; lia. }
        cbn [check_alerts]. rewrite IH4.
        destruct (String.eqb_spec (alert_symbol a) symbol) as [_|C];
          [|contradiction].
        cbn [negb]. rewrite Ec. reflexivity.
    + cbn [fst snd map filter List.length].
      split; [rewrite IH1; reflexivity|]. split; [exact IH2|].
      split.
      { destruct (negb (triggered a)); cbn [List.length]; lia. }
      cbn [check_alerts]. rewrite IH4.
      destruct (String.eqb_spec (alert_symbol a) symbol) as [C|_];
        [contradiction|].
      reflexivity.
Qed.

Section DictLookup.

Context {K V : Type}.
Variable eqb : K -> K -> bool.
Hypothesis eqb_eq : forall a b, eqb a b = true <-> a = b.

Lemma eqb_refl_true (k : K) : eqb k k = true.
Proof. apply eqb_eq. reflexivity. Qed.

Lemma dict_get_set_same (k : K) (v : V) (d : list (K * V)) :
  dict_get eqb k (dict_set eqb k v d) = Some v.
Proof.
  induction d as [|[k' v'] d IH]; cbn [dict_set dict_get].
  - rewrite eqb_refl_true. reflexivity.
  - destruct (eqb k k') eqn:E; cbn [dict_get]; rewrite E; [reflexivity|exact IH].
Qed.

Lemma dict_get_set_other (k k0 : K) (v : V) (d : list (K * V)) :
  k0 <> k -> dict_get eqb k0 (dict_set eqb k v d) = dict_get eqb k0 d.
Proof.
  intro Hne. induction d as [|[k' v'] d IH]; cbn [dict_set dict_get].
  - destruct (eqb k0 k) eqn:E; [apply eqb_eq in E; contradiction|reflexivity].
  - destruct (eqb k k') eqn:E; cbn [dict_get].
    + apply eqb_eq in E. subst k'.
      destruct (eqb k0 k) eqn:E0; [apply eqb_eq in E0; contradiction|].
      reflexivity.
    + rewrite IH. reflexivity.
Qed.

End DictLookup.

Lemma dict_del_absent (id : string) (alerts : Alerts) :
  dict_get String.eqb id alerts = None -> dict_del id alerts = alerts.
Proof.
  induction alerts as [|[k v] rest IH]; cbn [dict_get dict_del]; [reflexivity|].
  destruct (String.eqb id k); [discriminate|].
  intro H. rewrite (IH H). reflexivity.
Qed.

Lemma dict_del_set (id : string) (a : PriceAlert) (alerts : Alerts) :
  dict_get String.eqb id alerts = None ->
  dict_del id (dict_set String.eqb id a alerts) = alerts.
Proof.
  induction alerts as [|[k v] rest IH]; cbn [dict_get dict_set dict_del].
  - rewrite String.eqb_refl. reflexivity.
  - destruct (String.eqb id k) eqn:E; [discriminate|].
    intro H. cbn [dict_del]. rewrite E, (IH H). reflexivity.
Qed.

Lemma dict_del_keys (id : string) (alerts : Alerts) :
  NoDup (map fst alerts) ->
  dict_get String.eqb id (dict_del id alerts) = None
  /\ (forall k, k <> id ->
        dict_get String.eqb k (dict_del id alerts)
        = dict_get String.eqb k alerts).
Proof.
  induction alerts as [|[k v] rest IH]; cbn [map fst dict_del dict_get].
  - intros _. split; reflexivity.
  - intro Hnd. inversion Hnd as [|x l Hnotin Hrest]; subst.
    destruct (String.eqb_spec id k) as [->|Hne].
    + split.
      * apply (dict_get_none String.eqb String.eqb_eq). exact Hnotin.
      * intros k0 Hk0. destruct (String.eqb_spec k0 k); [contradiction|].
        reflexivity.
    + destruct (IH Hrest) as [IHa IHb]. cbn [dict_get]. split.
      * destruct (String.eqb_spec id k); [contradiction|]. exact IHa.
      * intros k0 Hk0. destruct (String.eqb k0 k); [reflexivity|].
        apply IHb. exact Hk0.
Qed.

(** X30: an alert that was added is found under its id, and the alerts
    under the other ids are untouched; adding under an id already in use
    replaces the alert and keeps the number of alerts.  Removing an id that is
    not there answers False and changes nothing; removing one that is there
    answers True, leaves no alert under that id and the others untouched; and
    removing an alert right after adding it under a new id gives back the
    alerts there were. *)
Theorem alerts_add_remove (alerts : Alerts) (a : PriceAlert) (id : string) :
  NoDup (map fst alerts) ->
  let added := fst (add_alert alerts a) in
  NoDup (map fst added)
  /\ dict_get String.eqb (alert_id a) added = Some a
  /\ (id <> alert_id a ->
      dict_get String.eqb id added = dict_get String.eqb id alerts)
  /\ (dict_get String.eqb (alert_id a) alerts <> None ->
      List.length added = List.length alerts)
  /\ (dict_get String.eqb (alert_id a) alerts = None ->
      remove_alert added (alert_id a) = (alerts, true))
  /\ (dict_get String.eqb id alerts = None ->
      remove_alert alerts id = (alerts, false))
  /\ (dict_get String.eqb id alerts <> None ->
      snd (remove_alert alerts id) = true
      /\ dict_get String.eqb id (fst (remove_alert alerts id)) = None
      /\ forall k, k <> id ->
           dict_get String.eqb k (fst (remove_alert alerts id))
           = dict_get String.eqb k alerts).
Proof.
  intro Hnd. cbn zeta. unfold add_alert, remove_alert. cbn [fst].
  split; [apply (dict_set_nodup String.eqb String.eqb_eq); exact Hnd|].
  split; [apply (dict_get_set_same String.eqb String.eqb_eq)|].
  split; [apply (dict_get_set_other String.eqb String.eqb_eq)|].
  split.
  { intro H. rewrite <- (length_map fst), <- (length_map fst alerts).
    rewrite (dict_set_keys String.eqb).
    destruct (dict_get String.eqb (alert_id a) alerts);
      [reflexivity|contradiction]. }
  split.
  { intro H. rewrite (dict_get_set_same String.eqb String.eqb_eq).
    rewrite (dict_del_set _ _ _ H). reflexivity. }
  split.
  { intro H. rewrite H. reflexivity. }
  intro H. destruct (dict_get String.eqb id alerts); [|contradiction].
  cbn [fst snd]. destruct (dict_del_keys id alerts Hnd) as [Ha Hb].
  split; [reflexivity|]. split; [exact Ha|exact Hb].
Qed.

Lemma alerts_add_remove_witness :
  remove_alert
    (fst (add_alert [] (mkPriceAlert "a1" "NQ" "above" 21500 true false))) "a1"
  = ([], true).
Proof.
  destruct (alerts_add_remove []
              (mkPriceAlert "a1" "NQ" "above" 21500 true false) "a1")
    as (_ & _ & _ & _ & H & _).
  - constructor.
  - apply H. reflexivity.
Defined.
